(** * Quiz session logic of static/js/app.js

    A shallow embedding of the quiz part of the tutor front end:
    [startQuiz], [displayQuestion], [selectOption], [submitQuizAnswer],
    [nextQuizQuestion], [finishQuiz] and [saveQuizResults], together with
    the globals they mutate ([currentLesson], [currentQuiz],
    [quizStartTime]) and the part of the page they write to; further
    down also [switchTab], [checkQuizAvailability] with
    [showQuizInterface] and [showQuizNotAvailable], and
    [displayProgress].

    JavaScript numbers are IEEE-754 binary64 values.  Indices, the score
    and the clock are integers far below 2^53 and are kept as [nat] or
    [Z]; the one place where rounding matters, the percentage
    [Math.round((score / questions.length) * 100)], goes through the
    module [F64], which writes the binary64 rounding out on [Z].

    Option texts and progress topics reach the page through
    [innerHTML].  The page model holds them as text, which is what the
    browser shows for a text without markup ([plain_text]); the
    statements about the elements of the page carry that condition. *)

From Stdlib Require Import ZArith Lia Bool.
From Stdlib Require Import Floats.PrimFloat Floats.FloatOps Floats.SpecFloat.
From Stdlib Require Import Numbers.Cyclic.Int63.Uint63.
From stdpp Require Import base list strings.

Local Open Scope Z_scope.

(** ** Binary64 arithmetic on non-negative values *)

Module F64.

(** A non-negative finite double, as the number [mant * 2^expo].  The
    results of [round_ratio] have [2^52 <= mant < 2^53]; zero is
    [mant = 0]. *)
Record t : Type := mk { mant : Z; expo : Z }.

Definition zero : t := mk 0 0.

(** [ratio_geb_pow2 a b k] decides [2^k <= a / b] for [a >= 0], [0 < b]
    and any sign of [k], by cross-multiplication. *)
Definition ratio_geb_pow2 (a b k : Z) : bool :=
  b * 2 ^ Z.max k 0 <=? a * 2 ^ Z.max (- k) 0.

(** [floor (log2 (a / b))] for [0 < a], [0 < b]. *)
Definition ilog2_ratio (a b : Z) : Z :=
  let k := Z.log2 a - Z.log2 b in
  if ratio_geb_pow2 a b k then k else k - 1.

(** Nearest integer to [num / den], ties to the even one. *)
Definition round_nearest_even (num den : Z) : Z :=
  let q := num / den in
  let r := num mod den in
  if 2 * r <? den then q
  else if den <? 2 * r then q + 1
  else if Z.even q then q else q + 1.

(** The double nearest to the positive rational [a / b]
    (round-to-nearest, ties-to-even, 53 bits of precision).  The
    exponent range is not modelled: every value that occurs below lies
    between [2^-53] and [100]. *)
Definition round_ratio (a b : Z) : t :=
  let e := ilog2_ratio a b - 52 in
  let m := round_nearest_even (a * 2 ^ Z.max (- e) 0) (b * 2 ^ Z.max e 0) in
  if m =? 2 ^ 53 then mk (2 ^ 52) (e + 1) else mk m e.

(** [a / b] in JavaScript, for integers [0 <= a] and [0 < b] below
    [2^53]. *)
Definition div_int (a b : Z) : t :=
  if a =? 0 then zero else round_ratio a b.

(** [x * c] in JavaScript, for an integer [0 < c] below [2^53]. *)
Definition mul_int (x : t) (c : Z) : t :=
  if mant x =? 0 then zero
  else round_ratio (mant x * c * 2 ^ Z.max (expo x) 0) (2 ^ Z.max (- expo x) 0).

(** [Math.round x]: the integer nearest to [x], a tie going up, that
    is [floor (x + 1/2)] computed exactly. *)
Definition Math_round (x : t) : Z :=
  if 0 <=? expo x then mant x * 2 ^ expo x
  else (2 * mant x + 2 ^ (- expo x)) / 2 ^ (- expo x + 1).

(** The same three operations on the primitive binary64 numbers, used
    to cross-check the integer model. *)
Definition prim_Math_round (f : float) : Z :=
  match Prim2SF f with
  | S754_finite false m e => Math_round (mk (Zpos m) e)
  | _ => 0
  end.

Definition prim_percentage (score len : Z) : Z :=
  prim_Math_round
    (PrimFloat.mul
       (PrimFloat.div (PrimFloat.of_uint63 (Uint63.of_Z score))
                      (PrimFloat.of_uint63 (Uint63.of_Z len)))
       (PrimFloat.of_uint63 100%uint63)).

End F64.

(** ** Data *)

(** A number that may fail to be an integer: [0 / 0] is [NaN] and
    [n / 0] for [n > 0] is [Infinity]; [Math.round] keeps both. *)
Inductive jsnum : Type :=
  | NaN
  | Infinity
  | Int (z : Z).

(** [x >= c] on numbers: every comparison with [NaN] is false. *)
Definition jsnum_geb (x : jsnum) (c : Z) : bool :=
  match x with
  | NaN => false
  | Infinity => true
  | Int z => c <=? z
  end.

(** The only exception the quiz code can raise: a property access on
    [null] or [undefined]. *)
Inductive js_error : Type :=
  | TypeError.

(** One entry of [data.quiz.questions].  [correctAnswer] is a number, so
    that [===] against the selected index is equality of integers. *)
Record Question : Type := {
  question : string;
  options : list string;
  correctAnswer : Z
}.

(** The object literal stored in [userAnswers] by [submitQuizAnswer]. *)
Record AnswerRecord : Type := {
  selected : Z;
  correct : Z;
  isCorrect : bool
}.

(** [currentQuiz].  [userAnswers] is a JavaScript array: a slot may be a
    hole, so its cells are optional.  [selectedAnswer = None] is
    [undefined]. *)
Record Quiz : Type := {
  questions : list Question;
  currentQuestionIndex : nat;
  userAnswers : list (option AnswerRecord);
  score : nat;
  selectedAnswer : option Z
}.

(** [currentLesson]; only [lesson_id] is read by the quiz code, and only
    for its truthiness and as a field of the requests. *)
Record Lesson : Type := {
  lesson_id : Z
}.

(** The body posted to [/api/quiz/save]. *)
Record SavedResult : Type := {
  saved_lesson_id : Z;
  saved_score : jsnum;
  total_questions : nat;
  correct_answers : nat;
  time_taken : Z;
  answers : list (option AnswerRecord)
}.

(** *** The page *)

(** An element of class [option-item] that carries a [data-option-index]
    attribute, with its text and the three classes the quiz code puts on
    it.  [displayQuestion] builds one per option. *)
Record OptionItem : Type := {
  data_option_index : nat;
  option_text : string;
  cls_selected : bool;
  cls_correct : bool;
  cls_incorrect : bool
}.

Inductive NextLabel : Type :=
  | NextQuestion
  | FinishQuiz.

Inductive Feedback : Type :=
  | Excellent
  | GreatJob
  | GoodEffort
  | KeepStudying.

Inductive Toast : Type :=
  | NoLessonAvailable
  | QuizGenerated
  | GenerateFailed
  | NetworkError
  | QuizCompleted (percentage : jsnum) (success : bool).

(** What [finishQuiz] writes into the result panel. *)
Record ResultPanel : Type := {
  finalScore : nat * nat;
  finalPercentage : jsnum;
  quizTime : Z;
  quizFeedback : Feedback
}.

(** The part of the page the quiz code reads and writes.
    [questionOptions] lists, in document order, the elements that
    [querySelectorAll('.option-item')] and
    [querySelector('[data-option-index=...]')] range over.  Both search
    the whole document; the page model takes every such element to lie
    inside [#questionOptions], that is, the lesson text, the chat and the
    other panes are taken to hold no element with that class or that
    attribute. *)
Record View : Type := {
  totalQuestions : nat;
  currentQuestion : nat;
  questionText : string;
  questionOptions : list OptionItem;
  submitAnswerBtn_disabled : bool;
  nextQuestionBtn_hidden : bool;
  nextQuestionBtn_label : NextLabel;
  quizQuestion_hidden : bool;
  quizResult_hidden : bool;
  resultPanel : option ResultPanel;
  loadingOverlay_hidden : bool;
  toasts : list Toast
}.

(** The globals of the script, the page, and the requests sent to
    [/api/quiz/save] so far. *)
Record State : Type := {
  currentLesson : option Lesson;
  currentQuiz : option Quiz;
  quizStartTime : option Z;
  view : View;
  saveRequests : list SavedResult
}.

(** *** Field updates *)

Definition with_currentQuiz (q : option Quiz) (s : State) : State :=
  {| currentLesson := currentLesson s; currentQuiz := q;
     quizStartTime := quizStartTime s; view := view s;
     saveRequests := saveRequests s |}.

Definition with_quizStartTime (t : option Z) (s : State) : State :=
  {| currentLesson := currentLesson s; currentQuiz := currentQuiz s;
     quizStartTime := t; view := view s;
     saveRequests := saveRequests s |}.

Definition with_view (v : View) (s : State) : State :=
  {| currentLesson := currentLesson s; currentQuiz := currentQuiz s;
     quizStartTime := quizStartTime s; view := v;
     saveRequests := saveRequests s |}.

Definition with_saveRequests (l : list SavedResult) (s : State) : State :=
  {| currentLesson := currentLesson s; currentQuiz := currentQuiz s;
     quizStartTime := quizStartTime s; view := view s;
     saveRequests := l |}.

Definition with_currentQuestionIndex (i : nat) (q : Quiz) : Quiz :=
  {| questions := questions q; currentQuestionIndex := i;
     userAnswers := userAnswers q; score := score q;
     selectedAnswer := selectedAnswer q |}.

Definition with_userAnswers (l : list (option AnswerRecord)) (q : Quiz) : Quiz :=
  {| questions := questions q; currentQuestionIndex := currentQuestionIndex q;
     userAnswers := l; score := score q;
     selectedAnswer := selectedAnswer q |}.

Definition with_score (n : nat) (q : Quiz) : Quiz :=
  {| questions := questions q; currentQuestionIndex := currentQuestionIndex q;
     userAnswers := userAnswers q; score := n;
     selectedAnswer := selectedAnswer q |}.

Definition with_selectedAnswer (a : option Z) (q : Quiz) : Quiz :=
  {| questions := questions q; currentQuestionIndex := currentQuestionIndex q;
     userAnswers := userAnswers q; score := score q;
     selectedAnswer := a |}.

Definition with_questionOptions (l : list OptionItem) (v : View) : View :=
  {| totalQuestions := totalQuestions v; currentQuestion := currentQuestion v;
     questionText := questionText v; questionOptions := l;
     submitAnswerBtn_disabled := submitAnswerBtn_disabled v;
     nextQuestionBtn_hidden := nextQuestionBtn_hidden v;
     nextQuestionBtn_label := nextQuestionBtn_label v;
     quizQuestion_hidden := quizQuestion_hidden v;
     quizResult_hidden := quizResult_hidden v;
     resultPanel := resultPanel v;
     loadingOverlay_hidden := loadingOverlay_hidden v;
     toasts := toasts v |}.

Definition with_submitAnswerBtn_disabled (b : bool) (v : View) : View :=
  {| totalQuestions := totalQuestions v; currentQuestion := currentQuestion v;
     questionText := questionText v; questionOptions := questionOptions v;
     submitAnswerBtn_disabled := b;
     nextQuestionBtn_hidden := nextQuestionBtn_hidden v;
     nextQuestionBtn_label := nextQuestionBtn_label v;
     quizQuestion_hidden := quizQuestion_hidden v;
     quizResult_hidden := quizResult_hidden v;
     resultPanel := resultPanel v;
     loadingOverlay_hidden := loadingOverlay_hidden v;
     toasts := toasts v |}.

Definition with_nextQuestionBtn (hidden : bool) (label : NextLabel) (v : View) : View :=
  {| totalQuestions := totalQuestions v; currentQuestion := currentQuestion v;
     questionText := questionText v; questionOptions := questionOptions v;
     submitAnswerBtn_disabled := submitAnswerBtn_disabled v;
     nextQuestionBtn_hidden := hidden;
     nextQuestionBtn_label := label;
     quizQuestion_hidden := quizQuestion_hidden v;
     quizResult_hidden := quizResult_hidden v;
     resultPanel := resultPanel v;
     loadingOverlay_hidden := loadingOverlay_hidden v;
     toasts := toasts v |}.

Definition with_totalQuestions (n : nat) (v : View) : View :=
  {| totalQuestions := n; currentQuestion := currentQuestion v;
     questionText := questionText v; questionOptions := questionOptions v;
     submitAnswerBtn_disabled := submitAnswerBtn_disabled v;
     nextQuestionBtn_hidden := nextQuestionBtn_hidden v;
     nextQuestionBtn_label := nextQuestionBtn_label v;
     quizQuestion_hidden := quizQuestion_hidden v;
     quizResult_hidden := quizResult_hidden v;
     resultPanel := resultPanel v;
     loadingOverlay_hidden := loadingOverlay_hidden v;
     toasts := toasts v |}.

Definition with_currentQuestion (n : nat) (v : View) : View :=
  {| totalQuestions := totalQuestions v; currentQuestion := n;
     questionText := questionText v; questionOptions := questionOptions v;
     submitAnswerBtn_disabled := submitAnswerBtn_disabled v;
     nextQuestionBtn_hidden := nextQuestionBtn_hidden v;
     nextQuestionBtn_label := nextQuestionBtn_label v;
     quizQuestion_hidden := quizQuestion_hidden v;
     quizResult_hidden := quizResult_hidden v;
     resultPanel := resultPanel v;
     loadingOverlay_hidden := loadingOverlay_hidden v;
     toasts := toasts v |}.

Definition with_questionText (t : string) (v : View) : View :=
  {| totalQuestions := totalQuestions v; currentQuestion := currentQuestion v;
     questionText := t; questionOptions := questionOptions v;
     submitAnswerBtn_disabled := submitAnswerBtn_disabled v;
     nextQuestionBtn_hidden := nextQuestionBtn_hidden v;
     nextQuestionBtn_label := nextQuestionBtn_label v;
     quizQuestion_hidden := quizQuestion_hidden v;
     quizResult_hidden := quizResult_hidden v;
     resultPanel := resultPanel v;
     loadingOverlay_hidden := loadingOverlay_hidden v;
     toasts := toasts v |}.

Definition with_panels (question_hidden result_hidden : bool) (v : View) : View :=
  {| totalQuestions := totalQuestions v; currentQuestion := currentQuestion v;
     questionText := questionText v; questionOptions := questionOptions v;
     submitAnswerBtn_disabled := submitAnswerBtn_disabled v;
     nextQuestionBtn_hidden := nextQuestionBtn_hidden v;
     nextQuestionBtn_label := nextQuestionBtn_label v;
     quizQuestion_hidden := question_hidden;
     quizResult_hidden := result_hidden;
     resultPanel := resultPanel v;
     loadingOverlay_hidden := loadingOverlay_hidden v;
     toasts := toasts v |}.

Definition with_resultPanel (r : option ResultPanel) (v : View) : View :=
  {| totalQuestions := totalQuestions v; currentQuestion := currentQuestion v;
     questionText := questionText v; questionOptions := questionOptions v;
     submitAnswerBtn_disabled := submitAnswerBtn_disabled v;
     nextQuestionBtn_hidden := nextQuestionBtn_hidden v;
     nextQuestionBtn_label := nextQuestionBtn_label v;
     quizQuestion_hidden := quizQuestion_hidden v;
     quizResult_hidden := quizResult_hidden v;
     resultPanel := r;
     loadingOverlay_hidden := loadingOverlay_hidden v;
     toasts := toasts v |}.

Definition with_loadingOverlay_hidden (b : bool) (v : View) : View :=
  {| totalQuestions := totalQuestions v; currentQuestion := currentQuestion v;
     questionText := questionText v; questionOptions := questionOptions v;
     submitAnswerBtn_disabled := submitAnswerBtn_disabled v;
     nextQuestionBtn_hidden := nextQuestionBtn_hidden v;
     nextQuestionBtn_label := nextQuestionBtn_label v;
     quizQuestion_hidden := quizQuestion_hidden v;
     quizResult_hidden := quizResult_hidden v;
     resultPanel := resultPanel v;
     loadingOverlay_hidden := b;
     toasts := toasts v |}.

Definition with_toasts (l : list Toast) (v : View) : View :=
  {| totalQuestions := totalQuestions v; currentQuestion := currentQuestion v;
     questionText := questionText v; questionOptions := questionOptions v;
     submitAnswerBtn_disabled := submitAnswerBtn_disabled v;
     nextQuestionBtn_hidden := nextQuestionBtn_hidden v;
     nextQuestionBtn_label := nextQuestionBtn_label v;
     quizQuestion_hidden := quizQuestion_hidden v;
     quizResult_hidden := quizResult_hidden v;
     resultPanel := resultPanel v;
     loadingOverlay_hidden := loadingOverlay_hidden v;
     toasts := l |}.

Definition with_classes (sel cor inc : bool) (o : OptionItem) : OptionItem :=
  {| data_option_index := data_option_index o; option_text := option_text o;
     cls_selected := sel; cls_correct := cor; cls_incorrect := inc |}.

(** ** Control flow: mutable globals and exceptions *)

(** A statement either completes with a value or throws; the mutations
    made before a throw stay in place. *)
Inductive result (A : Type) : Type :=
  | Ok (a : A)
  | Throw (e : js_error).
Arguments Ok {A} a.
Arguments Throw {A} e.

Definition M (A : Type) : Type := State -> result A * State.

Definition ret {A : Type} (a : A) : M A := fun s => (Ok a, s).

Definition bind {A B : Type} (m : M A) (k : A -> M B) : M B :=
  fun s =>
    match m s with
    | (Ok a, s') => k a s'
    | (Throw e, s') => (Throw e, s')
    end.

Definition throw {A : Type} (e : js_error) : M A := fun s => (Throw e, s).

Definition get : M State := fun s => (Ok s, s).

Definition modify (f : State -> State) : M unit := fun s => (Ok tt, f s).

(** [p.then(body).catch(handler)] for a synchronous [body]. *)
Definition try_catch {A : Type} (body : M A) (handler : js_error -> M A) : M A :=
  fun s =>
    match body s with
    | (Throw e, s') => handler e s'
    | r => r
    end.

Declare Scope js_scope.
Delimit Scope js_scope with js.
Notation "'let!' x ':=' m 'in' k" := (bind m (fun x => k))
  (at level 10, x name, m at level 100, k at level 200) : js_scope.
Notation "m ;; k" := (bind m (fun _ => k))
  (at level 100, k at level 200, right associativity) : js_scope.
Local Open Scope js_scope.

(** Reading a property of [currentQuiz] throws when it is [null]. *)
Definition the_quiz : M Quiz :=
  fun s =>
    match currentQuiz s with
    | Some q => (Ok q, s)
    | None => (Throw TypeError, s)
    end.

(** [currentQuiz.f = ...]: an update of the shared quiz object. *)
Definition set_quiz (f : Quiz -> Quiz) : M unit :=
  let! q := the_quiz in
  modify (with_currentQuiz (Some (f q))).

Definition set_view (f : View -> View) : M unit :=
  modify (fun s => with_view (f (view s)) s).

Definition showToast (t : Toast) : M unit :=
  set_view (fun v => with_toasts (toasts v ++ [t]) v).

Definition showLoading : M unit := set_view (with_loadingOverlay_hidden false).
Definition hideLoading : M unit := set_view (with_loadingOverlay_hidden true).

(** [a[i] = x] on a JavaScript array: past the end the array grows and
    the cells in between are holes. *)
Definition array_set {A : Type} (a : list (option A)) (i : nat) (x : A)
  : list (option A) :=
  if decide (i < length a)%nat then <[i := Some x]> a
  else a ++ replicate (i - length a) None ++ [Some x].

(** ** The quiz functions *)

(** *** Option texts and markup

    [displayQuestion] hands each option string to [innerHTML], so the
    browser parses it as HTML.  A string is plain text when it has no
    [<] (code 60) and no [&] (code 38), and neither a NUL nor a carriage
    return (codes 0 and 13), which the parser drops or rewrites: such a
    string is parsed as one piece of text equal to itself and adds no
    element to the page. *)
Definition markup_char (c : Ascii.ascii) : bool :=
  let code := Z.of_N (Ascii.N_of_ascii c) in
  (code =? 60) || (code =? 38) || (code =? 0) || (code =? 13).

Fixpoint is_plain (s : string) : bool :=
  match s with
  | EmptyString => true
  | String c s' => negb (markup_char c) && is_plain s'
  end.

Definition plain_text (s : string) : Prop := is_plain s = true.

(** Every option text of the question is plain text. *)
Definition plain_options (qu : Question) : Prop :=
  Forall plain_text (options qu).

(** The element built for one option, [text] being what its
    [option-text] cell shows. *)
Definition render_option (index : nat) (text : string) : OptionItem :=
  {| data_option_index := index; option_text := text;
     cls_selected := false; cls_correct := false; cls_incorrect := false |}.

(** [displayQuestion()].  The options are rendered as text: this is what
    the browser builds for a question with [plain_options].  An option
    string with markup would put further elements on the page, which
    [imap render_option] does not produce; the statements about the
    elements of the page carry [plain_options] as a hypothesis, and
    [markup_state] below writes out one page with markup by hand. *)
Definition displayQuestion : M unit :=
  let! s := get in
  match currentQuiz s with
  | None => ret tt
  | Some q =>
      set_view (with_currentQuestion (currentQuestionIndex q + 1)) ;;
      match questions q !! currentQuestionIndex q with
      | None => throw TypeError
      | Some qu =>
          set_view (with_questionText (question qu)) ;;
          set_view (with_questionOptions (imap render_option (options qu))) ;;
          set_view (with_submitAnswerBtn_disabled true) ;;
          set_view (fun v => with_nextQuestionBtn true (nextQuestionBtn_label v) v) ;;
          set_view (fun v =>
            with_questionOptions
              (map (with_classes false false false) (questionOptions v)) v)
      end
  end.

Definition remove_selected (o : OptionItem) : OptionItem :=
  with_classes false (cls_correct o) (cls_incorrect o) o.

Definition add_selected (o : OptionItem) : OptionItem :=
  with_classes true (cls_correct o) (cls_incorrect o) o.

(** [document.querySelector('[data-option-index="i"]')]: the position,
    among the elements listed in [questionOptions], of the first one
    carrying that attribute value, if any.  The list stands for the
    whole document (see [View]): an element that the markup of an option
    text adds is found like any other when the list holds it. *)
Definition querySelector_option (optionIndex : Z) (items : list OptionItem)
  : option nat :=
  fst <$> list_find (fun o => Z.of_nat (data_option_index o) = optionIndex) items.

Definition selectOption (optionIndex : Z) : M unit :=
  set_view (fun v =>
    with_questionOptions (map remove_selected (questionOptions v)) v) ;;
  let! s := get in
  match querySelector_option optionIndex (questionOptions (view s)) with
  | None => throw TypeError
  | Some pos =>
      set_view (fun v =>
        with_questionOptions (alter add_selected pos (questionOptions v)) v) ;;
      set_view (with_submitAnswerBtn_disabled false) ;;
      set_quiz (with_selectedAnswer (Some optionIndex))
  end.

(** The feedback loop of [submitQuizAnswer] over the option items;
    [index] is the position in [querySelectorAll('.option-item')]. *)
Definition mark_feedback (correctAnswer selectedAnswer : Z)
    (index : nat) (o : OptionItem) : OptionItem :=
  if decide (Z.of_nat index = correctAnswer) then
    with_classes (cls_selected o) true (cls_incorrect o) o
  else if decide (Z.of_nat index = selectedAnswer) then
    with_classes (cls_selected o) (cls_correct o) true o
  else o.

Definition submitQuizAnswer : M unit :=
  let! q := the_quiz in
  match selectedAnswer q with
  | None => ret tt
  | Some sel =>
      match questions q !! currentQuestionIndex q with
      | None => throw TypeError
      | Some qu =>
          let isCorrect := bool_decide (sel = correctAnswer qu) in
          set_quiz (fun q =>
            with_userAnswers
              (array_set (userAnswers q) (currentQuestionIndex q)
                 {| selected := sel; correct := correctAnswer qu;
                    isCorrect := isCorrect |}) q) ;;
          (if isCorrect then set_quiz (fun q => with_score (S (score q)) q)
           else ret tt) ;;
          set_view (fun v =>
            with_questionOptions
              (imap (mark_feedback (correctAnswer qu) sel) (questionOptions v)) v) ;;
          set_view (with_submitAnswerBtn_disabled true) ;;
          (if Z.of_nat (currentQuestionIndex q) <? Z.of_nat (length (questions q)) - 1
           then set_view (with_nextQuestionBtn false NextQuestion)
           else set_view (with_nextQuestionBtn false FinishQuiz)) ;;
          set_quiz (with_selectedAnswer None)
      end
  end.

(** [Math.round((score / length) * 100)]. *)
Definition quiz_percentage (score len : nat) : jsnum :=
  match len, score with
  | O, O => NaN
  | O, S _ => Infinity
  | S _, _ =>
      Int (F64.Math_round
             (F64.mul_int (F64.div_int (Z.of_nat score) (Z.of_nat len)) 100))
  end.

Definition feedback_for (percentage : jsnum) : Feedback :=
  if jsnum_geb percentage 90 then Excellent
  else if jsnum_geb percentage 75 then GreatJob
  else if jsnum_geb percentage 60 then GoodEffort
  else KeepStudying.

(** [!currentLesson || !currentLesson.lesson_id] is false. *)
Definition lesson_ready (s : State) : option Lesson :=
  match currentLesson s with
  | Some l => if lesson_id l =? 0 then None else Some l
  | None => None
  end.

(** The request is sent and its answer only logged. *)
Definition saveQuizResults (percentage : jsnum) (duration : Z) : M unit :=
  let! s := get in
  match lesson_ready s with
  | None => ret tt
  | Some l =>
      let! q := the_quiz in
      modify (fun s =>
        with_saveRequests
          (saveRequests s ++
             [{| saved_lesson_id := lesson_id l;
                 saved_score := percentage;
                 total_questions := length (questions q);
                 correct_answers := score q;
                 time_taken := duration;
                 answers := userAnswers q |}]) s)
  end.

(** [now] is the value of [Date.now()]; [null] counts as 0 in the
    subtraction. *)
Definition finishQuiz (now : Z) : M unit :=
  let! s := get in
  let quizDuration := (now - default 0 (quizStartTime s)) / 1000 in
  let! q := the_quiz in
  let percentage := quiz_percentage (score q) (length (questions q)) in
  set_view (with_panels true false) ;;
  set_view (with_resultPanel
    (Some {| finalScore := (score q, length (questions q));
             finalPercentage := percentage;
             quizTime := quizDuration;
             quizFeedback := feedback_for percentage |})) ;;
  saveQuizResults percentage quizDuration ;;
  showToast (QuizCompleted percentage (jsnum_geb percentage 75)).

Definition nextQuizQuestion (now : Z) : M unit :=
  set_quiz (fun q => with_currentQuestionIndex (S (currentQuestionIndex q)) q) ;;
  let! q := the_quiz in
  if decide (currentQuestionIndex q < length (questions q))%nat
  then displayQuestion
  else finishQuiz now.

(** The answer of [/api/quiz/generate]. *)
Inductive GenerateResponse : Type :=
  | GenerateOk (quiz : list Question)
  | GenerateError
  | FetchRejected.

(** [data.quiz] once the callback has reset its fields; the object was
    parsed from the response, so it has no [selectedAnswer] yet. *)
Definition fresh_quiz (qs : list Question) : Quiz :=
  {| questions := qs; currentQuestionIndex := 0; userAnswers := [];
     score := 0; selectedAnswer := None |}.

(** The [.then(data => ...)] callback of [startQuiz]. *)
Definition startQuiz_then (data : GenerateResponse) : M unit :=
  hideLoading ;;
  match data with
  | GenerateOk qs =>
      modify (with_currentQuiz (Some (fresh_quiz qs))) ;;
      set_view (with_totalQuestions (length qs)) ;;
      set_view (with_panels false true) ;;
      displayQuestion ;;
      showToast QuizGenerated
  | _ => showToast GenerateFailed
  end.

(** The [.catch(error => ...)] callback of [startQuiz]. *)
Definition startQuiz_catch : M unit :=
  hideLoading ;; showToast NetworkError.

(** [startQuiz()] at time [now], the server answering [data]. *)
Definition startQuiz (now : Z) (data : GenerateResponse) : M unit :=
  let! s := get in
  match lesson_ready s with
  | None => showToast NoLessonAvailable
  | Some _ =>
      showLoading ;;
      modify (with_quizStartTime (Some now)) ;;
      match data with
      | FetchRejected => startQuiz_catch
      | _ => try_catch (startQuiz_then data) (fun _ => startQuiz_catch)
      end
  end.

(** ** Driving a quiz *)

(** Clicking options one after the other. *)
Fixpoint select_all (picks : list Z) : M unit :=
  match picks with
  | [] => ret tt
  | p :: picks' => selectOption p ;; select_all picks'
  end.

(** One question: some selections, submit, next. *)
Definition answer_question (now : Z) (picks : list Z) : M unit :=
  select_all picks ;; submitQuizAnswer ;; nextQuizQuestion now.

Fixpoint take_quiz (now : Z) (all_picks : list (list Z)) : M unit :=
  match all_picks with
  | [] => ret tt
  | picks :: rest => answer_question now picks ;; take_quiz now rest
  end.

(** The number of recorded answers with [isCorrect] true. *)
Definition is_correct_cell (c : option AnswerRecord) : bool :=
  match c with
  | Some a => isCorrect a
  | None => false
  end.

Definition count_correct (a : list (option AnswerRecord)) : nat :=
  length (filter (fun c => is_correct_cell c = true) a).

(** ** Sample data *)

Definition blank_page : View :=
  {| totalQuestions := 0; currentQuestion := 0; questionText := "";
     questionOptions := []; submitAnswerBtn_disabled := true;
     nextQuestionBtn_hidden := true; nextQuestionBtn_label := NextQuestion;
     quizQuestion_hidden := false; quizResult_hidden := true;
     resultPanel := None; loadingOverlay_hidden := true; toasts := [] |}.

(** A lesson is loaded and no quiz was started yet. *)
Definition idle_state : State :=
  {| currentLesson := Some {| lesson_id := 7 |}; currentQuiz := None;
     quizStartTime := None; view := blank_page; saveRequests := [] |}.

Definition sample_question (c : Z) : Question :=
  {| question := "Which one?"; options := ["A"; "B"; "C"; "D"];
     correctAnswer := c |}.

(** Four questions of four options, correct indices 1, 0, 2, 3. *)
Definition sample_questions : list Question :=
  [sample_question 1; sample_question 0; sample_question 2; sample_question 3].

(** The first question is shown and nothing is selected. *)
Definition awaiting_state : State :=
  snd (startQuiz 1000 (GenerateOk sample_questions) idle_state).

(** Option 1 of the first question is selected. *)
Definition selected_state : State :=
  snd (selectOption 1 awaiting_state).

(** The first answer was submitted. *)
Definition revealed_state : State :=
  snd (submitQuizAnswer selected_state).

(** The whole sample quiz was taken with the answers 1, 0, 0, 3. *)
Definition finished_state : State :=
  snd (take_quiz 9500 [[1]; [0]; [0]; [3]] awaiting_state).

(** A question whose first option text carries markup.  Assigned with
    [innerHTML], the text puts a second element of class [option-item],
    with [data-option-index] 7, inside the first option. *)
Definition markup_question : Question :=
  {| question := "Which one?";
     options := ["A<i class=option-item data-option-index=7></i>";
                 "B"; "C"; "D"];
     correctAnswer := 1 |}.

(** The state once [startQuiz] has shown [markup_question], with the
    page as the browser holds it: in document order the first option,
    the element its text adds, and the three other options; nothing is
    selected. *)
Definition markup_state : State :=
  let s := snd (startQuiz 1000 (GenerateOk [markup_question; sample_question 0])
                  idle_state) in
  with_view
    (with_questionOptions
       [render_option 0 "A"; render_option 7 ""; render_option 1 "B";
        render_option 2 "C"; render_option 3 "D"]
       (view s))
    s.

(** The sample quiz taken by clicking only, the first question being
    submitted twice: option 1, submit, option 1 again, submit, next;
    then options 0, 0 and 3, each with a submit and a next. *)
Definition resubmitting_run : M unit :=
  startQuiz 1000 (GenerateOk sample_questions) ;;
  selectOption 1 ;; submitQuizAnswer ;;
  selectOption 1 ;; submitQuizAnswer ;;
  nextQuizQuestion 9500 ;;
  take_quiz 9500 [[0]; [0]; [3]].

(** ** Derived notions used in the statements *)

(** [displayQuestion] on a quiz whose current question exists. *)
Definition shown (q : Quiz) (qu : Question) (v : View) : View :=
  {| totalQuestions := totalQuestions v;
     currentQuestion := currentQuestionIndex q + 1;
     questionText := question qu;
     questionOptions :=
       map (with_classes false false false) (imap render_option (options qu));
     submitAnswerBtn_disabled := true;
     nextQuestionBtn_hidden := true;
     nextQuestionBtn_label := nextQuestionBtn_label v;
     quizQuestion_hidden := quizQuestion_hidden v;
     quizResult_hidden := quizResult_hidden v;
     resultPanel := resultPanel v;
     loadingOverlay_hidden := loadingOverlay_hidden v;
     toasts := toasts v |}.

(** The [data-option-index] attributes of the items on the page. *)
Definition item_indices (v : View) : list nat :=
  map data_option_index (questionOptions v).

(** The page shows exactly the options of [qu]. *)
Definition rendered_for (qu : Question) (v : View) : Prop :=
  item_indices v = seq 0 (length (options qu)).


(** The page once [selectOption] has taken the highlight off every
    item. *)
Definition unselect_view (v : View) : View :=
  with_questionOptions (map remove_selected (questionOptions v)) v.

(** The page after a [selectOption] that found its item at [pos]. *)
Definition select_view (pos : nat) (v : View) : View :=
  with_submitAnswerBtn_disabled false
    (with_questionOptions
       (alter add_selected pos (questionOptions (unselect_view v)))
       (unselect_view v)).

(** The result panel and the request body computed by [finishQuiz] at
    time [now]. *)
Definition quiz_duration (now : Z) (start : option Z) : Z :=
  (now - default 0 start) / 1000.

Definition report_panel (now : Z) (start : option Z) (q : Quiz) : ResultPanel :=
  let percentage := quiz_percentage (score q) (length (questions q)) in
  {| finalScore := (score q, length (questions q));
     finalPercentage := percentage;
     quizTime := quiz_duration now start;
     quizFeedback := feedback_for percentage |}.

Definition report_request (now : Z) (start : option Z) (l : Lesson) (q : Quiz)
  : SavedResult :=
  {| saved_lesson_id := lesson_id l;
     saved_score := quiz_percentage (score q) (length (questions q));
     total_questions := length (questions q);
     correct_answers := score q;
     time_taken := quiz_duration now start;
     answers := userAnswers q |}.

Definition next_index (q : Quiz) : Quiz :=
  with_currentQuestionIndex (S (currentQuestionIndex q)) q.

(** The page after the [.then] callback of [startQuiz] received the
    questions [qs], the first of them being [qu]. *)
Definition started_view (qs : list Question) (qu : Question) (v : View) : View :=
  let v1 := with_loadingOverlay_hidden true v in
  let v2 := with_panels false true (with_totalQuestions (length qs) v1) in
  let v3 := shown (fresh_quiz qs) qu v2 in
  with_toasts (toasts v3 ++ [QuizGenerated]) v3.

(** A session that has just been started on [qs]. *)
Definition fresh_session (qs : list Question) (s : State) : Prop :=
  exists q,
    currentQuiz s = Some q
    /\ questions q = qs
    /\ currentQuestionIndex q = 0%nat
    /\ score q = 0%nat
    /\ userAnswers q = []
    /\ selectedAnswer q = None.

(** The record stored for question [qu] when [sel] is submitted. *)
Definition grade (qu : Question) (sel : Z) : AnswerRecord :=
  {| selected := sel; correct := correctAnswer qu;
     isCorrect := bool_decide (sel = correctAnswer qu) |}.

(** The quiz object after [submitQuizAnswer] recorded [sel] for the
    current question [qu]. *)
Definition submitted (q : Quiz) (qu : Question) (sel : Z) : Quiz :=
  {| questions := questions q;
     currentQuestionIndex := currentQuestionIndex q;
     userAnswers :=
       array_set (userAnswers q) (currentQuestionIndex q) (grade qu sel);
     score :=
       if bool_decide (sel = correctAnswer qu) then S (score q) else score q;
     selectedAnswer := None |}.

(** The page after that submission. *)
Definition reveal_view (q : Quiz) (qu : Question) (sel : Z) (v : View) : View :=
  with_nextQuestionBtn false
    (if Z.of_nat (currentQuestionIndex q) <? Z.of_nat (length (questions q)) - 1
     then NextQuestion else FinishQuiz)
    (with_submitAnswerBtn_disabled true
       (with_questionOptions
          (imap (mark_feedback (correctAnswer qu) sel) (questionOptions v)) v)).

(** Globals that the quiz functions other than [startQuiz] and
    [finishQuiz] never write. *)
Definition same_globals (s s' : State) : Prop :=
  currentLesson s' = currentLesson s
  /\ quizStartTime s' = quizStartTime s
  /\ saveRequests s' = saveRequests s.

(** The selections made on one question are option indices of that
    question, and there is at least one; the last one is the one that is
    submitted. *)
Definition valid_pick (qu : Question) (p : Z) : Prop :=
  0 <= p < Z.of_nat (length (options qu)).

Definition valid_picks (qu : Question) (picks : list Z) : Prop :=
  picks <> [] /\ Forall (valid_pick qu) picks.

Definition final_pick (picks : list Z) : Z := default 0 (last picks).

(** The answer records a run over [qs] with the selections [all_picks]
    leaves behind. *)
Definition grades (qs : list Question) (all_picks : list (list Z))
  : list (option AnswerRecord) :=
  zip_with (fun qu picks => Some (grade qu (final_pick picks))) qs all_picks.

(** Between two questions: [k] answers are recorded, the score counts the
    correct ones, nothing is selected, and question [k], if there is one,
    is on the page. *)
Definition at_question (qs : list Question) (k : nat)
    (recs : list (option AnswerRecord)) (s : State) : Prop :=
  currentQuiz s
  = Some {| questions := qs; currentQuestionIndex := k; userAnswers := recs;
            score := count_correct recs; selectedAnswer := None |}
  /\ length recs = k
  /\ forall qu, qs !! k = Some qu -> rendered_for qu (view s).

(** The quiz object once every question of [qs] has been answered, the
    records being [recs]. *)
Definition finished_quiz (qs : list Question)
    (recs : list (option AnswerRecord)) : Quiz :=
  {| questions := qs; currentQuestionIndex := length qs; userAnswers := recs;
     score := count_correct recs; selectedAnswer := None |}.

(** [finishQuiz] has run at time [now] on the quiz [q]. *)
Definition reported (now : Z) (q : Quiz) (s s' : State) : Prop :=
  currentQuiz s' = Some q
  /\ currentLesson s' = currentLesson s
  /\ quizStartTime s' = quizStartTime s
  /\ resultPanel (view s') = Some (report_panel now (quizStartTime s) q)
  /\ saveRequests s'
     = saveRequests s ++
       match lesson_ready s with
       | Some l => [report_request now (quizStartTime s) l q]
       | None => []
       end.

(** Round-half-up of the exact quotient [num / den], that is
    [floor (num / den + 1/2)], for [0 < den]. *)
Definition round_half_up (num den : Z) : Z := (2 * num + den) / (2 * den).

(** The percentage in exact arithmetic: [round (100 * score / total)]. *)
Definition exact_percentage (score total : nat) : Z :=
  round_half_up (100 * Z.of_nat score) (Z.of_nat total).

(** [100 * score / total] lies exactly half-way between two integers. *)
Definition half_way (score total : nat) : Prop :=
  (200 * Z.of_nat score + Z.of_nat total) mod (2 * Z.of_nat total) = 0.

(** Every question answered with its correct option. *)
Definition correct_picks (qs : list Question) : list (list Z) :=
  map (fun qu => [correctAnswer qu]) qs.

(** The data invariant of a question: its correct answer is one of its
    options. *)
Definition well_formed (qu : Question) : Prop :=
  valid_pick qu (correctAnswer qu).

(** The value of a double with a non-positive exponent is
    [mant / scale]. *)
Definition scale (x : F64.t) : Z := 2 ^ (- F64.expo x).

(** [x] is within a relative error of [2^-53] of [a / b]. *)
Definition approximates (x : F64.t) (a b : Z) : Prop :=
  F64.expo x <= 0
  /\ 0 < F64.mant x
  /\ 2 ^ 53 * Z.abs (F64.mant x * b - a * scale x) <= a * scale x.

(** The integer model of the percentage and the primitive binary64
    computation give the same result for every score out of every total
    up to [N]. *)
Definition model_agrees_upto (N : nat) : bool :=
  forallb (fun total =>
    forallb (fun score =>
      match quiz_percentage score total with
      | Int p => p =? F64.prim_percentage (Z.of_nat score) (Z.of_nat total)
      | _ => false
      end) (seq 0 (S total))) (seq 1 N).

(** A quiz of forty questions whose correct option is the first one, and
    a run that picks it on the first twenty-three questions only. *)
Definition forty_questions : list Question := replicate 40 (sample_question 0).

Definition twenty_three_right : list (list Z) :=
  replicate 23 [0] ++ replicate 17 [1].

Definition forty_finished_state : State :=
  snd ((startQuiz 1000 (GenerateOk forty_questions) ;;
        take_quiz 9500 twenty_three_right) idle_state).

(** ** Further notions used in the statements *)

(** No option item carries the [correct] or the [incorrect] class, as
    right after [displayQuestion]. *)
Definition unmarked (v : View) : Prop :=
  Forall (fun o => cls_correct o = false /\ cls_incorrect o = false)
         (questionOptions v).

(** A finished sample quiz whose lesson has gone. *)
Definition lessonless_state : State :=
  {| currentLesson := None; currentQuiz := currentQuiz finished_state;
     quizStartTime := quizStartTime finished_state;
     view := view finished_state; saveRequests := saveRequests finished_state |}.

(** Reading [a[j]] from a JavaScript array: a hole and an index past the
    end both give [undefined]. *)
Definition cell {A : Type} (a : list (option A)) (j : nat) : option A :=
  match a !! j with
  | Some (Some x) => Some x
  | _ => None
  end.

(** The recorded answers after question [k], shown as [qu], received the
    clicks [picks] followed by submit: without a click nothing is
    recorded. *)
Definition record_pick (recs : list (option AnswerRecord)) (k : nat)
    (qu : Question) (picks : list Z) : list (option AnswerRecord) :=
  match last picks with
  | Some p => array_set recs k (grade qu p)
  | None => recs
  end.

(** The recorded answers after the questions [qs], the first of which is
    question [k], received the clicks [all_picks]. *)
Fixpoint records_from (recs : list (option AnswerRecord)) (k : nat)
    (qs : list Question) (all_picks : list (list Z))
  : list (option AnswerRecord) :=
  match qs, all_picks with
  | qu :: qs', picks :: rest =>
      records_from (record_pick recs k qu picks) (S k) qs' rest
  | _, _ => recs
  end.

(** Between two questions of a run in which questions may have been
    skipped: at most [k] cells are in use. *)
Definition upto_question (qs : list Question) (k : nat)
    (recs : list (option AnswerRecord)) (s : State) : Prop :=
  currentQuiz s
  = Some {| questions := qs; currentQuestionIndex := k; userAnswers := recs;
            score := count_correct recs; selectedAnswer := None |}
  /\ (length recs <= k)%nat
  /\ forall qu, qs !! k = Some qu -> rendered_for qu (view s).

(** Every click is on an option of the question shown; there may be
    none. *)
Definition optional_picks (qu : Question) (picks : list Z) : Prop :=
  Forall (valid_pick qu) picks.

(** The page and the requests after [finishQuiz] ran at time [now] on
    the quiz [q]. *)
Definition finished_view (now : Z) (start : option Z) (q : Quiz) (v : View) : View :=
  let percentage := quiz_percentage (score q) (length (questions q)) in
  let v1 := with_resultPanel (Some (report_panel now start q))
              (with_panels true false v) in
  with_toasts (toasts v1 ++ [QuizCompleted percentage (jsnum_geb percentage 75)]) v1.

Definition requests_after_finish (now : Z) (s : State) (q : Quiz)
  : list SavedResult :=
  match lesson_ready s with
  | Some l => saveRequests s ++ [report_request now (quizStartTime s) l q]
  | None => saveRequests s
  end.

(** [Math.round (a / b)] on the primitive binary64 numbers, to
    cross-check the integer model of a single division. *)
Definition prim_round_div (a b : Z) : Z :=
  F64.prim_Math_round
    (PrimFloat.div (PrimFloat.of_uint63 (Uint63.of_Z a))
                   (PrimFloat.of_uint63 (Uint63.of_Z b))).

Definition division_agrees_upto (A B : nat) : bool :=
  forallb (fun b =>
    forallb (fun a =>
      F64.Math_round (F64.div_int (Z.of_nat a) (Z.of_nat b))
      =? prim_round_div (Z.of_nat a) (Z.of_nat b)) (seq 0 (S A))) (seq 1 B).

(** No option item carries any of the three classes. *)
Definition clean (v : View) : Prop :=
  Forall (fun o => cls_selected o = false
                   /\ cls_correct o = false
                   /\ cls_incorrect o = false) (questionOptions v).

(** ** Tabs *)

(** A button of [tabBtns] with its [data-tab] attribute, and a pane of
    [tabContents] with its [id]; [active] is the CSS class. *)
Record TabBtn : Type := {
  data_tab : string;
  btn_active : bool
}.

Record TabContent : Type := {
  content_id : string;
  content_active : bool
}.

Record Tabs : Type := {
  tabBtns : list TabBtn;
  tabContents : list TabContent
}.

Definition switchTab (tabName : string) (t : Tabs) : Tabs :=
  {| tabBtns :=
       map (fun btn =>
              {| data_tab := data_tab btn;
                 btn_active := bool_decide (data_tab btn = tabName) |})
           (tabBtns t);
     tabContents :=
       map (fun content =>
              {| content_id := content_id content;
                 content_active :=
                   bool_decide (content_id content = tabName +:+ "Tab") |})
           (tabContents t) |}.

(** The panes are named after the buttons, in the same order. *)
Definition panes_follow_buttons (t : Tabs) : Prop :=
  map content_id (tabContents t)
  = map (fun btn => data_tab btn +:+ "Tab") (tabBtns t).

Definition active_buttons (t : Tabs) : list string :=
  map data_tab (filter (fun btn => btn_active btn = true) (tabBtns t)).

Definition sample_tabs : Tabs :=
  {| tabBtns := [ {| data_tab := "lesson"; btn_active := true |};
                  {| data_tab := "chat"; btn_active := false |};
                  {| data_tab := "quiz"; btn_active := false |};
                  {| data_tab := "progress"; btn_active := false |} ];
     tabContents := [ {| content_id := "lessonTab"; content_active := true |};
                      {| content_id := "chatTab"; content_active := false |};
                      {| content_id := "quizTab"; content_active := false |};
                      {| content_id := "progressTab"; content_active := false |} ] |}.

(** ** The quiz tab *)

(** The [topic] and the [difficulty] of [currentLesson], which
    [showQuizInterface] reads besides what the record [Lesson] holds. *)
Record LessonHeader : Type := {
  topic : string;
  difficulty : Z
}.

(** The two panes of the quiz tab and the two labels of the quiz
    header; [quizDifficulty] is the number shown after "Level". *)
Record QuizPane : Type := {
  quizNotAvailable_hidden : bool;
  quizAvailable_hidden : bool;
  quizTopic : string;
  quizDifficulty : Z
}.

Record QuizTab : Type := {
  app : State;
  lesson_header : LessonHeader;
  pane : QuizPane
}.

Definition with_app (s : State) (t : QuizTab) : QuizTab :=
  {| app := s; lesson_header := lesson_header t; pane := pane t |}.

Definition with_pane (p : QuizPane) (t : QuizTab) : QuizTab :=
  {| app := app t; lesson_header := lesson_header t; pane := p |}.

Definition showQuizNotAvailable (t : QuizTab) : QuizTab :=
  with_pane {| quizNotAvailable_hidden := false;
               quizAvailable_hidden := true;
               quizTopic := quizTopic (pane t);
               quizDifficulty := quizDifficulty (pane t) |} t.

Definition showQuizInterface (t : QuizTab) : QuizTab :=
  match currentLesson (app t) with
  | Some _ =>
      with_pane {| quizNotAvailable_hidden := true;
                   quizAvailable_hidden := false;
                   quizTopic := topic (lesson_header t);
                   quizDifficulty := difficulty (lesson_header t) |} t
  | None =>
      with_pane {| quizNotAvailable_hidden := true;
                   quizAvailable_hidden := false;
                   quizTopic := quizTopic (pane t);
                   quizDifficulty := quizDifficulty (pane t) |} t
  end.

(** The answer of [/api/quiz/check]: its two flags, or a failed
    request. *)
Inductive CheckResponse : Type :=
  | CheckAnswer (success quiz_available : bool)
  | CheckRejected.

(** [checkQuizAvailability()], the server answering [check]; if this
    leads to [startQuiz()], that call happens at time [now] and its
    request is answered [data]. *)
Definition checkQuizAvailability (check : CheckResponse) (now : Z)
    (data : GenerateResponse) (t : QuizTab) : QuizTab :=
  match lesson_ready (app t) with
  | Some _ =>
      match check with
      | CheckAnswer true true =>
          let t1 := showQuizInterface t in
          match currentQuiz (app t1) with
          | None =>
              match startQuiz now data (app t1) with
              | (Ok _, s') => with_app s' t1
              | (Throw _, s') => showQuizNotAvailable (with_app s' t1)
              end
          | Some _ => t1
          end
      | CheckAnswer _ _ => showQuizNotAvailable t
      | CheckRejected => showQuizNotAvailable t
      end
  | None => showQuizNotAvailable t
  end.

Definition sample_quiz_tab (s : State) : QuizTab :=
  {| app := s;
     lesson_header := {| topic := "Photosynthesis"; difficulty := 2 |};
     pane := {| quizNotAvailable_hidden := false; quizAvailable_hidden := true;
                quizTopic := ""; quizDifficulty := 0 |} |}.

(** ** The progress tab *)

Module Progress.

(** One element of [data.progress].  [completed] is its truthiness;
    scores and minutes are natural numbers, as this client sends them. *)
Record item : Type := {
  topic : string;
  difficulty_level : Z;
  completed : bool;
  score : nat;
  time_spent : nat
}.

Inductive Status : Type :=
  | Completed
  | InProgress.

(** A [progress-item] element: topic, level, status, the score line when
    there is one, and the minutes.  The source writes the element with
    [innerHTML]; [entry_topic] is the text its topic cell shows when the
    topic is [plain_text]. *)
Record entry : Type := {
  entry_topic : string;
  entry_level : Z;
  entry_status : Status;
  entry_score : option nat;
  entry_time : nat
}.

Inductive line : Type :=
  | Heading
  | NoLessonsYet
  | Entry (e : entry).

(** The four elements [displayProgress] writes; [averageScore = None] is
    the text "-". *)
Record page : Type := {
  lessonsCompleted : nat;
  totalStudyTime : nat;
  averageScore : option Z;
  progressHistory : list line
}.

Definition entry_of (p : item) : entry :=
  {| entry_topic := topic p;
     entry_level := difficulty_level p;
     entry_status := if completed p then Completed else InProgress;
     entry_score := if completed p then Some (score p) else None;
     entry_time := time_spent p |}.

Definition score_sum (progress : list item) : nat :=
  foldl (fun sum p => (sum + score p)%nat) 0%nat
        (filter (fun p => completed p = true) progress).

(** [displayProgress(progress)].  The two sums are written as sums of
    natural numbers: they are the binary64 sums of the source as long as
    they stay below [2^53], and the statements about them carry such a
    bound. *)
Definition displayProgress (progress : list item) : page :=
  let completed_count :=
    length (filter (fun p => completed p = true) progress) in
  let totalTime :=
    foldl (fun sum p => (sum + time_spent p)%nat) 0%nat progress in
  {| lessonsCompleted := completed_count;
     totalStudyTime := totalTime;
     averageScore :=
       if decide (0 < completed_count)%nat
       then Some (F64.Math_round
                    (F64.div_int (Z.of_nat (score_sum progress))
                                 (Z.of_nat completed_count)))
       else None;
     progressHistory :=
       Heading ::
       match progress with
       | [] => [NoLessonsYet]
       | _ => map (fun p => Entry (entry_of p)) progress
       end |}.

Definition is_completed_entry (l : line) : bool :=
  match l with
  | Entry e => match entry_status e with Completed => true | InProgress => false end
  | _ => false
  end.

Definition sample_progress : list item :=
  [ {| topic := "Fractions"; difficulty_level := 1; completed := true;
       score := 80; time_spent := 12 |};
    {| topic := "Cells"; difficulty_level := 2; completed := false;
       score := 0; time_spent := 3 |};
    {| topic := "Rivers"; difficulty_level := 1; completed := true;
       score := 75; time_spent := 9 |} ].

End Progress.
(** ** Basic facts about the operations *)

Lemma the_quiz_some (s : State) (q : Quiz) :
  currentQuiz s = Some q -> the_quiz s = (Ok q, s).
Proof. intros H. unfold the_quiz. now rewrite H. Qed.

(** Without a selection [submitQuizAnswer] returns at its first line. *)
Lemma submitQuizAnswer_undefined (s : State) (q : Quiz) :
  currentQuiz s = Some q -> selectedAnswer q = None ->
  submitQuizAnswer s = (Ok tt, s).
Proof.
  intros Hq Hsel. unfold submitQuizAnswer, bind.
  rewrite (the_quiz_some s q Hq), Hsel. reflexivity.
Qed.

Lemma displayQuestion_shown (s : State) (q : Quiz) (qu : Question) :
  currentQuiz s = Some q ->
  questions q !! currentQuestionIndex q = Some qu ->
  displayQuestion s = (Ok tt, with_view (shown q qu (view s)) s).
Proof.
  intros Hq Hqu. unfold displayQuestion, bind, get. rewrite Hq.
  unfold set_view, modify. simpl. rewrite Hqu. reflexivity.
Qed.

Lemma imap_render_indices (l : list string) (k : nat) :
  map data_option_index (imap (fun i => render_option (k + i)) l)
  = seq k (length l).
Proof.
  revert k. induction l as [|x l IH]; intros k; [reflexivity|].
  cbn [imap length seq map]. f_equal.
  - cbn. lia.
  - rewrite <- (IH (S k)). f_equal. apply imap_ext. intros i y _. cbn.
    f_equal. lia.
Qed.

Lemma shown_rendered (q : Quiz) (qu : Question) (v : View) :
  rendered_for qu (shown q qu v).
Proof.
  unfold rendered_for, item_indices, shown. cbn [questionOptions].
  rewrite map_map. cbn [with_classes data_option_index].
  exact (imap_render_indices (options qu) 0).
Qed.

(** *** Looking an option item up *)

Lemma querySelector_option_Some (items : list OptionItem) (n : nat) (i : Z) :
  map data_option_index items = seq 0 n ->
  0 <= i < Z.of_nat n ->
  querySelector_option i items = Some (Z.to_nat i).
Proof.
  intros Hidx Hi. unfold querySelector_option.
  assert (Hlook : forall j o, items !! j = Some o -> data_option_index o = j).
  { intros j o Ho.
    assert (H1 : map data_option_index items !! j = Some (data_option_index o))
      by now rewrite list_lookup_fmap, Ho.
    rewrite Hidx in H1. apply lookup_seq in H1. lia. }
  assert (Hlen : length items = n).
  { rewrite <- (length_map data_option_index), Hidx. apply length_seq. }
  destruct (lookup_lt_is_Some_2 items (Z.to_nat i)) as [o Ho]; [lia|].
  assert (Hfind : list_find (fun o => Z.of_nat (data_option_index o) = i) items
                  = Some (Z.to_nat i, o)).
  { apply list_find_Some. split; [exact Ho|]. split.
    - rewrite (Hlook _ _ Ho). lia.
    - intros j y Hy Hlt Heq. rewrite (Hlook _ _ Hy) in Heq. lia. }
  now rewrite Hfind.
Qed.

Lemma querySelector_option_None (items : list OptionItem) (n : nat) (i : Z) :
  map data_option_index items = seq 0 n ->
  i < 0 \/ Z.of_nat n <= i ->
  querySelector_option i items = None.
Proof.
  intros Hidx Hi. unfold querySelector_option.
  assert (Hnone : list_find (fun o => Z.of_nat (data_option_index o) = i) items
                  = None).
  { apply list_find_None. apply Forall_forall. intros o Ho Heq.
    assert (Hin : data_option_index o ∈ map data_option_index items)
      by (apply list_elem_of_fmap; eauto).
    rewrite Hidx in Hin. apply elem_of_seq in Hin. lia. }
  now rewrite Hnone.
Qed.

Lemma remove_selected_indices (items : list OptionItem) :
  map data_option_index (map remove_selected items) = map data_option_index items.
Proof. rewrite map_map. reflexivity. Qed.

Lemma alter_add_selected_indices (items : list OptionItem) (pos : nat) :
  map data_option_index (alter add_selected pos items)
  = map data_option_index items.
Proof.
  revert pos. induction items as [|o items IH]; intros [|pos]; cbn; try reflexivity.
  f_equal. apply IH.
Qed.

Lemma unselect_view_indices (v : View) :
  item_indices (unselect_view v) = item_indices v.
Proof. apply remove_selected_indices. Qed.

Lemma select_view_indices (pos : nat) (v : View) :
  item_indices (select_view pos v) = item_indices v.
Proof.
  unfold item_indices, select_view. cbn [questionOptions
    with_submitAnswerBtn_disabled with_questionOptions].
  rewrite alter_add_selected_indices. apply unselect_view_indices.
Qed.

(** *** [selectOption] *)

Lemma selectOption_found (s : State) (q : Quiz) (n : nat) (i : Z) :
  currentQuiz s = Some q ->
  item_indices (view s) = seq 0 n ->
  0 <= i < Z.of_nat n ->
  selectOption i s
  = (Ok tt, with_currentQuiz (Some (with_selectedAnswer (Some i) q))
              (with_view (select_view (Z.to_nat i) (view s)) s)).
Proof.
  intros Hq Hidx Hi. unfold selectOption, bind, set_view, modify, get.
  cbn [view with_view with_questionOptions questionOptions].
  rewrite (querySelector_option_Some _ n) by
    (rewrite ?remove_selected_indices; auto).
  unfold set_quiz, bind, the_quiz, modify. cbn [currentQuiz with_view].
  rewrite Hq. reflexivity.
Qed.

Lemma selectOption_missing (s : State) (n : nat) (i : Z) :
  item_indices (view s) = seq 0 n ->
  i < 0 \/ Z.of_nat n <= i ->
  selectOption i s = (Throw TypeError, with_view (unselect_view (view s)) s).
Proof.
  intros Hidx Hi. unfold selectOption, bind, set_view, modify, get.
  cbn [view with_view with_questionOptions questionOptions].
  rewrite (querySelector_option_None _ n) by
    (rewrite ?remove_selected_indices; auto).
  reflexivity.
Qed.

(** ** Submitting without a selection *)

(** C10.  When [selectedAnswer] is [undefined], [submitQuizAnswer]
    changes nothing: the score, the recorded answers, the question index
    and the selection of the quiz are the ones before the call, and so
    is every other global and the page. *)
Theorem submitQuizAnswer_undefined_frame (s : State) (q : Quiz) :
  currentQuiz s = Some q ->
  selectedAnswer q = None ->
  snd (submitQuizAnswer s) = s
  /\ exists q', currentQuiz (snd (submitQuizAnswer s)) = Some q'
       /\ score q' = score q
       /\ userAnswers q' = userAnswers q
       /\ currentQuestionIndex q' = currentQuestionIndex q
       /\ selectedAnswer q' = selectedAnswer q.
Proof.
  intros Hq Hsel. rewrite (submitQuizAnswer_undefined s q Hq Hsel). cbn [snd].
  split; [reflexivity|]. exists q. auto.
Qed.

Lemma submitQuizAnswer_undefined_frame_witness :
  snd (submitQuizAnswer awaiting_state) = awaiting_state
  /\ exists q', currentQuiz (snd (submitQuizAnswer awaiting_state)) = Some q'
       /\ score q' = score (fresh_quiz sample_questions)
       /\ userAnswers q' = userAnswers (fresh_quiz sample_questions)
       /\ currentQuestionIndex q' = currentQuestionIndex (fresh_quiz sample_questions)
       /\ selectedAnswer q' = selectedAnswer (fresh_quiz sample_questions).
Proof.
  apply (submitQuizAnswer_undefined_frame awaiting_state
           (fresh_quiz sample_questions)); reflexivity.
Defined.

(** C6, as the code has it.  When no option is selected,
    [submitQuizAnswer] raises no error of any kind: it returns normally
    from its guard. *)
Theorem submitQuizAnswer_undefined_returns (s : State) (q : Quiz) :
  currentQuiz s = Some q ->
  selectedAnswer q = None ->
  fst (submitQuizAnswer s) = Ok tt.
Proof.
  intros Hq Hsel. now rewrite (submitQuizAnswer_undefined s q Hq Hsel).
Qed.

Lemma submitQuizAnswer_undefined_returns_witness :
  fst (submitQuizAnswer awaiting_state) = Ok tt.
Proof.
  apply (submitQuizAnswer_undefined_returns awaiting_state
           (fresh_quiz sample_questions)); reflexivity.
Defined.

(** C6 as stated fails: on the first question of the sample quiz, with
    nothing selected, the call does not fail. *)
Lemma submitQuizAnswer_undefined_no_error :
  selectedAnswer (fresh_quiz sample_questions) = None
  /\ currentQuiz awaiting_state = Some (fresh_quiz sample_questions)
  /\ ~ (exists e, fst (submitQuizAnswer awaiting_state) = Throw e).
Proof.
  split; [reflexivity|]. split; [reflexivity|].
  intros [e He]. vm_compute in He. discriminate He.
Qed.

(** ** Selecting an index that no option has *)

(** C5, as the code has it.  While a question whose option texts are
    plain text is shown, the page holding exactly its option elements,
    [selectOption] with an index outside [0, len(options)) finds no
    element and fails with a [TypeError]; the quiz object and the other
    globals are the ones before the call, and on the page only the
    highlight of the options is taken off. *)
Theorem selectOption_out_of_range (s : State) (q : Quiz) (qu : Question) (i : Z) :
  currentQuiz s = Some q ->
  questions q !! currentQuestionIndex q = Some qu ->
  plain_options qu ->
  rendered_for qu (view s) ->
  i < 0 \/ Z.of_nat (length (options qu)) <= i ->
  exists s',
    selectOption i s = (Throw TypeError, s')
    /\ currentQuiz s' = Some q
    /\ currentLesson s' = currentLesson s
    /\ quizStartTime s' = quizStartTime s
    /\ saveRequests s' = saveRequests s
    /\ view s' = unselect_view (view s).
Proof.
  intros Hq _ _ Hview Hi. eexists. split.
  - apply (selectOption_missing s (length (options qu)) i Hview Hi).
  - cbn. auto.
Qed.

Lemma selectOption_out_of_range_witness :
  exists s',
    selectOption 7 selected_state = (Throw TypeError, s')
    /\ currentQuiz s'
       = Some (with_selectedAnswer (Some 1) (fresh_quiz sample_questions))
    /\ currentLesson s' = currentLesson selected_state
    /\ quizStartTime s' = quizStartTime selected_state
    /\ saveRequests s' = saveRequests selected_state
    /\ view s' = unselect_view (view selected_state).
Proof.
  apply (selectOption_out_of_range selected_state
           (with_selectedAnswer (Some 1) (fresh_quiz sample_questions))
           (sample_question 1) 7);
    [reflexivity | reflexivity | repeat constructor | reflexivity
    | right; cbn; lia].
Defined.

(** C5 as stated fails: [markup_state] shows a question of four options
    with nothing selected, and [selectOption 7], an index outside
    [0, 4), does not fail.  It finds the element that the markup of the
    first option text has put on the page, returns normally, enables the
    submit button and makes 7 the selected answer, which a submit then
    records.  On the plain page of [selected_state] the same call does
    fail, with a [TypeError] raised by a [null] element and not with a
    range error, and option 1 loses its highlight while it stays the
    selected answer. *)
Lemma selectOption_out_of_range_accepted :
  (currentQuiz markup_state
   = Some (fresh_quiz [markup_question; sample_question 0])
   /\ questions (fresh_quiz [markup_question; sample_question 0])
        !! currentQuestionIndex (fresh_quiz [markup_question; sample_question 0])
      = Some markup_question
   /\ length (options markup_question) = 4%nat
   /\ selectedAnswer (fresh_quiz [markup_question; sample_question 0]) = None
   /\ fst (selectOption 7 markup_state) = Ok tt
   /\ currentQuiz (snd (selectOption 7 markup_state))
      = Some (with_selectedAnswer (Some 7)
                (fresh_quiz [markup_question; sample_question 0]))
   /\ submitAnswerBtn_disabled (view (snd (selectOption 7 markup_state))) = false
   /\ snd (selectOption 7 markup_state) <> markup_state
   /\ (userAnswers <$>
         currentQuiz (snd ((selectOption 7 ;; submitQuizAnswer) markup_state)))
      = Some [Some {| selected := 7; correct := 1; isCorrect := false |}])
  /\ (fst (selectOption 7 selected_state) = Throw TypeError
      /\ (cls_selected <$> questionOptions (view selected_state) !! 1%nat)
         = Some true
      /\ (cls_selected <$>
            questionOptions (view (snd (selectOption 7 selected_state))) !! 1%nat)
         = Some false
      /\ (selectedAnswer <$> currentQuiz (snd (selectOption 7 selected_state)))
         = Some (Some 1)).
Proof.
  split; [|repeat split; reflexivity].
  repeat (split; [reflexivity|]).
  split; [|reflexivity].
  intros H. apply (f_equal (fun s => selectedAnswer <$> currentQuiz s)) in H.
  vm_compute in H. discriminate H.
Qed.

(** The sample questions have plain option texts; [markup_question] has
    not, and its page holds one element more than it has options. *)
Lemma sample_questions_plain : Forall plain_options sample_questions.
Proof. repeat constructor. Qed.

Lemma markup_question_not_plain :
  ~ plain_options markup_question
  /\ ~ rendered_for markup_question (view markup_state).
Proof.
  split.
  - intros H. apply Forall_cons in H as [H _]. discriminate H.
  - intros H. discriminate H.
Qed.

(** ** Advancing *)

Lemma finishQuiz_ok (now : Z) (s : State) (q : Quiz) :
  currentQuiz s = Some q ->
  exists s',
    finishQuiz now s = (Ok tt, s')
    /\ currentQuiz s' = Some q
    /\ currentLesson s' = currentLesson s
    /\ quizStartTime s' = quizStartTime s
    /\ resultPanel (view s') = Some (report_panel now (quizStartTime s) q)
    /\ saveRequests s'
       = saveRequests s ++
         match lesson_ready s with
         | Some l => [report_request now (quizStartTime s) l q]
         | None => []
         end.
Proof.
  intros Hq. unfold finishQuiz, bind, get.
  rewrite (the_quiz_some s q Hq).
  unfold set_view, modify, saveQuizResults, bind, get, showToast, set_view, modify.
  cbn [view with_view]. unfold lesson_ready. cbn [currentLesson with_view].
  destruct (currentLesson s) as [l|] eqn:Hl.
  - destruct (lesson_id l =? 0) eqn:Hid.
    + eexists. split; [reflexivity|]. cbn. rewrite app_nil_r. auto.
    + unfold the_quiz. cbn [currentQuiz with_view]. rewrite Hq.
      eexists. split; [reflexivity|]. cbn. auto.
  - eexists. split; [reflexivity|]. cbn. rewrite app_nil_r. auto.
Qed.

Lemma nextQuizQuestion_display (now : Z) (s : State) (q : Quiz) (qu : Question) :
  currentQuiz s = Some q ->
  questions q !! S (currentQuestionIndex q) = Some qu ->
  nextQuizQuestion now s
  = (Ok tt, with_view (shown (next_index q) qu (view s))
              (with_currentQuiz (Some (next_index q)) s)).
Proof.
  intros Hq Hqu. unfold nextQuizQuestion, bind, set_quiz, bind, modify.
  rewrite (the_quiz_some s q Hq).
  rewrite (the_quiz_some _ (next_index q)) by reflexivity.
  cbn [currentQuestionIndex questions next_index with_currentQuestionIndex].
  destruct (decide _) as [Hlt|Hge].
  - rewrite (displayQuestion_shown _ (next_index q) qu) by (auto; reflexivity).
    reflexivity.
  - apply lookup_lt_Some in Hqu. lia.
Qed.

Lemma nextQuizQuestion_finish (now : Z) (s : State) (q : Quiz) :
  currentQuiz s = Some q ->
  (length (questions q) <= S (currentQuestionIndex q))%nat ->
  nextQuizQuestion now s
  = finishQuiz now (with_currentQuiz (Some (next_index q)) s).
Proof.
  intros Hq Hlen. unfold nextQuizQuestion, bind, set_quiz, bind, modify.
  rewrite (the_quiz_some s q Hq).
  rewrite (the_quiz_some _ (next_index q)) by reflexivity.
  cbn [currentQuestionIndex questions next_index with_currentQuestionIndex].
  destruct (decide _) as [Hlt|Hge]; [lia | reflexivity].
Qed.

(** With a quiz in place [nextQuizQuestion] never fails, whatever was or
    was not submitted before: it only moves the index on. *)
Lemma nextQuizQuestion_ok (now : Z) (s : State) (q : Quiz) :
  currentQuiz s = Some q ->
  exists s',
    nextQuizQuestion now s = (Ok tt, s')
    /\ currentQuiz s' = Some (next_index q).
Proof.
  intros Hq.
  destruct (questions q !! S (currentQuestionIndex q)) as [qu|] eqn:Hqu.
  - rewrite (nextQuizQuestion_display now s q qu Hq Hqu). eauto.
  - apply lookup_ge_None in Hqu.
    rewrite (nextQuizQuestion_finish now s q Hq Hqu).
    destruct (finishQuiz_ok now (with_currentQuiz (Some (next_index q)) s)
                (next_index q)) as (s' & Hrun & Hq' & _); [reflexivity|].
    eauto.
Qed.

(** C7, as the code has it.  [nextQuizQuestion] has no guard on the
    state it is called from: called twice in a row on a session, without
    a submission in between, both calls return normally and the question
    index has moved on by two, the score and the recorded answers being
    untouched. *)
Theorem nextQuizQuestion_twice (now1 now2 : Z) (s : State) (q : Quiz) :
  currentQuiz s = Some q ->
  exists s1 s2 q2,
    nextQuizQuestion now1 s = (Ok tt, s1)
    /\ nextQuizQuestion now2 s1 = (Ok tt, s2)
    /\ currentQuiz s2 = Some q2
    /\ currentQuestionIndex q2 = (currentQuestionIndex q + 2)%nat
    /\ questions q2 = questions q
    /\ userAnswers q2 = userAnswers q
    /\ score q2 = score q
    /\ selectedAnswer q2 = selectedAnswer q.
Proof.
  intros Hq.
  destruct (nextQuizQuestion_ok now1 s q Hq) as (s1 & Hrun1 & Hq1).
  destruct (nextQuizQuestion_ok now2 s1 _ Hq1) as (s2 & Hrun2 & Hq2).
  exists s1, s2, (next_index (next_index q)).
  repeat split; auto. cbn. lia.
Qed.

Lemma nextQuizQuestion_twice_witness :
  exists s1 s2 q2,
    nextQuizQuestion 2000 revealed_state = (Ok tt, s1)
    /\ nextQuizQuestion 3000 s1 = (Ok tt, s2)
    /\ currentQuiz s2 = Some q2
    /\ currentQuestionIndex q2 = 2%nat
    /\ questions q2 = sample_questions
    /\ userAnswers q2 = [Some {| selected := 1; correct := 1; isCorrect := true |}]
    /\ score q2 = 1%nat
    /\ selectedAnswer q2 = None.
Proof.
  apply (nextQuizQuestion_twice 2000 3000 revealed_state
           {| questions := sample_questions; currentQuestionIndex := 0;
              userAnswers := [Some {| selected := 1; correct := 1; isCorrect := true |}];
              score := 1; selectedAnswer := None |}).
  reflexivity.
Defined.

(** C7 as stated fails: after the first answer of the sample quiz was
    submitted, a second [nextQuizQuestion] right after the first one
    does not fail; it skips question 2 and shows question 3. *)
Lemma nextQuizQuestion_twice_no_error :
  let s1 := snd (nextQuizQuestion 2000 revealed_state) in
  fst (nextQuizQuestion 2000 revealed_state) = Ok tt
  /\ fst (nextQuizQuestion 3000 s1) = Ok tt
  /\ ~ (exists e, fst (nextQuizQuestion 3000 s1) = Throw e)
  /\ (currentQuestionIndex <$> currentQuiz (snd (nextQuizQuestion 3000 s1)))
     = Some 2%nat
  /\ currentQuestion (view (snd (nextQuizQuestion 3000 s1))) = 3%nat.
Proof.
  cbv zeta. split; [reflexivity|]. split; [reflexivity|].
  split; [|split; reflexivity].
  intros [e He]. vm_compute in He. discriminate He.
Qed.

(** ** Starting *)

Lemma startQuiz_then_started (s : State) (qs : list Question) (qu : Question) :
  qs !! 0%nat = Some qu ->
  startQuiz_then (GenerateOk qs) s
  = (Ok tt, with_view (started_view qs qu (view s))
              (with_currentQuiz (Some (fresh_quiz qs)) s)).
Proof.
  intros Hqu. unfold startQuiz_then, hideLoading, showToast, set_view, bind, modify.
  rewrite (displayQuestion_shown _ (fresh_quiz qs) qu) by (auto; reflexivity).
  reflexivity.
Qed.

Lemma startQuiz_started (now : Z) (s : State) (l : Lesson)
    (qs : list Question) (qu : Question) :
  lesson_ready s = Some l ->
  qs !! 0%nat = Some qu ->
  startQuiz now (GenerateOk qs) s
  = (Ok tt, with_view (started_view qs qu (view s))
              (with_currentQuiz (Some (fresh_quiz qs))
                 (with_quizStartTime (Some now) s))).
Proof.
  intros Hl Hqu. unfold startQuiz, bind, get. rewrite Hl.
  unfold showLoading, set_view, modify, try_catch.
  rewrite (startQuiz_then_started _ qs qu Hqu). reflexivity.
Qed.

Lemma fresh_quiz_session (qs : list Question) (s : State) :
  currentQuiz s = Some (fresh_quiz qs) -> fresh_session qs s.
Proof. intros H. exists (fresh_quiz qs). repeat split; auto. Qed.

(** C8.  Whatever the state before (no session, a session in progress, a
    finished one), [startQuiz] receiving a non-empty question set puts a
    new quiz in place of the old one, with question index 0, score 0 and
    no recorded answers.  This holds of the callback that receives the
    questions, from any state, and of [startQuiz] as a whole whenever a
    lesson is loaded, which is when it sends its request. *)
Theorem startQuiz_fresh_session (now : Z) (s : State) (qs : list Question) :
  qs <> [] ->
  (exists s',
     startQuiz_then (GenerateOk qs) s = (Ok tt, s') /\ fresh_session qs s')
  /\ (forall l, lesson_ready s = Some l ->
      exists s',
        startQuiz now (GenerateOk qs) s = (Ok tt, s') /\ fresh_session qs s').
Proof.
  intros Hne. destruct qs as [|qu qs']; [congruence|]. split.
  - eexists. split.
    + apply (startQuiz_then_started s (qu :: qs') qu). reflexivity.
    + apply fresh_quiz_session. reflexivity.
  - intros l Hl. eexists. split.
    + apply (startQuiz_started now s l (qu :: qs') qu Hl). reflexivity.
    + apply fresh_quiz_session. reflexivity.
Qed.

Lemma startQuiz_fresh_session_witness :
  (score <$> currentQuiz finished_state) = Some 3%nat
  /\ exists s',
       startQuiz 20000 (GenerateOk [sample_question 2; sample_question 0])
         finished_state = (Ok tt, s')
       /\ fresh_session [sample_question 2; sample_question 0] s'.
Proof.
  split; [reflexivity|].
  refine (proj2 (startQuiz_fresh_session 20000 finished_state
                   [sample_question 2; sample_question 0] _)
            {| lesson_id := 7 |} _);
    [discriminate | reflexivity].
Defined.

(** C4, as the code has it.  [startQuiz] does not inspect the question
    list it receives: an empty one is installed like any other, as a quiz
    with question index 0, score 0, no recorded answers and no question,
    in place of whatever session there was. *)
Theorem startQuiz_empty_installed (now : Z) (s : State) (l : Lesson) :
  lesson_ready s = Some l ->
  exists s',
    startQuiz now (GenerateOk []) s = (Ok tt, s')
    /\ fresh_session [] s'
    /\ quizStartTime s' = Some now.
Proof.
  intros Hl. unfold startQuiz, bind, get. rewrite Hl.
  eexists. split; [reflexivity|]. split.
  - apply fresh_quiz_session. reflexivity.
  - reflexivity.
Qed.

Lemma startQuiz_empty_installed_witness :
  exists s',
    startQuiz 1000 (GenerateOk []) idle_state = (Ok tt, s')
    /\ fresh_session [] s'
    /\ quizStartTime s' = Some 1000.
Proof.
  apply (startQuiz_empty_installed 1000 idle_state {| lesson_id := 7 |}).
  reflexivity.
Defined.

(** C4 as stated fails: from the idle state, [startQuiz] with an empty
    question list returns without an error and leaves a session behind;
    the exception raised while showing the missing first question is
    caught and only produces the generic error toast. *)
Lemma startQuiz_empty_not_idle :
  currentQuiz idle_state = None
  /\ fst (startQuiz 1000 (GenerateOk []) idle_state) = Ok tt
  /\ currentQuiz (snd (startQuiz 1000 (GenerateOk []) idle_state))
     = Some (fresh_quiz [])
  /\ currentQuiz (snd (startQuiz 1000 (GenerateOk []) idle_state))
     <> currentQuiz idle_state
  /\ fst (startQuiz_then (GenerateOk []) idle_state) = Throw TypeError
  /\ currentQuiz (snd (startQuiz_then (GenerateOk []) idle_state)) <> None
  /\ toasts (view (snd (startQuiz 1000 (GenerateOk []) idle_state)))
     = [NetworkError].
Proof.
  repeat split; try reflexivity; vm_compute; discriminate.
Qed.

(** ** Submitting a selection *)

Lemma submitQuizAnswer_selected (s : State) (q : Quiz) (qu : Question) (sel : Z) :
  currentQuiz s = Some q ->
  selectedAnswer q = Some sel ->
  questions q !! currentQuestionIndex q = Some qu ->
  submitQuizAnswer s
  = (Ok tt, with_view (reveal_view q qu sel (view s))
              (with_currentQuiz (Some (submitted q qu sel)) s)).
Proof.
  intros Hq Hsel Hqu. unfold submitQuizAnswer, bind.
  rewrite (the_quiz_some s q Hq), Hsel, Hqu.
  unfold set_quiz, bind, modify. rewrite (the_quiz_some s q Hq).
  unfold submitted, grade.
  destruct (bool_decide (sel = correctAnswer qu)); unfold the_quiz, ret, set_view, modify;
    cbn [currentQuiz with_currentQuiz with_view view];
    unfold reveal_view;
    destruct (Z.of_nat (currentQuestionIndex q) <? Z.of_nat (length (questions q)) - 1);
    reflexivity.
Qed.

Lemma array_set_end {A : Type} (a : list (option A)) (x : A) :
  array_set a (length a) x = a ++ [Some x].
Proof.
  unfold array_set. destruct (decide _) as [Hlt|_]; [lia|].
  now rewrite Nat.sub_diag.
Qed.

Lemma count_correct_snoc (a : list (option AnswerRecord)) (r : AnswerRecord) :
  count_correct (a ++ [Some r])
  = if isCorrect r then S (count_correct a) else count_correct a.
Proof.
  unfold count_correct. rewrite filter_app, length_app.
  cbn [filter list_filter is_correct_cell].
  destruct (decide _) as [H|H]; destruct (isCorrect r); cbn [length];
    try congruence; lia.
Qed.

(** ** A whole run *)

Lemma select_all_valid (picks : list Z) (s : State) (q : Quiz) (n : nat) :
  currentQuiz s = Some q ->
  item_indices (view s) = seq 0 n ->
  Forall (fun p => 0 <= p < Z.of_nat n) picks ->
  exists s',
    select_all picks s = (Ok tt, s')
    /\ currentQuiz s'
       = Some (with_selectedAnswer
                 (match last picks with
                  | Some p => Some p
                  | None => selectedAnswer q
                  end) q)
    /\ item_indices (view s') = seq 0 n
    /\ same_globals s s'.
Proof.
  revert s q. induction picks as [|p picks IH]; intros s q Hq Hidx Hall.
  - exists s. cbn. repeat split; auto. rewrite Hq. now destruct q.
  - apply Forall_cons in Hall as [Hp Hall].
    cbn [select_all]. unfold bind.
    rewrite (selectOption_found s q n p Hq Hidx Hp).
    destruct (IH (with_currentQuiz (Some (with_selectedAnswer (Some p) q))
                    (with_view (select_view (Z.to_nat p) (view s)) s))
                 (with_selectedAnswer (Some p) q) eq_refl)
      as (s' & Hrun & Hq' & Hidx' & Hsame);
      [ cbn [view with_currentQuiz with_view]; now rewrite select_view_indices
      | exact Hall | ].
    exists s'. split; [exact Hrun|]. split; [|split; [exact Hidx'|exact Hsame]].
    rewrite Hq', last_cons. destruct (last picks); reflexivity.
Qed.

Lemma last_nonempty (picks : list Z) :
  picks <> [] -> last picks = Some (final_pick picks).
Proof.
  intros Hne. unfold final_pick.
  destruct (last picks) eqn:Hl; [reflexivity|].
  apply last_None in Hl. contradiction.
Qed.

(** Selecting, submitting: the answer is recorded at the end of
    [userAnswers] and counted if correct. *)
Lemma select_submit (qs : list Question) (k : nat)
    (recs : list (option AnswerRecord)) (s : State) (qu : Question)
    (picks : list Z) :
  at_question qs k recs s ->
  qs !! k = Some qu ->
  valid_picks qu picks ->
  exists s',
    (select_all picks ;; submitQuizAnswer) s = (Ok tt, s')
    /\ currentQuiz s'
       = Some {| questions := qs; currentQuestionIndex := k;
                 userAnswers := recs ++ [Some (grade qu (final_pick picks))];
                 score := count_correct
                            (recs ++ [Some (grade qu (final_pick picks))]);
                 selectedAnswer := None |}
    /\ same_globals s s'.
Proof.
  intros (Hq & Hlen & Hview) Hqu (Hne & Hall). subst k.
  destruct (select_all_valid picks s _ (length (options qu)) Hq (Hview qu Hqu) Hall)
    as (s1 & Hrun1 & Hq1 & _ & Hsame1).
  rewrite (last_nonempty picks Hne) in Hq1.
  unfold bind. rewrite Hrun1.
  rewrite (submitQuizAnswer_selected s1 _ qu (final_pick picks) Hq1)
    by (auto; exact Hqu).
  eexists. split; [reflexivity|]. split; [|exact Hsame1].
  cbn [currentQuiz with_view with_currentQuiz]. f_equal.
  unfold submitted.
  cbn [questions currentQuestionIndex userAnswers score with_selectedAnswer].
  rewrite array_set_end, count_correct_snoc.
  reflexivity.
Qed.

Lemma answer_question_more (now : Z) (qs : list Question) (k : nat)
    (recs : list (option AnswerRecord)) (s : State) (qu : Question)
    (picks : list Z) :
  at_question qs k recs s ->
  qs !! k = Some qu ->
  valid_picks qu picks ->
  (S k < length qs)%nat ->
  exists s',
    answer_question now picks s = (Ok tt, s')
    /\ at_question qs (S k) (recs ++ [Some (grade qu (final_pick picks))]) s'
    /\ same_globals s s'.
Proof.
  intros Hat Hqu Hpicks Hlt.
  destruct (select_submit qs k recs s qu picks Hat Hqu Hpicks)
    as (s1 & Hrun1 & Hq1 & Hsame1).
  destruct (lookup_lt_is_Some_2 qs (S k) Hlt) as [qu' Hqu'].
  unfold answer_question.
  change (select_all picks;; submitQuizAnswer;; nextQuizQuestion now)
    with (fun s => match select_all picks s with
                   | (Ok a, s') => (submitQuizAnswer;; nextQuizQuestion now) s'
                   | (Throw e, s') => (Throw e, s')
                   end).
  unfold bind in Hrun1 |- *.
  destruct (select_all picks s) as [[[]|e] s0]; [|discriminate Hrun1].
  rewrite Hrun1.
  rewrite (nextQuizQuestion_display now s1 _ qu' Hq1) by exact Hqu'.
  eexists. split; [reflexivity|]. split; [|exact Hsame1].
  split; [reflexivity|]. split.
  - rewrite length_app. destruct Hat as (_ & Hlen & _). cbn. lia.
  - intros qu'' Hqu''. rewrite Hqu' in Hqu''. injection Hqu'' as <-.
    apply shown_rendered.
Qed.

Lemma answer_question_last (now : Z) (qs : list Question) (k : nat)
    (recs : list (option AnswerRecord)) (s : State) (qu : Question)
    (picks : list Z) :
  at_question qs k recs s ->
  qs !! k = Some qu ->
  valid_picks qu picks ->
  S k = length qs ->
  exists s',
    answer_question now picks s = (Ok tt, s')
    /\ reported now
         (finished_quiz qs (recs ++ [Some (grade qu (final_pick picks))])) s s'.
Proof.
  intros Hat Hqu Hpicks Hlast.
  destruct (select_submit qs k recs s qu picks Hat Hqu Hpicks)
    as (s1 & Hrun1 & Hq1 & Hl1 & Ht1 & Hr1).
  unfold answer_question.
  change (select_all picks;; submitQuizAnswer;; nextQuizQuestion now)
    with (fun s => match select_all picks s with
                   | (Ok a, s') => (submitQuizAnswer;; nextQuizQuestion now) s'
                   | (Throw e, s') => (Throw e, s')
                   end).
  unfold bind in Hrun1 |- *.
  destruct (select_all picks s) as [[[]|e] s0]; [|discriminate Hrun1].
  rewrite Hrun1.
  rewrite (nextQuizQuestion_finish now s1 _ Hq1) by (cbn; lia).
  destruct (finishQuiz_ok now (with_currentQuiz (Some (next_index
              {| questions := qs; currentQuestionIndex := k;
                 userAnswers := recs ++ [Some (grade qu (final_pick picks))];
                 score := count_correct
                            (recs ++ [Some (grade qu (final_pick picks))]);
                 selectedAnswer := None |})) s1) _ eq_refl)
    as (s' & Hrun & Hq' & Hl' & Ht' & Hp' & Hr').
  exists s'. split; [exact Hrun|].
  unfold reported, finished_quiz. rewrite <- Hlast.
  cbn [currentLesson quizStartTime saveRequests with_currentQuiz lesson_ready] in *.
  unfold lesson_ready in *. cbn [currentLesson with_currentQuiz] in *.
  rewrite Hl1, Ht1, Hr1 in *. repeat split; assumption.
Qed.

Lemma reported_same_globals (now : Z) (q : Quiz) (s s1 s' : State) :
  same_globals s s1 -> reported now q s1 s' -> reported now q s s'.
Proof.
  intros (Hl & Ht & Hr) (Hq' & Hl' & Ht' & Hp' & Hr').
  unfold reported, lesson_ready in *. rewrite Hl, Ht, Hr in *.
  repeat split; assumption.
Qed.

Lemma grades_cons (qu : Question) (qs : list Question) (picks : list Z)
    (rest : list (list Z)) :
  grades (qu :: qs) (picks :: rest)
  = Some (grade qu (final_pick picks)) :: grades qs rest.
Proof. reflexivity. Qed.

Lemma grades_length (qs : list Question) (all_picks : list (list Z)) :
  Forall2 valid_picks qs all_picks -> length (grades qs all_picks) = length qs.
Proof.
  intros H. unfold grades. rewrite length_zip_with.
  apply Forall2_length in H. lia.
Qed.

(** Answering the questions from the [k]-th on, as the page shows them,
    ends in [finishQuiz] with one record per question. *)
Lemma take_quiz_from (now : Z) (qs : list Question) (all_picks : list (list Z)) :
  forall (k : nat) (recs : list (option AnswerRecord)) (s : State),
    at_question qs k recs s ->
    (k < length qs)%nat ->
    Forall2 valid_picks (drop k qs) all_picks ->
    exists s',
      take_quiz now all_picks s = (Ok tt, s')
      /\ reported now
           (finished_quiz qs (recs ++ grades (drop k qs) all_picks)) s s'.
Proof.
  induction all_picks as [|picks rest IH]; intros k recs s Hat Hk Hall.
  - apply Forall2_nil_inv_r in Hall.
    apply (f_equal length) in Hall. rewrite length_drop in Hall. cbn in Hall. lia.
  - destruct (lookup_lt_is_Some_2 qs k Hk) as [qu Hqu].
    rewrite (drop_S qs qu k Hqu) in Hall |- *.
    apply Forall2_cons in Hall as [Hpicks Hrest].
    rewrite grades_cons, cons_middle, app_assoc.
    cbn [take_quiz]. unfold bind.
    destruct (decide (S k < length qs)%nat) as [Hmore|Hlast].
    + destruct (answer_question_more now qs k recs s qu picks Hat Hqu Hpicks Hmore)
        as (s1 & Hrun1 & Hat1 & Hsame1).
      rewrite Hrun1.
      destruct (IH (S k) _ s1 Hat1 Hmore Hrest) as (s' & Hrun & Hrep).
      exists s'. split; [exact Hrun|].
      exact (reported_same_globals now _ s s1 s' Hsame1 Hrep).
    + assert (Hlen : S k = length qs) by lia.
      destruct (answer_question_last now qs k recs s qu picks Hat Hqu Hpicks Hlen)
        as (s1 & Hrun1 & Hrep1).
      rewrite Hrun1.
      rewrite drop_ge in Hrest |- * by lia.
      apply Forall2_nil_inv_l in Hrest. subst rest.
      exists s1. split; [reflexivity|].
      unfold grades. cbn [zip_with]. rewrite app_nil_r. exact Hrep1.
Qed.

(** [startQuiz] on a non-empty question set, then every question
    answered in order. *)
Lemma quiz_run (now tfin : Z) (s : State) (l : Lesson) (qs : list Question)
    (all_picks : list (list Z)) :
  lesson_ready s = Some l ->
  qs <> [] ->
  Forall2 valid_picks qs all_picks ->
  exists s',
    (startQuiz now (GenerateOk qs) ;; take_quiz tfin all_picks) s = (Ok tt, s')
    /\ currentQuiz s' = Some (finished_quiz qs (grades qs all_picks))
    /\ resultPanel (view s')
       = Some (report_panel tfin (Some now)
                 (finished_quiz qs (grades qs all_picks)))
    /\ saveRequests s'
       = saveRequests s ++
         [report_request tfin (Some now) l
            (finished_quiz qs (grades qs all_picks))].
Proof.
  intros Hl Hne Hall. destruct qs as [|qu qs']; [congruence|].
  unfold bind.
  rewrite (startQuiz_started now s l (qu :: qs') qu Hl eq_refl).
  set (s0 := with_view _ _).
  assert (Hat : at_question (qu :: qs') 0 [] s0).
  { split; [reflexivity|]. split; [reflexivity|].
    intros qu' Hqu'. injection Hqu' as <-.
    apply (shown_rendered (fresh_quiz (qu :: qs')) qu). }
  destruct (take_quiz_from tfin (qu :: qs') all_picks 0 [] s0 Hat)
    as (s' & Hrun & Hq' & _ & _ & Hp' & Hr'); [cbn; lia | exact Hall |].
  exists s'. split; [exact Hrun|].
  cbn [drop app] in *. split; [exact Hq'|]. split; [exact Hp'|].
  rewrite Hr'. subst s0. unfold lesson_ready in *.
  cbn [currentLesson saveRequests quizStartTime with_view with_currentQuiz
       with_quizStartTime].
  now rewrite Hl.
Qed.

(** ** The score and the recorded answers *)

(** Runs that submit every question once.  For every non-empty question
    set and every choice of selections (on each question one or more
    clicks on its options, then one submit and next), the run ends with
    the quiz finished, one record per question, and a score equal to the
    number of records whose [isCorrect] is true; the same holds of the
    result sent to the server. *)
Theorem score_counts_correct_answers (now tfin : Z) (s : State) (l : Lesson)
    (qs : list Question) (all_picks : list (list Z)) :
  lesson_ready s = Some l ->
  qs <> [] ->
  Forall2 valid_picks qs all_picks ->
  exists s' q r,
    (startQuiz now (GenerateOk qs) ;; take_quiz tfin all_picks) s = (Ok tt, s')
    /\ currentQuiz s' = Some q
    /\ questions q = qs
    /\ currentQuestionIndex q = length qs
    /\ length (userAnswers q) = length qs
    /\ score q = count_correct (userAnswers q)
    /\ last (saveRequests s') = Some r
    /\ correct_answers r = count_correct (answers r).
Proof.
  intros Hl Hne Hall.
  destruct (quiz_run now tfin s l qs all_picks Hl Hne Hall)
    as (s' & Hrun & Hq' & _ & Hr').
  exists s', (finished_quiz qs (grades qs all_picks)),
    (report_request tfin (Some now) l (finished_quiz qs (grades qs all_picks))).
  split; [exact Hrun|]. split; [exact Hq'|].
  split; [reflexivity|]. split; [reflexivity|].
  split; [exact (grades_length qs all_picks Hall)|].
  split; [reflexivity|]. split; [|reflexivity].
  rewrite Hr'. apply last_snoc.
Qed.

Lemma score_counts_correct_answers_witness :
  exists s' q r,
    (startQuiz 1000 (GenerateOk sample_questions) ;;
     take_quiz 9500 [[2; 1]; [3]; [0; 1; 2]; [0]]) idle_state = (Ok tt, s')
    /\ currentQuiz s' = Some q
    /\ questions q = sample_questions
    /\ currentQuestionIndex q = length sample_questions
    /\ length (userAnswers q) = length sample_questions
    /\ score q = count_correct (userAnswers q)
    /\ last (saveRequests s') = Some r
    /\ correct_answers r = count_correct (answers r).
Proof.
  apply (score_counts_correct_answers 1000 9500 idle_state {| lesson_id := 7 |}
           sample_questions [[2; 1]; [3]; [0; 1; 2]; [0]]).
  - reflexivity.
  - discriminate.
  - repeat (apply Forall2_cons; split;
              [split; [discriminate | repeat constructor; cbn; lia]|]).
    apply Forall2_nil. exact I.
Defined.

(** Outside that discipline the equality can be lost: submitting a second
    time on the same question overwrites the record and counts again. *)
Example resubmission_counts_twice :
  let s := snd ((selectOption 1 ;; submitQuizAnswer) revealed_state) in
  (score <$> currentQuiz s) = Some 2%nat
  /\ (count_correct <$> (userAnswers <$> currentQuiz s)) = Some 1%nat.
Proof. split; reflexivity. Qed.

(** C1 fails on [resubmitting_run].  After the first submit the button
    is disabled, and the second click on option 1 enables it again; the
    second submit stores the record of question 1 in the cell it already
    has and increments the score once more.  The quiz finishes with four
    records, three of them correct, and a score of 4: the page shows 4/4
    and 100, and the request sent carries [correct_answers] 4.  The same
    clicks on a quiz of one question end with one record, a score of 2
    and 200 as the percentage. *)
Lemma resubmission_inflates_score :
  let once := startQuiz 1000 (GenerateOk sample_questions) ;;
              selectOption 1 ;; submitQuizAnswer in
  let s := snd (resubmitting_run idle_state) in
  let s1 := snd ((startQuiz 1000 (GenerateOk [sample_question 1]) ;;
                  selectOption 1 ;; submitQuizAnswer ;;
                  selectOption 1 ;; submitQuizAnswer ;;
                  nextQuizQuestion 9500) idle_state) in
  submitAnswerBtn_disabled (view (snd (once idle_state))) = true
  /\ submitAnswerBtn_disabled
       (view (snd ((once ;; selectOption 1) idle_state))) = false
  /\ fst (resubmitting_run idle_state) = Ok tt
  /\ (currentQuestionIndex <$> currentQuiz s) = Some 4%nat
  /\ (userAnswers <$> currentQuiz s)
     = Some [Some {| selected := 1; correct := 1; isCorrect := true |};
             Some {| selected := 0; correct := 0; isCorrect := true |};
             Some {| selected := 0; correct := 2; isCorrect := false |};
             Some {| selected := 3; correct := 3; isCorrect := true |}]
  /\ (count_correct <$> (userAnswers <$> currentQuiz s)) = Some 3%nat
  /\ (score <$> currentQuiz s) = Some 4%nat
  /\ (finalScore <$> resultPanel (view s)) = Some (4%nat, 4%nat)
  /\ (finalPercentage <$> resultPanel (view s)) = Some (Int 100)
  /\ (correct_answers <$> last (saveRequests s)) = Some 4%nat
  /\ (count_correct <$> (answers <$> last (saveRequests s))) = Some 3%nat
  /\ (userAnswers <$> currentQuiz s1)
     = Some [Some {| selected := 1; correct := 1; isCorrect := true |}]
  /\ (score <$> currentQuiz s1) = Some 2%nat
  /\ (finalPercentage <$> resultPanel (view s1)) = Some (Int 200).
Proof. vm_compute. repeat split; reflexivity. Qed.

(** C2.  Four questions of four options with correct indices 1, 0, 2, 3,
    answered 1, 0, 0, 3 in order with a submit and a next after each
    selection: the score is 3, the percentage shown and sent is 75, and
    the recorded answers are (1,1,true), (0,0,true), (0,2,false),
    (3,3,true). *)
Theorem four_question_scenario (now tfin : Z) (s : State) (l : Lesson)
    (qs : list Question) :
  lesson_ready s = Some l ->
  map correctAnswer qs = [1; 0; 2; 3] ->
  Forall (fun qu => length (options qu) = 4%nat) qs ->
  exists s' q p r,
    (startQuiz now (GenerateOk qs) ;; take_quiz tfin [[1]; [0]; [0]; [3]]) s
    = (Ok tt, s')
    /\ currentQuiz s' = Some q
    /\ currentQuestionIndex q = 4%nat
    /\ score q = 3%nat
    /\ userAnswers q
       = [Some {| selected := 1; correct := 1; isCorrect := true |};
          Some {| selected := 0; correct := 0; isCorrect := true |};
          Some {| selected := 0; correct := 2; isCorrect := false |};
          Some {| selected := 3; correct := 3; isCorrect := true |}]
    /\ resultPanel (view s') = Some p
    /\ finalScore p = (3%nat, 4%nat)
    /\ finalPercentage p = Int 75
    /\ last (saveRequests s') = Some r
    /\ saved_score r = Int 75
    /\ correct_answers r = 3%nat
    /\ answers r = userAnswers q.
Proof.
  intros Hl Hc Hopts.
  destruct qs as [|q1 [|q2 [|q3 [|q4 [|q5 qs]]]]]; try discriminate Hc.
  injection Hc as Hc1 Hc2 Hc3 Hc4.
  apply Forall_cons in Hopts as [Ho1 Hopts].
  apply Forall_cons in Hopts as [Ho2 Hopts].
  apply Forall_cons in Hopts as [Ho3 Hopts].
  apply Forall_cons in Hopts as [Ho4 _].
  destruct (quiz_run now tfin s l [q1; q2; q3; q4] [[1]; [0]; [0]; [3]] Hl)
    as (s' & Hrun & Hq' & Hp' & Hr').
  - discriminate.
  - unfold valid_picks, valid_pick.
    repeat (apply Forall2_cons; split;
              [split; [discriminate | repeat constructor; lia]|]).
    apply Forall2_nil. exact I.
  - assert (Hg : grades [q1; q2; q3; q4] [[1]; [0]; [0]; [3]]
                 = [Some {| selected := 1; correct := 1; isCorrect := true |};
                    Some {| selected := 0; correct := 0; isCorrect := true |};
                    Some {| selected := 0; correct := 2; isCorrect := false |};
                    Some {| selected := 3; correct := 3; isCorrect := true |}]).
    { unfold grades, grade, final_pick. cbn [zip_with last default].
      rewrite Hc1, Hc2, Hc3, Hc4. reflexivity. }
    rewrite Hg in *.
    eexists s', _, _, _. split; [exact Hrun|]. split; [exact Hq'|].
    split; [reflexivity|]. split; [reflexivity|]. split; [reflexivity|].
    split; [exact Hp'|]. split; [reflexivity|]. split; [reflexivity|].
    split; [rewrite Hr'; apply last_snoc|].
    split; [reflexivity|]. split; reflexivity.
Qed.

Lemma four_question_scenario_witness :
  exists s' q p r,
    (startQuiz 1000 (GenerateOk sample_questions) ;;
     take_quiz 9500 [[1]; [0]; [0]; [3]]) idle_state = (Ok tt, s')
    /\ currentQuiz s' = Some q
    /\ currentQuestionIndex q = 4%nat
    /\ score q = 3%nat
    /\ userAnswers q
       = [Some {| selected := 1; correct := 1; isCorrect := true |};
          Some {| selected := 0; correct := 0; isCorrect := true |};
          Some {| selected := 0; correct := 2; isCorrect := false |};
          Some {| selected := 3; correct := 3; isCorrect := true |}]
    /\ resultPanel (view s') = Some p
    /\ finalScore p = (3%nat, 4%nat)
    /\ finalPercentage p = Int 75
    /\ last (saveRequests s') = Some r
    /\ saved_score r = Int 75
    /\ correct_answers r = 3%nat
    /\ answers r = userAnswers q.
Proof.
  apply (four_question_scenario 1000 9500 idle_state {| lesson_id := 7 |}
           sample_questions).
  - reflexivity.
  - reflexivity.
  - repeat constructor.
Defined.

(** ** The percentage *)

Lemma div_int_same (n : Z) : 0 < n -> F64.div_int n n = F64.mk (2 ^ 52) (- 52).
Proof.
  intros Hn. unfold F64.div_int.
  destruct (Z.eqb_spec n 0) as [->|_]; [lia|].
  unfold F64.round_ratio, F64.ilog2_ratio, F64.ratio_geb_pow2.
  rewrite Z.sub_diag. cbn [Z.max Z.opp Z.compare].
  rewrite Z.leb_refl.
  change (Z.max (- (0 - 52)) 0) with 52. change (Z.max (0 - 52) 0) with 0.
  change (0 - 52) with (- 52).
  unfold F64.round_nearest_even.
  rewrite Z.pow_0_r, Z.mul_1_r, (Z.mul_comm n (2 ^ 52)).
  rewrite Z.div_mul, Z.mod_mul by lia.
  destruct (Z.ltb_spec (2 * 0) n) as [_|]; [|lia].
  reflexivity.
Qed.

Lemma quiz_percentage_full (n : nat) : (0 < n)%nat -> quiz_percentage n n = Int 100.
Proof.
  intros Hn. unfold quiz_percentage. destruct n as [|n]; [lia|].
  rewrite div_int_same by lia. reflexivity.
Qed.

Lemma grades_correct_picks (qs : list Question) :
  grades qs (correct_picks qs)
  = map (fun qu => Some {| selected := correctAnswer qu;
                           correct := correctAnswer qu;
                           isCorrect := true |}) qs.
Proof.
  induction qs as [|qu qs IH]; [reflexivity|].
  unfold correct_picks. cbn [map]. rewrite grades_cons. fold (correct_picks qs).
  rewrite IH. unfold grade, final_pick. cbn [last default].
  now rewrite bool_decide_eq_true_2.
Qed.

Lemma count_correct_all (qs : list Question) :
  count_correct
    (map (fun qu => Some {| selected := correctAnswer qu;
                            correct := correctAnswer qu;
                            isCorrect := true |}) qs)
  = length qs.
Proof.
  induction qs as [|qu qs IH]; [reflexivity|].
  cbn [map]. change (?x :: ?a) with ([x] ++ a).
  unfold count_correct in *. rewrite filter_app, length_app, IH. reflexivity.
Qed.

Lemma correct_picks_valid (qs : list Question) :
  Forall well_formed qs -> Forall2 valid_picks qs (correct_picks qs).
Proof.
  induction 1 as [|qu qs Hqu _ IH]; [apply Forall2_nil; exact I|].
  apply Forall2_cons. split; [|exact IH].
  split; [discriminate|]. apply Forall_cons. split; [exact Hqu|apply Forall_nil; exact I].
Qed.

(** C9.  For every non-empty set of questions, starting the quiz and, on
    each question in order, selecting its correct option, submitting and
    going on, ends with the quiz finished, the score equal to the number
    of questions, and a percentage of 100, on the page and in the result
    sent to the server. *)
Theorem all_correct_scores_full (now tfin : Z) (s : State) (l : Lesson)
    (qs : list Question) :
  lesson_ready s = Some l ->
  qs <> [] ->
  Forall well_formed qs ->
  exists s' q p r,
    (startQuiz now (GenerateOk qs) ;; take_quiz tfin (correct_picks qs)) s
    = (Ok tt, s')
    /\ currentQuiz s' = Some q
    /\ currentQuestionIndex q = length (questions q)
    /\ questions q = qs
    /\ score q = length qs
    /\ resultPanel (view s') = Some p
    /\ finalPercentage p = Int 100
    /\ last (saveRequests s') = Some r
    /\ saved_score r = Int 100
    /\ correct_answers r = total_questions r.
Proof.
  intros Hl Hne Hwf.
  destruct (quiz_run now tfin s l qs (correct_picks qs) Hl Hne
              (correct_picks_valid qs Hwf)) as (s' & Hrun & Hq' & Hp' & Hr').
  rewrite grades_correct_picks in *.
  assert (Hpct : quiz_percentage (length qs) (length qs) = Int 100).
  { apply quiz_percentage_full. destruct qs; [congruence|cbn; lia]. }
  eexists s', _, _, _. split; [exact Hrun|]. split; [exact Hq'|].
  split; [reflexivity|]. split; [reflexivity|].
  split; [apply count_correct_all|].
  split; [exact Hp'|].
  split; [cbn; now rewrite count_correct_all|].
  split; [rewrite Hr'; apply last_snoc|].
  split; [cbn; now rewrite count_correct_all|].
  cbn. apply count_correct_all.
Qed.

Lemma all_correct_scores_full_witness :
  exists s' q p r,
    (startQuiz 1000 (GenerateOk sample_questions) ;;
     take_quiz 9500 [[1]; [0]; [2]; [3]]) idle_state = (Ok tt, s')
    /\ currentQuiz s' = Some q
    /\ currentQuestionIndex q = length (questions q)
    /\ questions q = sample_questions
    /\ score q = 4%nat
    /\ resultPanel (view s') = Some p
    /\ finalPercentage p = Int 100
    /\ last (saveRequests s') = Some r
    /\ saved_score r = Int 100
    /\ correct_answers r = total_questions r.
Proof.
  apply (all_correct_scores_full 1000 9500 idle_state {| lesson_id := 7 |}
           sample_questions).
  - reflexivity.
  - discriminate.
  - repeat constructor; cbn; lia.
Defined.

(** ** Rounding of the percentage *)

Lemma round_nearest_even_error (num den : Z) :
  0 <= num -> 0 < den ->
  2 * Z.abs (F64.round_nearest_even num den * den - num) <= den
  /\ num / den <= F64.round_nearest_even num den.
Proof.
  intros Hnum Hden. unfold F64.round_nearest_even.
  pose proof (Z.div_mod num den ltac:(lia)) as Hdm.
  pose proof (Z.mod_pos_bound num den Hden) as Hr.
  set (q := num / den) in *. set (r := num mod den) in *.
  destruct (Z.ltb_spec (2 * r) den); [split; nia|].
  destruct (Z.ltb_spec den (2 * r)); [split; nia|].
  destruct (Z.even q); split; nia.
Qed.

Lemma ilog2_ratio_lower (a b : Z) :
  0 < a -> 0 < b -> F64.ratio_geb_pow2 a b (F64.ilog2_ratio a b) = true.
Proof.
  intros Ha Hb. unfold F64.ilog2_ratio.
  destruct (F64.ratio_geb_pow2 a b (Z.log2 a - Z.log2 b)) eqn:Hk; [exact Hk|].
  destruct (Z.log2_spec a Ha) as [Ha1 _].
  destruct (Z.log2_spec b Hb) as [_ Hb2].
  pose proof (Z.log2_nonneg a) as Hla. pose proof (Z.log2_nonneg b) as Hlb.
  set (la := Z.log2 a) in *. set (lb := Z.log2 b) in *.
  unfold F64.ratio_geb_pow2. apply Z.leb_le.
  destruct (Z.le_gt_cases 0 (la - lb - 1)) as [Hpos|Hneg].
  - rewrite Z.max_l, Z.max_r by lia. rewrite Z.pow_0_r, Z.mul_1_r.
    assert (H : 2 ^ la = 2 ^ Z.succ lb * 2 ^ (la - lb - 1)).
    { rewrite <- Z.pow_add_r by lia. f_equal; lia. }
    assert (0 < 2 ^ (la - lb - 1)) by (apply Z.pow_pos_nonneg; lia).
    nia.
  - rewrite Z.max_r, Z.max_l by lia. rewrite Z.pow_0_r, Z.mul_1_r.
    assert (H : 2 ^ Z.succ lb = 2 ^ la * 2 ^ (- (la - lb - 1))).
    { rewrite <- Z.pow_add_r by lia. f_equal; lia. }
    assert (0 < 2 ^ (- (la - lb - 1))) by (apply Z.pow_pos_nonneg; lia).
    nia.
Qed.

(** [2^52 <= a * 2^(52-k) / b] once [2^k <= a / b], for [k <= 52]. *)
Lemma scaled_lower (a b k : Z) :
  0 < a -> 0 < b -> k <= 52 ->
  F64.ratio_geb_pow2 a b k = true ->
  b * 2 ^ 52 <= a * 2 ^ (52 - k).
Proof.
  intros Ha Hb Hk Hgeb. unfold F64.ratio_geb_pow2 in Hgeb. apply Z.leb_le in Hgeb.
  destruct (Z.le_gt_cases 0 k) as [Hpos|Hneg].
  - rewrite Z.max_l, Z.max_r in Hgeb by lia. rewrite Z.pow_0_r, Z.mul_1_r in Hgeb.
    assert (H : 2 ^ 52 = 2 ^ k * 2 ^ (52 - k)).
    { rewrite <- Z.pow_add_r by lia. f_equal; lia. }
    assert (0 < 2 ^ (52 - k)) by (apply Z.pow_pos_nonneg; lia).
    rewrite H. nia.
  - rewrite Z.max_r, Z.max_l in Hgeb by lia. rewrite Z.pow_0_r, Z.mul_1_r in Hgeb.
    assert (H : 2 ^ (52 - k) = 2 ^ 52 * 2 ^ (- k)).
    { rewrite <- Z.pow_add_r by lia. f_equal; lia. }
    rewrite H. nia.
Qed.

Lemma round_ratio_approximates (a b : Z) :
  0 < a -> 0 < b -> F64.ilog2_ratio a b <= 51 ->
  approximates (F64.round_ratio a b) a b.
Proof.
  intros Ha Hb Hk.
  pose proof (scaled_lower a b (F64.ilog2_ratio a b) Ha Hb ltac:(lia) (ilog2_ratio_lower a b Ha Hb)) as Hlow.
  unfold F64.round_ratio, approximates, scale.
  set (k := F64.ilog2_ratio a b) in *.
  rewrite Z.max_l, Z.max_r by lia. rewrite Z.pow_0_r, Z.mul_1_r.
  replace (- (k - 52)) with (52 - k) by lia.
  assert (HD : 0 < 2 ^ (52 - k)) by (apply Z.pow_pos_nonneg; lia).
  set (D := 2 ^ (52 - k)) in *.
  destruct (round_nearest_even_error (a * D) b ltac:(nia) Hb) as [Herr Hfloor].
  assert (Hq : 2 ^ 52 <= a * D / b).
  { apply Z.div_le_lower_bound; lia. }
  set (m := F64.round_nearest_even (a * D) b) in *.
  destruct (Z.eqb_spec m (2 ^ 53)) as [Hm|Hm]; cbn [F64.mant F64.expo].
  - assert (HD2 : D = 2 * 2 ^ (- (k - 52 + 1))).
    { unfold D. rewrite <- Z.pow_succ_r by lia. f_equal; lia. }
    set (D' := 2 ^ (- (k - 52 + 1))) in *.
    split; [lia|]. split; [lia|].
    rewrite Hm in Herr.
    replace (2 ^ 53) with (2 * 2 ^ 52) in Herr by reflexivity. lia.
  - replace (- (k - 52)) with (52 - k) by lia. fold D.
    split; [lia|]. split; [lia|]. nia.
Qed.

Lemma scale_pos (x : F64.t) : F64.expo x <= 0 -> 0 < scale x.
Proof. intros H. unfold scale. apply Z.pow_pos_nonneg; lia. Qed.

Lemma ilog2_ratio_le (a b : Z) : F64.ilog2_ratio a b <= Z.log2 a - Z.log2 b.
Proof. unfold F64.ilog2_ratio. destruct (F64.ratio_geb_pow2 _ _ _); lia. Qed.

Lemma div_int_approximates (s n : Z) :
  1 <= s <= n -> approximates (F64.div_int s n) s n.
Proof.
  intros Hs. unfold F64.div_int.
  destruct (Z.eqb_spec s 0) as [->|_]; [lia|].
  apply round_ratio_approximates; [lia | lia |].
  pose proof (ilog2_ratio_le s n). pose proof (Z.log2_le_mono s n). lia.
Qed.

(** A double close to [a / b <= 1] is at most 2. *)
Lemma approximates_le_2 (x : F64.t) (a b : Z) :
  0 < a <= b -> approximates x a b -> F64.mant x <= 2 * scale x.
Proof.
  intros Hab (He & Hm & Herr). pose proof (scale_pos x He) as HD.
  set (D := scale x) in *. set (m := F64.mant x) in *.
  assert (H1 : m * b <= 2 * (a * D)) by nia.
  assert (H2 : m * b <= 2 * D * b) by nia.
  nia.
Qed.

Lemma mul_int_100_approximates (x : F64.t) :
  F64.expo x <= 0 -> 0 < F64.mant x -> F64.mant x <= 2 * scale x ->
  approximates (F64.mul_int x 100) (F64.mant x * 100) (scale x).
Proof.
  intros He Hm Hle. pose proof (scale_pos x He) as HD.
  unfold F64.mul_int. destruct (Z.eqb_spec (F64.mant x) 0) as [H0|_]; [lia|].
  rewrite Z.max_r, Z.max_l by lia. rewrite Z.pow_0_r, Z.mul_1_r. fold (scale x).
  apply round_ratio_approximates; [lia | lia |].
  pose proof (ilog2_ratio_le (F64.mant x * 100) (scale x)) as Hk.
  assert (Hlog : Z.log2 (scale x) = - F64.expo x)
    by (unfold scale; apply Z.log2_pow2; lia).
  assert (Hlt : Z.log2 (F64.mant x * 100) < 52 - F64.expo x).
  { apply Z.log2_lt_pow2; [lia|].
    replace (52 - F64.expo x) with (52 + - F64.expo x) by lia.
    rewrite Z.pow_add_r by lia. fold (scale x).
    assert (200 < 2 ^ 52) by reflexivity. nia. }
  lia.
Qed.

Lemma Math_round_scale (x : F64.t) :
  F64.expo x <= 0 ->
  F64.Math_round x = (2 * F64.mant x + scale x) / (2 * scale x).
Proof.
  intros He. unfold F64.Math_round, scale.
  destruct (Z.leb_spec 0 (F64.expo x)) as [H0|Hneg].
  - replace (F64.expo x) with 0 by lia. change (- 0) with 0.
    rewrite !Z.pow_0_r, !Z.mul_1_r.
    apply Z.div_unique with (r := 1); lia.
  - replace (- F64.expo x + 1) with (Z.succ (- F64.expo x)) by lia.
    rewrite Z.pow_succ_r by lia. reflexivity.
Qed.

(** The double [(s / n) * 100] is within [300 * 2^-53 * s / n] of the
    exact value. *)
Lemma product_error (s n : Z) :
  1 <= s <= n ->
  let p := F64.mul_int (F64.div_int s n) 100 in
  F64.expo p <= 0
  /\ 0 < scale p
  /\ 2 ^ 53 * Z.abs (F64.mant p * n - 100 * s * scale p) <= 300 * s * scale p.
Proof.
  intros Hs p.
  pose proof (div_int_approximates s n Hs) as Hx1.
  pose proof (approximates_le_2 _ s n ltac:(lia) Hx1) as Hle.
  destruct Hx1 as (He1 & Hm1 & Herr1).
  destruct (mul_int_100_approximates _ He1 Hm1 Hle) as (He2 & Hm2 & Herr2).
  fold p in He2, Hm2, Herr2.
  pose proof (scale_pos _ He1) as HD1. pose proof (scale_pos _ He2) as HD2.
  set (m1 := F64.mant (F64.div_int s n)) in *.
  set (D1 := scale (F64.div_int s n)) in *.
  set (m2 := F64.mant p) in *. set (D2 := scale p) in *.
  split; [exact He2|]. split; [exact HD2|].
  assert (Hsplit : D1 * (m2 * n - 100 * s * D2)
                   = n * (m2 * D1 - m1 * 100 * D2) + 100 * D2 * (m1 * n - s * D1))
    by ring.
  assert (Hm1n : m1 * n <= 2 * (s * D1)) by lia.
  assert (H1 : 2 ^ 53 * (n * Z.abs (m2 * D1 - m1 * 100 * D2))
               <= n * (m1 * 100 * D2)) by nia.
  assert (H2 : 2 ^ 53 * (100 * D2 * Z.abs (m1 * n - s * D1))
               <= 100 * D2 * (s * D1)) by nia.
  assert (H3 : n * (m1 * 100 * D2) <= 100 * D2 * (2 * (s * D1))) by nia.
  assert (Habs : D1 * Z.abs (m2 * n - 100 * s * D2)
                 <= n * Z.abs (m2 * D1 - m1 * 100 * D2)
                    + 100 * D2 * Z.abs (m1 * n - s * D1)).
  { rewrite <- (Z.abs_eq D1) at 1 by lia. rewrite <- Z.abs_mul, Hsplit.
    etransitivity; [apply Z.abs_triangle|].
    rewrite (Z.abs_mul n), (Z.abs_mul (100 * D2)).
    rewrite (Z.abs_eq n), (Z.abs_eq (100 * D2)) by lia. lia. }
  assert (H4 : D1 * (2 ^ 53 * Z.abs (m2 * n - 100 * s * D2))
               <= D1 * (300 * s * D2)) by nia.
  apply Z.mul_le_mono_pos_l in H4; lia.
Qed.

Lemma percentage_rounding_Z (s n : Z) :
  1 <= s <= n -> n <= 2 ^ 43 ->
  let p := F64.Math_round (F64.mul_int (F64.div_int s n) 100) in
  let E := round_half_up (100 * s) n in
  0 <= p <= 100
  /\ E - 1 <= p <= E
  /\ ((200 * s + n) mod (2 * n) <> 0 -> p = E).
Proof.
  intros Hs Hn p E.
  destruct (product_error s n Hs) as (He & HD & Herr).
  unfold p. rewrite (Math_round_scale _ He). clear p.
  set (x := F64.mul_int (F64.div_int s n) 100) in *.
  set (m := F64.mant x) in *. set (D := scale x) in *.
  set (A := Z.abs (m * n - 100 * s * D)) in *.
  assert (HA0 : 0 <= A) by apply Z.abs_nonneg.
  assert (HA : 2 * A < D).
  { assert (600 * 2 ^ 43 < 2 ^ 53) by reflexivity.
    assert (2 ^ 53 * (2 * A) < 2 ^ 53 * D) by nia.
    apply Z.mul_lt_mono_pos_l in H0; lia. }
  assert (Hmn : 100 * s * D - A <= m * n <= 100 * s * D + A) by lia.
  unfold E, round_half_up. replace (2 * (100 * s)) with (200 * s) by lia.
  pose proof (Z.div_mod (200 * s + n) (2 * n) ltac:(lia)) as HE.
  pose proof (Z.mod_pos_bound (200 * s + n) (2 * n) ltac:(lia)) as Hr.
  pose proof (Z.div_mod (2 * m + D) (2 * D) ltac:(lia)) as HP.
  pose proof (Z.mod_pos_bound (2 * m + D) (2 * D) ltac:(lia)) as Hr'.
  set (e := (200 * s + n) / (2 * n)) in *.
  set (r := (200 * s + n) mod (2 * n)) in *.
  set (q := (2 * m + D) / (2 * D)) in *.
  set (r' := (2 * m + D) mod (2 * D)) in *.
  assert (Hup : q <= e).
  { destruct (Z.le_gt_cases q e) as [|Hgt]; [assumption|exfalso].
    assert (2 * D * (e + 1) <= 2 * m + D) by nia.
    assert (n * (2 * D * (e + 1)) <= n * (2 * m + D)) by nia.
    assert (D * (200 * s + n) <= D * (2 * n * (e + 1) - 1)) by nia.
    nia. }
  assert (Hlow : e - 1 <= q).
  { destruct (Z.le_gt_cases (e - 1) q) as [|Hlt]; [assumption|exfalso].
    assert (2 * m + D < 2 * D * (e - 1)) by nia.
    assert (n * (2 * m + D) < n * (2 * D * (e - 1))) by nia.
    assert (D * (2 * n * e) <= D * (200 * s + n)) by nia.
    nia. }
  assert (He100 : e <= 100) by nia.
  split; [split; [|lia]|].
  - assert (0 <= m) by (destruct (Z.le_gt_cases 0 m); [assumption|nia]).
    nia.
  - split; [lia|]. intros Hnz.
    destruct (Z.le_gt_cases e q) as [|Hlt]; [lia|exfalso].
    assert (2 * m + D < 2 * D * e) by nia.
    assert (n * (2 * m + D) < n * (2 * D * e)) by nia.
    assert (D * (2 * n * e + 1) <= D * (200 * s + n)) by nia.
    nia.
Qed.

Lemma model_agrees_with_binary64 : model_agrees_upto 100 = true.
Proof. vm_compute. reflexivity. Qed.

(** C3, as the code has it.  When the quiz finishes with
    [0 <= score <= totalQuestions] and [1 <= totalQuestions <= 2^43],
    the percentage shown is [Math.round] of the double
    [(score / totalQuestions) * 100], quotient and product each rounded
    to binary64.  It is an integer in [0, 100]; it is the round-half-up
    of the exact quotient whenever [100 * score / totalQuestions] is not
    exactly half-way between two integers, and at a half-way point it is
    that value or one less. *)
Theorem finishQuiz_percentage (now : Z) (s : State) (q : Quiz) :
  currentQuiz s = Some q ->
  (1 <= length (questions q))%nat ->
  (score q <= length (questions q))%nat ->
  Z.of_nat (length (questions q)) <= 2 ^ 43 ->
  exists s' p,
    finishQuiz now s = (Ok tt, s')
    /\ (finalPercentage <$> resultPanel (view s')) = Some (Int p)
    /\ 0 <= p <= 100
    /\ exact_percentage (score q) (length (questions q)) - 1 <= p
       <= exact_percentage (score q) (length (questions q))
    /\ (~ half_way (score q) (length (questions q)) ->
        p = exact_percentage (score q) (length (questions q))).
Proof.
  intros Hq Hlen Hscore Hbound.
  destruct (finishQuiz_ok now s q Hq) as (s' & Hrun & _ & _ & _ & Hp & _).
  exists s'. rewrite Hp. cbn [fmap option_fmap option_map report_panel finalPercentage].
  unfold exact_percentage, half_way. clear Hp Hq.
  revert Hlen Hscore Hbound. generalize (score q) (length (questions q)).
  intros sc n Hlen Hscore Hbound.
  destruct n as [|n']; [lia|]. unfold quiz_percentage.
  destruct (Nat.eq_dec sc 0%nat) as [->|Hpos].
  - exists 0. split; [exact Hrun|]. split; [reflexivity|]. split; [lia|].
    unfold round_half_up.
    replace ((2 * (100 * Z.of_nat 0) + Z.of_nat (S n')) / (2 * Z.of_nat (S n')))
      with 0 by (symmetry; apply Z.div_small; lia).
    split; [lia|reflexivity].
  - destruct (percentage_rounding_Z (Z.of_nat sc) (Z.of_nat (S n')))
      as (Hrange & Hnear & Hexact); [lia | lia |].
    eexists. split; [exact Hrun|]. split; [reflexivity|].
    split; [exact Hrange|]. split; [exact Hnear|]. exact Hexact.
Qed.

Lemma finishQuiz_percentage_witness :
  exists s' p,
    finishQuiz 9500 (snd (take_quiz 9500 [[1]; [0]; [0]] awaiting_state))
    = (Ok tt, s')
    /\ (finalPercentage <$> resultPanel (view s')) = Some (Int p)
    /\ 0 <= p <= 100
    /\ exact_percentage 2 4 - 1 <= p <= exact_percentage 2 4
    /\ (~ half_way 2 4 -> p = exact_percentage 2 4).
Proof.
  apply (finishQuiz_percentage 9500
           (snd (take_quiz 9500 [[1]; [0]; [0]] awaiting_state))
           {| questions := sample_questions; currentQuestionIndex := 3;
              userAnswers :=
                [Some {| selected := 1; correct := 1; isCorrect := true |};
                 Some {| selected := 0; correct := 0; isCorrect := true |};
                 Some {| selected := 0; correct := 2; isCorrect := false |}];
              score := 2; selectedAnswer := None |}).
  - reflexivity.
  - cbn; lia.
  - cbn; lia.
  - cbn. apply Z.leb_le. reflexivity.
Defined.

(** C3 as stated fails: a quiz of forty questions finished with
    twenty-three correct answers reports 57 per cent, while the
    round-half-up of the exact quotient 57.5 is 58.  The double
    [(23 / 40) * 100] is 57.49999999999999; the primitive binary64
    operations give the same 57. *)
Lemma percentage_23_of_40 :
  (score <$> currentQuiz forty_finished_state) = Some 23%nat
  /\ (length <$> (questions <$> currentQuiz forty_finished_state)) = Some 40%nat
  /\ (finalPercentage <$> resultPanel (view forty_finished_state))
     = Some (Int 57)
  /\ exact_percentage 23 40 = 58
  /\ (finalPercentage <$> resultPanel (view forty_finished_state))
     <> Some (Int (exact_percentage 23 40))
  /\ F64.prim_percentage 23 40 = 57
  /\ F64.mul_int (F64.div_int 23 40) 100 = F64.mk 8092405580431359 (- 47).
Proof.
  split; [vm_compute; reflexivity|]. split; [vm_compute; reflexivity|].
  split; [vm_compute; reflexivity|]. split; [vm_compute; reflexivity|].
  split; [vm_compute; discriminate|].
  split; vm_compute; reflexivity.
Qed.

(** ** More on selecting *)

Lemma map_remove_selected_alter (items : list OptionItem) (pos : nat) :
  map remove_selected (alter add_selected pos (map remove_selected items))
  = map remove_selected items.
Proof.
  revert pos. induction items as [|o items IH]; intros [|pos]; cbn;
    try reflexivity; f_equal; auto.
  rewrite map_map. apply map_ext. now intros [].
Qed.

Lemma select_view_twice (i j : nat) (v : View) :
  select_view j (select_view i v) = select_view j v.
Proof.
  unfold select_view, unselect_view.
  cbn [questionOptions with_questionOptions with_submitAnswerBtn_disabled].
  rewrite map_remove_selected_alter. reflexivity.
Qed.

Lemma selected_after_select (items : list OptionItem) (pos k : nat) (o : OptionItem) :
  alter add_selected pos (map remove_selected items) !! k = Some o ->
  cls_selected o = bool_decide (k = pos)
  /\ exists o0, items !! k = Some o0
       /\ cls_correct o = cls_correct o0
       /\ cls_incorrect o = cls_incorrect o0
       /\ option_text o = option_text o0
       /\ data_option_index o = data_option_index o0.
Proof.
  intros Ho. destruct (decide (k = pos)) as [->|Hne].
  - rewrite list_lookup_alter_eq, list_lookup_fmap in Ho.
    destruct (items !! pos) as [o0|] eqn:Ho0; [|discriminate Ho].
    cbn in Ho. injection Ho as <-. rewrite bool_decide_eq_true_2 by reflexivity.
    split; [reflexivity|]. exists o0. repeat split; reflexivity.
  - rewrite list_lookup_alter_ne, list_lookup_fmap in Ho by congruence.
    destruct (items !! k) as [o0|] eqn:Ho0; [|discriminate Ho].
    cbn in Ho. injection Ho as <-.
    rewrite bool_decide_eq_false_2 by exact Hne.
    split; [reflexivity|]. exists o0. repeat split; reflexivity.
Qed.

(** X1.  While a question whose option texts are plain text is shown,
    the page holding exactly its option elements, [selectOption] with
    one of its option indices succeeds: that index becomes the selected
    answer, the submit button is enabled, exactly the chosen option is
    highlighted, and the score, the recorded answers and the question
    index are kept. *)
Theorem selectOption_selects (s : State) (q : Quiz) (qu : Question) (i : Z) :
  currentQuiz s = Some q ->
  questions q !! currentQuestionIndex q = Some qu ->
  plain_options qu ->
  rendered_for qu (view s) ->
  valid_pick qu i ->
  exists s',
    selectOption i s = (Ok tt, s')
    /\ currentQuiz s' = Some (with_selectedAnswer (Some i) q)
    /\ submitAnswerBtn_disabled (view s') = false
    /\ length (questionOptions (view s')) = length (options qu)
    /\ (forall k o, questionOptions (view s') !! k = Some o ->
          cls_selected o = bool_decide (Z.of_nat k = i))
    /\ same_globals s s'.
Proof.
  intros Hq _ _ Hview Hi.
  rewrite (selectOption_found s q (length (options qu)) i Hq Hview Hi).
  eexists. split; [reflexivity|]. split; [reflexivity|]. split; [reflexivity|].
  split; [|split].
  - cbn [view with_currentQuiz with_view select_view unselect_view questionOptions
         with_submitAnswerBtn_disabled with_questionOptions].
    rewrite length_alter, length_map.
    rewrite <- (length_map data_option_index). fold (item_indices (view s)).
    rewrite Hview. apply length_seq.
  - intros k o Ho.
    cbn [view with_currentQuiz with_view select_view unselect_view questionOptions
         with_submitAnswerBtn_disabled with_questionOptions] in Ho.
    destruct (selected_after_select _ _ _ _ Ho) as [-> _].
    unfold valid_pick in Hi. apply bool_decide_ext. lia.
  - repeat split.
Qed.

Lemma selectOption_selects_witness :
  exists s',
    selectOption 2 awaiting_state = (Ok tt, s')
    /\ currentQuiz s'
       = Some (with_selectedAnswer (Some 2) (fresh_quiz sample_questions))
    /\ submitAnswerBtn_disabled (view s') = false
    /\ length (questionOptions (view s')) = length (options (sample_question 1))
    /\ (forall k o, questionOptions (view s') !! k = Some o ->
          cls_selected o = bool_decide (Z.of_nat k = 2))
    /\ same_globals awaiting_state s'.
Proof.
  apply (selectOption_selects awaiting_state (fresh_quiz sample_questions)
           (sample_question 1) 2);
    [reflexivity | reflexivity | repeat constructor | reflexivity
    | unfold valid_pick; cbn; lia].
Defined.

(** X2.  A selection is revisable: selecting an option and then another
    one leaves exactly the state that selecting the second one alone
    would have left. *)
Theorem selectOption_last_wins (s : State) (q : Quiz) (qu : Question) (i j : Z) :
  currentQuiz s = Some q ->
  rendered_for qu (view s) ->
  valid_pick qu i ->
  valid_pick qu j ->
  (selectOption i ;; selectOption j) s = selectOption j s.
Proof.
  intros Hq Hview Hi Hj. unfold bind.
  rewrite (selectOption_found s q (length (options qu)) i Hq Hview Hi).
  rewrite (selectOption_found s q (length (options qu)) j Hq Hview Hj).
  rewrite (selectOption_found
             (with_currentQuiz (Some (with_selectedAnswer (Some i) q))
                (with_view (select_view (Z.to_nat i) (view s)) s))
             (with_selectedAnswer (Some i) q)
             (length (options qu)) j eq_refl).
  - cbn [view with_currentQuiz with_view]. rewrite select_view_twice. reflexivity.
  - cbn [view with_currentQuiz with_view]. rewrite select_view_indices. exact Hview.
  - exact Hj.
Qed.

Lemma selectOption_last_wins_witness :
  (selectOption 3 ;; selectOption 1) awaiting_state = selectOption 1 awaiting_state.
Proof.
  apply (selectOption_last_wins awaiting_state (fresh_quiz sample_questions)
           (sample_question 1) 3 1);
    [reflexivity | reflexivity | unfold valid_pick; cbn; lia
     | unfold valid_pick; cbn; lia].
Defined.

(** ** More on submitting *)

Lemma mark_feedback_indices (c sel : Z) (items : list OptionItem) :
  map data_option_index (imap (mark_feedback c sel) items)
  = map data_option_index items.
Proof.
  apply list_eq. intros k. rewrite !list_lookup_fmap, list_lookup_imap.
  destruct (items !! k) as [o|]; [|reflexivity]. cbn. f_equal.
  unfold mark_feedback.
  destruct (decide _); [reflexivity|]. destruct (decide _); reflexivity.
Qed.

Lemma reveal_view_indices (q : Quiz) (qu : Question) (sel : Z) (v : View) :
  item_indices (reveal_view q qu sel v) = item_indices v.
Proof. apply mark_feedback_indices. Qed.

(** One click on a valid option followed by a submission. *)
Lemma select_submit_step (s : State) (q : Quiz) (qu : Question) (i : Z) :
  currentQuiz s = Some q ->
  questions q !! currentQuestionIndex q = Some qu ->
  rendered_for qu (view s) ->
  valid_pick qu i ->
  (selectOption i ;; submitQuizAnswer) s
  = (Ok tt,
     with_view
       (reveal_view q qu i (select_view (Z.to_nat i) (view s)))
       (with_currentQuiz (Some (submitted q qu i)) s)).
Proof.
  intros Hq Hqu Hview Hi. unfold bind.
  rewrite (selectOption_found s q (length (options qu)) i Hq Hview Hi).
  rewrite (submitQuizAnswer_selected _ (with_selectedAnswer (Some i) q) qu i)
    by (auto; exact Hqu).
  reflexivity.
Qed.

(** X3.  On a freshly shown question whose option texts are plain text,
    the page holding exactly its option elements, selecting an option
    and submitting it marks the options for feedback: the option at the
    correct index, and only that one, gets the class [correct]; the
    chosen option gets [incorrect] exactly when it is not the correct
    one; and the chosen option keeps its [selected] highlight. *)
Theorem submitQuizAnswer_marks_options (s : State) (q : Quiz) (qu : Question)
    (i : Z) :
  currentQuiz s = Some q ->
  questions q !! currentQuestionIndex q = Some qu ->
  plain_options qu ->
  rendered_for qu (view s) ->
  unmarked (view s) ->
  valid_pick qu i ->
  exists s',
    (selectOption i ;; submitQuizAnswer) s = (Ok tt, s')
    /\ length (questionOptions (view s')) = length (options qu)
    /\ forall k o, questionOptions (view s') !! k = Some o ->
         cls_correct o = bool_decide (Z.of_nat k = correctAnswer qu)
         /\ cls_incorrect o
            = bool_decide (Z.of_nat k = i /\ i <> correctAnswer qu)
         /\ cls_selected o = bool_decide (Z.of_nat k = i).
Proof.
  intros Hq Hqu _ Hview Hun Hi.
  rewrite (select_submit_step s q qu i Hq Hqu Hview Hi).
  eexists. split; [reflexivity|].
  cbn [view with_view with_currentQuiz reveal_view select_view unselect_view
       questionOptions with_nextQuestionBtn with_submitAnswerBtn_disabled
       with_questionOptions].
  split.
  - rewrite length_imap, length_alter, length_map.
    rewrite <- (length_map data_option_index). fold (item_indices (view s)).
    rewrite Hview. apply length_seq.
  - intros k o Ho. rewrite list_lookup_imap in Ho.
    destruct (alter add_selected (Z.to_nat i)
                (map remove_selected (questionOptions (view s))) !! k)
      as [o1|] eqn:Ho1; [|discriminate Ho].
    cbn in Ho. injection Ho as <-.
    destruct (selected_after_select _ _ _ _ Ho1)
      as (Hsel & o0 & Ho0 & Hc & Hi' & _).
    unfold unmarked in Hun. rewrite Forall_lookup in Hun.
    destruct (Hun k o0 Ho0) as [Hc0 Hi0].
    rewrite Hc0 in Hc. rewrite Hi0 in Hi'.
    assert (Hseli : bool_decide (k = Z.to_nat i) = bool_decide (Z.of_nat k = i))
      by (unfold valid_pick in Hi; apply bool_decide_ext; lia).
    unfold mark_feedback.
    destruct (decide (Z.of_nat k = correctAnswer qu)) as [Hkc|Hkc].
    + cbn [cls_correct cls_incorrect cls_selected with_classes].
      rewrite bool_decide_eq_true_2 by exact Hkc.
      rewrite Hi', Hsel, Hseli.
      split; [reflexivity|]. split; [|reflexivity].
      symmetry. apply bool_decide_eq_false_2. intros [H1 H2]. congruence.
    + destruct (decide (Z.of_nat k = i)) as [Hki|Hki].
      * cbn [cls_correct cls_incorrect cls_selected with_classes].
        rewrite Hc, Hsel, Hseli.
        rewrite (bool_decide_eq_false_2 _ Hkc).
        split; [reflexivity|]. split; [|reflexivity].
        symmetry. apply bool_decide_eq_true_2. split; congruence.
      * rewrite Hc, Hi', Hsel, Hseli.
        rewrite (bool_decide_eq_false_2 _ Hkc).
        split; [reflexivity|]. split; [|reflexivity].
        symmetry. apply bool_decide_eq_false_2. intros [H1 H2]. congruence.
Qed.

Lemma shown_unmarked (q : Quiz) (qu : Question) (v : View) :
  unmarked (shown q qu v).
Proof.
  unfold unmarked, shown. cbn [questionOptions].
  apply Forall_forall. intros o Ho. apply list_elem_of_fmap in Ho as (o0 & -> & _).
  split; reflexivity.
Qed.

Lemma submitQuizAnswer_marks_options_witness :
  exists s',
    (selectOption 3 ;; submitQuizAnswer) awaiting_state = (Ok tt, s')
    /\ length (questionOptions (view s')) = length (options (sample_question 1))
    /\ forall k o, questionOptions (view s') !! k = Some o ->
         cls_correct o = bool_decide (Z.of_nat k = correctAnswer (sample_question 1))
         /\ cls_incorrect o
            = bool_decide (Z.of_nat k = 3 /\ 3 <> correctAnswer (sample_question 1))
         /\ cls_selected o = bool_decide (Z.of_nat k = 3).
Proof.
  apply (submitQuizAnswer_marks_options awaiting_state
           (fresh_quiz sample_questions) (sample_question 1) 3).
  - reflexivity.
  - reflexivity.
  - repeat constructor.
  - reflexivity.
  - repeat constructor.
  - unfold valid_pick; cbn; lia.
Defined.

(** *** Array cells *)

Lemma array_set_lookup_eq {A : Type} (a : list (option A)) (i : nat) (x : A) :
  array_set a i x !! i = Some (Some x).
Proof.
  unfold array_set. destruct (decide (i < length a)%nat) as [Hlt|Hge].
  - now apply list_lookup_insert_eq.
  - rewrite lookup_app_r by lia. rewrite lookup_app_r; rewrite length_replicate; [|lia].
    replace (i - length a - (i - length a))%nat with 0%nat by lia. reflexivity.
Qed.

Lemma array_set_lookup_ne {A : Type} (a : list (option A)) (i j : nat) (x : A) :
  j <> i -> (j < length a)%nat -> array_set a i x !! j = a !! j.
Proof.
  intros Hne Hlt. unfold array_set. destruct (decide (i < length a)%nat).
  - now apply list_lookup_insert_ne.
  - now apply lookup_app_l.
Qed.

Lemma array_set_length {A : Type} (a : list (option A)) (i : nat) (x : A) :
  length (array_set a i x) = Nat.max (length a) (S i).
Proof.
  unfold array_set. destruct (decide (i < length a)%nat).
  - rewrite length_insert. lia.
  - rewrite !length_app, length_replicate. cbn. lia.
Qed.

(** The cells between the old end of the array and the written index are
    holes. *)
Lemma array_set_lookup_hole {A : Type} (a : list (option A)) (i j : nat) (x : A) :
  (length a <= j < i)%nat -> array_set a i x !! j = Some None.
Proof.
  intros Hj. unfold array_set. destruct (decide (i < length a)%nat); [lia|].
  rewrite lookup_app_r by lia. rewrite lookup_app_l by (rewrite length_replicate; lia).
  apply lookup_replicate. split; [reflexivity|lia].
Qed.

(** X4.  A submission with a selection stores its record in
    [userAnswers] at the index of the current question, whatever the
    length of the array was (the array grows up to that index), and
    leaves the cells it already had elsewhere as they were; the score
    goes up by one exactly when the selection is the correct answer; the
    question index and the questions are kept and the selection is
    cleared; the submit button is disabled and the next button shown,
    labelled "Finish Quiz" exactly on the last question. *)
Theorem submitQuizAnswer_records (s : State) (q : Quiz) (qu : Question) (sel : Z) :
  currentQuiz s = Some q ->
  selectedAnswer q = Some sel ->
  questions q !! currentQuestionIndex q = Some qu ->
  exists s' q',
    submitQuizAnswer s = (Ok tt, s')
    /\ currentQuiz s' = Some q'
    /\ questions q' = questions q
    /\ currentQuestionIndex q' = currentQuestionIndex q
    /\ selectedAnswer q' = None
    /\ userAnswers q' !! currentQuestionIndex q = Some (Some (grade qu sel))
    /\ (forall j, j <> currentQuestionIndex q ->
          (j < length (userAnswers q))%nat ->
          userAnswers q' !! j = userAnswers q !! j)
    /\ length (userAnswers q')
       = Nat.max (length (userAnswers q)) (S (currentQuestionIndex q))
    /\ score q'
       = (score q + if bool_decide (sel = correctAnswer qu) then 1 else 0)%nat
    /\ submitAnswerBtn_disabled (view s') = true
    /\ nextQuestionBtn_hidden (view s') = false
    /\ (nextQuestionBtn_label (view s') = FinishQuiz
        <-> (length (questions q) <= S (currentQuestionIndex q))%nat)
    /\ same_globals s s'.
Proof.
  intros Hq Hsel Hqu.
  rewrite (submitQuizAnswer_selected s q qu sel Hq Hsel Hqu).
  eexists _, (submitted q qu sel). split; [reflexivity|]. split; [reflexivity|].
  split; [reflexivity|]. split; [reflexivity|]. split; [reflexivity|].
  split; [apply array_set_lookup_eq|].
  split; [intros j Hne Hlt; now apply array_set_lookup_ne|].
  split; [apply array_set_length|].
  split; [cbn; destruct (bool_decide _); lia|].
  split; [reflexivity|]. split; [reflexivity|].
  split; [|repeat split].
  cbn [view with_view reveal_view nextQuestionBtn_label with_nextQuestionBtn].
  destruct (Z.ltb_spec (Z.of_nat (currentQuestionIndex q))
              (Z.of_nat (length (questions q)) - 1)); split; intros; try lia;
    try discriminate; reflexivity.
Qed.

Lemma submitQuizAnswer_records_witness :
  exists s' q',
    submitQuizAnswer selected_state = (Ok tt, s')
    /\ currentQuiz s' = Some q'
    /\ questions q' = sample_questions
    /\ currentQuestionIndex q' = 0%nat
    /\ selectedAnswer q' = None
    /\ userAnswers q' !! 0%nat = Some (Some (grade (sample_question 1) 1))
    /\ (forall j, j <> 0%nat -> (j < 0)%nat -> userAnswers q' !! j = [] !! j)
    /\ length (userAnswers q') = Nat.max 0 1
    /\ score q' = (0 + if bool_decide (1 = 1) then 1 else 0)%nat
    /\ submitAnswerBtn_disabled (view s') = true
    /\ nextQuestionBtn_hidden (view s') = false
    /\ (nextQuestionBtn_label (view s') = FinishQuiz <-> (4 <= 1)%nat)
    /\ same_globals selected_state s'.
Proof.
  apply (submitQuizAnswer_records selected_state
           (with_selectedAnswer (Some 1) (fresh_quiz sample_questions))
           (sample_question 1) 1); reflexivity.
Defined.

Lemma bind_assoc {A B C : Type} (m : M A) (k : A -> M B) (h : B -> M C) (s : State) :
  bind (bind m k) h s = bind m (fun a => bind (k a) h) s.
Proof. unfold bind. destruct (m s) as [[a|e] s1]; reflexivity. Qed.

Lemma array_set_last {A : Type} (a : list (option A)) (y : option A) (x : A) :
  array_set (a ++ [y]) (length a) x = a ++ [Some x].
Proof.
  unfold array_set. rewrite length_app. cbn [length].
  destruct (decide _) as [_|H]; [|lia].
  apply list_eq. intros j. destruct (decide (j = length a)) as [->|Hne].
  - rewrite list_lookup_insert_eq by (rewrite length_app; cbn; lia).
    rewrite lookup_app_r by lia. now rewrite Nat.sub_diag.
  - rewrite list_lookup_insert_ne by congruence.
    destruct (decide (j < length a)%nat).
    + now rewrite !lookup_app_l by lia.
    + rewrite !lookup_ge_None_2; [reflexivity| |]; rewrite length_app; cbn; lia.
Qed.

(** X5.  Nothing stops a second submission on the same question: after
    an answer was submitted, selecting again and submitting again
    replaces the record of that question and counts the score a second
    time.  The recorded answers then hold only the last selection, while
    the score has counted both; when the first selection was correct the
    score is one more than the number of correct records. *)
Theorem resubmission_counts_again (qs : list Question) (k : nat)
    (recs : list (option AnswerRecord)) (s : State) (qu : Question) (p1 p2 : Z) :
  at_question qs k recs s ->
  qs !! k = Some qu ->
  valid_pick qu p1 ->
  valid_pick qu p2 ->
  exists s' q',
    (selectOption p1 ;; submitQuizAnswer ;; selectOption p2 ;; submitQuizAnswer) s
    = (Ok tt, s')
    /\ currentQuiz s' = Some q'
    /\ currentQuestionIndex q' = k
    /\ userAnswers q' = recs ++ [Some (grade qu p2)]
    /\ score q'
       = (count_correct recs
          + (if bool_decide (p1 = correctAnswer qu) then 1 else 0)
          + (if bool_decide (p2 = correctAnswer qu) then 1 else 0))%nat
    /\ (p1 = correctAnswer qu ->
        score q' = S (count_correct (userAnswers q'))).
Proof.
  intros (Hq & Hlen & Hview) Hqu Hp1 Hp2. subst k.
  set (q := {| questions := qs; currentQuestionIndex := length recs;
               userAnswers := recs; score := count_correct recs;
               selectedAnswer := None |}) in *.
  change ((selectOption p1 ;; submitQuizAnswer ;; selectOption p2 ;; submitQuizAnswer) s)
    with (bind (selectOption p1)
            (fun _ => bind submitQuizAnswer
               (fun _ => (selectOption p2 ;; submitQuizAnswer))) s).
  rewrite <- (bind_assoc (selectOption p1) (fun _ => submitQuizAnswer)
                (fun _ => (selectOption p2 ;; submitQuizAnswer)) s).
  unfold bind at 1.
  rewrite (select_submit_step s q qu p1 Hq Hqu (Hview qu Hqu) Hp1).
  rewrite (select_submit_step
             (with_view
                (reveal_view q qu p1 (select_view (Z.to_nat p1) (view s)))
                (with_currentQuiz (Some (submitted q qu p1)) s))
             (submitted q qu p1) qu p2 eq_refl Hqu);
    [| cbn [view with_view with_currentQuiz];
       unfold rendered_for; rewrite reveal_view_indices, select_view_indices;
       exact (Hview qu Hqu)
     | exact Hp2 ].
  eexists _, (submitted (submitted q qu p1) qu p2).
  split; [reflexivity|]. split; [reflexivity|]. split; [reflexivity|].
  assert (Hrecs : userAnswers (submitted (submitted q qu p1) qu p2)
                  = recs ++ [Some (grade qu p2)]).
  { cbn [userAnswers submitted currentQuestionIndex q].
    rewrite array_set_end. apply array_set_last. }
  assert (Hscore : score (submitted (submitted q qu p1) qu p2)
                   = (count_correct recs
                      + (if bool_decide (p1 = correctAnswer qu) then 1 else 0)
                      + (if bool_decide (p2 = correctAnswer qu) then 1 else 0))%nat).
  { cbn [score submitted q].
    destruct (bool_decide (p1 = correctAnswer qu));
      destruct (bool_decide (p2 = correctAnswer qu)); lia. }
  split; [exact Hrecs|]. split; [exact Hscore|].
  intros Hc. rewrite Hscore, Hrecs, count_correct_snoc. cbn [isCorrect grade].
  rewrite (bool_decide_eq_true_2 _ Hc).
  destruct (bool_decide (p2 = correctAnswer qu)); lia.
Qed.

Lemma resubmission_counts_again_witness :
  exists s' q',
    (selectOption 1 ;; submitQuizAnswer ;; selectOption 2 ;; submitQuizAnswer)
      awaiting_state = (Ok tt, s')
    /\ currentQuiz s' = Some q'
    /\ currentQuestionIndex q' = 0%nat
    /\ userAnswers q' = [] ++ [Some (grade (sample_question 1) 2)]
    /\ score q'
       = (count_correct []
          + (if bool_decide (1%Z = correctAnswer (sample_question 1)) then 1 else 0)
          + (if bool_decide (2%Z = correctAnswer (sample_question 1)) then 1 else 0))%nat
    /\ (1 = correctAnswer (sample_question 1) ->
        score q' = S (count_correct (userAnswers q'))).
Proof.
  apply (resubmission_counts_again sample_questions 0 [] awaiting_state
           (sample_question 1) 1 2).
  - split; [reflexivity|]. split; [reflexivity|].
    intros qu Hqu. injection Hqu as <-. reflexivity.
  - reflexivity.
  - unfold valid_pick; cbn; lia.
  - unfold valid_pick; cbn; lia.
Defined.

(** ** Without a quiz, without a lesson *)

(** X6.  While [currentQuiz] is [null], submitting, advancing and
    finishing fail with a [TypeError], as does selecting, and
    [displayQuestion] returns at its guard; none of them changes the
    globals, and only [selectOption] touches the page (it clears the
    highlights before it fails). *)
Theorem no_quiz_no_effect (now : Z) (i : Z) (s : State) :
  currentQuiz s = None ->
  submitQuizAnswer s = (Throw TypeError, s)
  /\ nextQuizQuestion now s = (Throw TypeError, s)
  /\ finishQuiz now s = (Throw TypeError, s)
  /\ displayQuestion s = (Ok tt, s)
  /\ fst (selectOption i s) = Throw TypeError
  /\ currentQuiz (snd (selectOption i s)) = None
  /\ same_globals s (snd (selectOption i s)).
Proof.
  intros Hq.
  assert (Hthe : the_quiz s = (Throw TypeError, s))
    by (unfold the_quiz; now rewrite Hq).
  split; [unfold submitQuizAnswer, bind; now rewrite Hthe|].
  split; [unfold nextQuizQuestion, set_quiz, bind; now rewrite Hthe|].
  split; [unfold finishQuiz, bind, get; now rewrite Hthe|].
  split; [unfold displayQuestion, bind, get; now rewrite Hq|].
  unfold selectOption, bind, set_view, modify, get.
  cbn [view with_view].
  destruct (querySelector_option i _) as [pos|].
  - unfold set_quiz, bind, the_quiz. cbn [currentQuiz with_view]. rewrite Hq.
    cbn. repeat split; auto.
  - cbn. repeat split; auto.
Qed.

Lemma no_quiz_no_effect_witness :
  submitQuizAnswer idle_state = (Throw TypeError, idle_state)
  /\ nextQuizQuestion 5 idle_state = (Throw TypeError, idle_state)
  /\ finishQuiz 5 idle_state = (Throw TypeError, idle_state)
  /\ displayQuestion idle_state = (Ok tt, idle_state)
  /\ fst (selectOption 0 idle_state) = Throw TypeError
  /\ currentQuiz (snd (selectOption 0 idle_state)) = None
  /\ same_globals idle_state (snd (selectOption 0 idle_state)).
Proof. apply (no_quiz_no_effect 5 0 idle_state). reflexivity. Defined.

(** X7.  Without a lesson (none loaded, or one whose [lesson_id] is
    falsy) [startQuiz] asks the server nothing: whatever the server would
    have answered, it only shows the "no lesson" toast; the current quiz,
    the start time, the requests sent and the rest of the page are the
    ones before the call. *)
Theorem startQuiz_without_lesson (now : Z) (data : GenerateResponse) (s : State) :
  lesson_ready s = None ->
  startQuiz now data s
  = (Ok tt, with_view (with_toasts (toasts (view s) ++ [NoLessonAvailable]) (view s)) s).
Proof.
  intros Hl. unfold startQuiz, bind, get. rewrite Hl. reflexivity.
Qed.

(** X8.  When a lesson is loaded but the questions do not arrive (the
    server reports an error, or the request fails), [startQuiz] keeps the
    current quiz as it is, hides the loading overlay and shows one error
    toast; the start time, however, has already been moved to the time of
    the call. *)
Theorem startQuiz_failed_keeps_quiz (now : Z) (data : GenerateResponse)
    (s : State) (l : Lesson) :
  lesson_ready s = Some l ->
  data = GenerateError \/ data = FetchRejected ->
  exists s',
    startQuiz now data s = (Ok tt, s')
    /\ currentQuiz s' = currentQuiz s
    /\ quizStartTime s' = Some now
    /\ currentLesson s' = currentLesson s
    /\ saveRequests s' = saveRequests s
    /\ loadingOverlay_hidden (view s') = true
    /\ questionOptions (view s') = questionOptions (view s)
    /\ resultPanel (view s') = resultPanel (view s)
    /\ toasts (view s')
       = toasts (view s)
         ++ [match data with FetchRejected => NetworkError | _ => GenerateFailed end].
Proof.
  intros Hl Hdata. unfold startQuiz, bind, get. rewrite Hl.
  destruct Hdata as [-> | ->]; eexists; (split; [reflexivity|]); cbn; repeat split.
Qed.

Lemma startQuiz_without_lesson_witness :
  startQuiz 20000 (GenerateOk sample_questions) lessonless_state
  = (Ok tt,
     with_view (with_toasts (toasts (view lessonless_state) ++ [NoLessonAvailable])
                  (view lessonless_state)) lessonless_state).
Proof.
  apply (startQuiz_without_lesson 20000 (GenerateOk sample_questions)
           lessonless_state).
  reflexivity.
Defined.

Lemma startQuiz_failed_keeps_quiz_witness :
  exists s',
    startQuiz 20000 FetchRejected revealed_state = (Ok tt, s')
    /\ currentQuiz s' = currentQuiz revealed_state
    /\ quizStartTime s' = Some 20000
    /\ currentLesson s' = currentLesson revealed_state
    /\ saveRequests s' = saveRequests revealed_state
    /\ loadingOverlay_hidden (view s') = true
    /\ questionOptions (view s') = questionOptions (view revealed_state)
    /\ resultPanel (view s') = resultPanel (view revealed_state)
    /\ toasts (view s') = toasts (view revealed_state) ++ [NetworkError].
Proof.
  apply (startQuiz_failed_keeps_quiz 20000 FetchRejected revealed_state
           {| lesson_id := 7 |}); [reflexivity | right; reflexivity].
Defined.

(** ** Runs with skipped questions *)

Lemma cell_array_set {A : Type} (a : list (option A)) (i j : nat) (x : A) :
  cell (array_set a i x) j = if decide (j = i) then Some x else cell a j.
Proof.
  unfold cell. destruct (decide (j = i)) as [->|Hne].
  - now rewrite array_set_lookup_eq.
  - destruct (decide (j < length a)%nat) as [Hlt|Hge].
    + now rewrite array_set_lookup_ne.
    + rewrite (lookup_ge_None_2 a j) by lia.
      destruct (decide (j < i)%nat) as [Hji|Hji].
      * rewrite array_set_lookup_hole by lia. reflexivity.
      * rewrite lookup_ge_None_2; [reflexivity|]. rewrite array_set_length. lia.
Qed.

Lemma count_correct_app (a b : list (option AnswerRecord)) :
  count_correct (a ++ b) = (count_correct a + count_correct b)%nat.
Proof. unfold count_correct. now rewrite filter_app, length_app. Qed.

Lemma count_correct_holes (n : nat) : count_correct (replicate n None) = 0%nat.
Proof. induction n as [|n IH]; [reflexivity|]. exact IH. Qed.

Lemma count_correct_le_length (a : list (option AnswerRecord)) :
  (count_correct a <= length a)%nat.
Proof. unfold count_correct. apply length_filter. Qed.

Lemma count_correct_array_set (a : list (option AnswerRecord)) (i : nat)
    (r : AnswerRecord) :
  (length a <= i)%nat ->
  count_correct (array_set a i r)
  = if isCorrect r then S (count_correct a) else count_correct a.
Proof.
  intros Hle. unfold array_set. destruct (decide _); [lia|].
  rewrite app_assoc, count_correct_snoc, count_correct_app, count_correct_holes.
  destruct (isCorrect r); lia.
Qed.

Lemma record_pick_length (recs : list (option AnswerRecord)) (k : nat)
    (qu : Question) (picks : list Z) :
  (length recs <= k)%nat -> (length (record_pick recs k qu picks) <= S k)%nat.
Proof.
  intros Hle. unfold record_pick. destruct (last picks); [|lia].
  rewrite array_set_length. lia.
Qed.

(** Clicks, submit: with at least one click the last one is recorded at
    the index of the question, with none nothing happens. *)
Lemma picks_submit (qs : list Question) (k : nat)
    (recs : list (option AnswerRecord)) (s : State) (qu : Question)
    (picks : list Z) :
  upto_question qs k recs s ->
  qs !! k = Some qu ->
  optional_picks qu picks ->
  exists s',
    (select_all picks ;; submitQuizAnswer) s = (Ok tt, s')
    /\ currentQuiz s'
       = Some {| questions := qs; currentQuestionIndex := k;
                 userAnswers := record_pick recs k qu picks;
                 score := count_correct (record_pick recs k qu picks);
                 selectedAnswer := None |}
    /\ same_globals s s'.
Proof.
  intros (Hq & Hlen & Hview) Hqu Hall.
  destruct (select_all_valid picks s _ (length (options qu)) Hq (Hview qu Hqu) Hall)
    as (s1 & Hrun1 & Hq1 & _ & Hsame1).
  unfold bind. rewrite Hrun1. unfold record_pick.
  destruct (last picks) as [p|] eqn:Hlast.
  - rewrite (submitQuizAnswer_selected s1 _ qu p Hq1) by (auto; exact Hqu).
    eexists. split; [reflexivity|]. split; [|exact Hsame1].
    cbn [currentQuiz with_view with_currentQuiz]. f_equal. unfold submitted.
    cbn [questions currentQuestionIndex userAnswers score with_selectedAnswer].
    rewrite count_correct_array_set by exact Hlen. reflexivity.
  - rewrite (submitQuizAnswer_undefined s1 _ Hq1) by reflexivity.
    exists s1. split; [reflexivity|]. split; [exact Hq1|exact Hsame1].
Qed.

Lemma answer_question_any (now : Z) (qs : list Question) (k : nat)
    (recs : list (option AnswerRecord)) (s : State) (qu : Question)
    (picks : list Z) :
  upto_question qs k recs s ->
  qs !! k = Some qu ->
  optional_picks qu picks ->
  exists s',
    answer_question now picks s = (Ok tt, s')
    /\ if decide (S k < length qs)%nat
       then upto_question qs (S k) (record_pick recs k qu picks) s'
            /\ same_globals s s'
       else reported now (finished_quiz qs (record_pick recs k qu picks)) s s'.
Proof.
  intros Hat Hqu Hpicks.
  destruct (picks_submit qs k recs s qu picks Hat Hqu Hpicks)
    as (s1 & Hrun1 & Hq1 & Hsame1).
  unfold answer_question.
  change (select_all picks;; submitQuizAnswer;; nextQuizQuestion now)
    with (bind (select_all picks)
            (fun _ => bind submitQuizAnswer (fun _ => nextQuizQuestion now))).
  rewrite <- bind_assoc. unfold bind at 1. rewrite Hrun1.
  destruct (decide (S k < length qs)%nat) as [Hlt|Hge].
  - destruct (lookup_lt_is_Some_2 qs (S k) Hlt) as [qu' Hqu'].
    rewrite (nextQuizQuestion_display now s1 _ qu' Hq1) by exact Hqu'.
    eexists. split; [reflexivity|]. split; [|exact Hsame1].
    split; [reflexivity|]. split.
    + apply record_pick_length. now destruct Hat as (_ & Hlen & _).
    + intros qu'' Hqu''. rewrite Hqu' in Hqu''. injection Hqu'' as <-.
      apply shown_rendered.
  - assert (Hlast : S k = length qs) by (apply lookup_lt_Some in Hqu; lia).
    rewrite (nextQuizQuestion_finish now s1 _ Hq1) by (cbn; lia).
    destruct (finishQuiz_ok now
                (with_currentQuiz (Some (next_index
                   {| questions := qs; currentQuestionIndex := k;
                      userAnswers := record_pick recs k qu picks;
                      score := count_correct (record_pick recs k qu picks);
                      selectedAnswer := None |})) s1) _ eq_refl)
      as (s' & Hrun & Hrep).
    exists s'. split; [exact Hrun|].
    apply (reported_same_globals now _ s s1 s' Hsame1).
    unfold finished_quiz. rewrite <- Hlast. exact Hrep.
Qed.

Lemma take_quiz_skipping (now : Z) (qs : list Question) (all_picks : list (list Z)) :
  forall (k : nat) (recs : list (option AnswerRecord)) (s : State),
    upto_question qs k recs s ->
    (k < length qs)%nat ->
    Forall2 optional_picks (drop k qs) all_picks ->
    exists s',
      take_quiz now all_picks s = (Ok tt, s')
      /\ reported now
           (finished_quiz qs (records_from recs k (drop k qs) all_picks)) s s'.
Proof.
  induction all_picks as [|picks rest IH]; intros k recs s Hat Hk Hall.
  - apply Forall2_nil_inv_r in Hall.
    apply (f_equal length) in Hall. rewrite length_drop in Hall. cbn in Hall. lia.
  - destruct (lookup_lt_is_Some_2 qs k Hk) as [qu Hqu].
    rewrite (drop_S qs qu k Hqu) in Hall |- *.
    apply Forall2_cons in Hall as [Hpicks Hrest].
    cbn [take_quiz records_from]. unfold bind.
    destruct (answer_question_any now qs k recs s qu picks Hat Hqu Hpicks)
      as (s1 & Hrun1 & Hstep).
    rewrite Hrun1.
    destruct (decide (S k < length qs)%nat) as [Hmore|Hlast].
    + destruct Hstep as [Hat1 Hsame1].
      destruct (IH (S k) _ s1 Hat1 Hmore Hrest) as (s' & Hrun & Hrep).
      exists s'. split; [exact Hrun|].
      exact (reported_same_globals now _ s s1 s' Hsame1 Hrep).
    + rewrite drop_ge in Hrest |- * by lia.
      apply Forall2_nil_inv_l in Hrest. subst rest.
      exists s1. split; [reflexivity|]. exact Hstep.
Qed.

Lemma records_from_length (qs : list Question) (all_picks : list (list Z)) :
  forall (recs : list (option AnswerRecord)) (k : nat),
    (length recs <= k)%nat ->
    (length (records_from recs k qs all_picks) <= k + length qs)%nat.
Proof.
  revert all_picks. induction qs as [|qu qs IH]; intros [|picks rest] recs k Hle;
    cbn [records_from length]; try lia.
  pose proof (IH rest _ (S k) (record_pick_length recs k qu picks Hle)). lia.
Qed.

Lemma cell_record_pick (recs : list (option AnswerRecord)) (k j : nat)
    (qu : Question) (picks : list Z) :
  cell (record_pick recs k qu picks) j
  = if decide (j = k)
    then match last picks with
         | Some p => Some (grade qu p)
         | None => cell recs k
         end
    else cell recs j.
Proof.
  unfold record_pick. destruct (last picks) as [p|].
  - apply cell_array_set.
  - destruct (decide (j = k)) as [->|]; reflexivity.
Qed.

Lemma cell_beyond {A : Type} (a : list (option A)) (j : nat) :
  (length a <= j)%nat -> cell a j = None.
Proof. intros H. unfold cell. now rewrite lookup_ge_None_2. Qed.

(** What a run leaves at the index of each of its questions. *)
Lemma records_from_cell (qs : list Question) :
  forall (all_picks : list (list Z)) (recs : list (option AnswerRecord))
         (k i : nat) (qu : Question) (picks : list Z),
    (length recs <= k)%nat ->
    qs !! i = Some qu ->
    all_picks !! i = Some picks ->
    cell (records_from recs k qs all_picks) (k + i) = grade qu <$> last picks.
Proof.
  assert (Hkeep : forall (qs : list Question) (all_picks : list (list Z))
                    (recs : list (option AnswerRecord)) (k j : nat),
             (j < k)%nat ->
             cell (records_from recs k qs all_picks) j = cell recs j).
  { clear qs. induction qs as [|qu qs IH]; intros [|picks rest] recs k j Hj;
      cbn [records_from]; try reflexivity.
    rewrite IH by lia. rewrite cell_record_pick.
    destruct (decide (j = k)); [lia|reflexivity]. }
  induction qs as [|qu0 qs IH]; intros [|picks0 rest] recs k i qu picks Hle Hqu Hpicks;
    try discriminate.
  cbn [records_from]. destruct i as [|i].
  - injection Hqu as <-. injection Hpicks as <-.
    rewrite Nat.add_0_r, Hkeep by lia. rewrite cell_record_pick.
    destruct (decide (k = k)); [|congruence].
    destruct (last picks0); [reflexivity|]. now apply cell_beyond.
  - replace (k + S i)%nat with (S k + i)%nat by lia.
    apply IH; [now apply record_pick_length | exact Hqu | exact Hpicks].
Qed.

Lemma quiz_run_skipping (now tfin : Z) (s : State) (l : Lesson)
    (qs : list Question) (all_picks : list (list Z)) :
  lesson_ready s = Some l ->
  qs <> [] ->
  Forall2 optional_picks qs all_picks ->
  exists s',
    (startQuiz now (GenerateOk qs) ;; take_quiz tfin all_picks) s = (Ok tt, s')
    /\ currentQuiz s' = Some (finished_quiz qs (records_from [] 0 qs all_picks))
    /\ resultPanel (view s')
       = Some (report_panel tfin (Some now)
                 (finished_quiz qs (records_from [] 0 qs all_picks)))
    /\ saveRequests s'
       = saveRequests s ++
         [report_request tfin (Some now) l
            (finished_quiz qs (records_from [] 0 qs all_picks))].
Proof.
  intros Hl Hne Hall. destruct qs as [|qu qs']; [congruence|].
  unfold bind.
  rewrite (startQuiz_started now s l (qu :: qs') qu Hl eq_refl).
  set (s0 := with_view _ _).
  assert (Hat : upto_question (qu :: qs') 0 [] s0).
  { split; [reflexivity|]. split; [reflexivity|].
    intros qu' Hqu'. injection Hqu' as <-.
    apply (shown_rendered (fresh_quiz (qu :: qs')) qu). }
  destruct (take_quiz_skipping tfin (qu :: qs') all_picks 0 [] s0 Hat)
    as (s' & Hrun & Hq' & _ & _ & Hp' & Hr'); [cbn; lia | exact Hall |].
  exists s'. split; [exact Hrun|].
  cbn [drop] in *. split; [exact Hq'|]. split; [exact Hp'|].
  rewrite Hr'. subst s0. unfold lesson_ready in *.
  cbn [currentLesson saveRequests quizStartTime with_view with_currentQuiz
       with_quizStartTime].
  now rewrite Hl.
Qed.

(** X10.  The score still counts the correct records when questions are
    skipped.  For every non-empty question set and every run in which
    each question gets any number of clicks on its options (possibly
    none), then submit and next: the quiz ends finished; a question that
    was clicked has the record of its last click at its own index of
    [userAnswers], a question that was not clicked has none there; the
    array is never longer than the question list; the score is the number
    of correct records; and this array and this score are what is sent to
    the server. *)
Theorem run_with_skipped_questions (now tfin : Z) (s : State) (l : Lesson)
    (qs : list Question) (all_picks : list (list Z)) :
  lesson_ready s = Some l ->
  qs <> [] ->
  Forall2 optional_picks qs all_picks ->
  exists s' q r,
    (startQuiz now (GenerateOk qs) ;; take_quiz tfin all_picks) s = (Ok tt, s')
    /\ currentQuiz s' = Some q
    /\ currentQuestionIndex q = length qs
    /\ score q = count_correct (userAnswers q)
    /\ (length (userAnswers q) <= length qs)%nat
    /\ (forall i qu picks,
          qs !! i = Some qu -> all_picks !! i = Some picks ->
          cell (userAnswers q) i = grade qu <$> last picks)
    /\ last (saveRequests s') = Some r
    /\ answers r = userAnswers q
    /\ correct_answers r = score q.
Proof.
  intros Hl Hne Hall.
  destruct (quiz_run_skipping now tfin s l qs all_picks Hl Hne Hall)
    as (s' & Hrun & Hq' & _ & Hr').
  eexists s', _, _. split; [exact Hrun|]. split; [exact Hq'|].
  split; [reflexivity|]. split; [reflexivity|].
  split; [apply (records_from_length qs all_picks [] 0); cbn; lia|].
  split; [intros i qu picks Hqu Hpicks;
          apply (records_from_cell qs all_picks [] 0 i qu picks);
          [cbn; lia | exact Hqu | exact Hpicks]|].
  split; [rewrite Hr'; apply last_snoc|]. split; reflexivity.
Qed.

Lemma run_with_skipped_questions_witness :
  exists s' q r,
    (startQuiz 1000 (GenerateOk sample_questions) ;;
     take_quiz 9500 [[1]; []; [3; 2]; []]) idle_state = (Ok tt, s')
    /\ currentQuiz s' = Some q
    /\ currentQuestionIndex q = length sample_questions
    /\ score q = count_correct (userAnswers q)
    /\ (length (userAnswers q) <= length sample_questions)%nat
    /\ (forall i qu picks,
          sample_questions !! i = Some qu ->
          [[1]; []; [3; 2]; []] !! i = Some picks ->
          cell (userAnswers q) i = grade qu <$> last picks)
    /\ last (saveRequests s') = Some r
    /\ answers r = userAnswers q
    /\ correct_answers r = score q.
Proof.
  apply (run_with_skipped_questions 1000 9500 idle_state {| lesson_id := 7 |}
           sample_questions [[1]; []; [3; 2]; []]).
  - reflexivity.
  - discriminate.
  - unfold optional_picks, valid_pick.
    repeat (apply Forall2_cons; split; [repeat constructor; cbn; lia|]).
    apply Forall2_nil. exact I.
Defined.

Lemma quiz_percentage_spec (sc n : nat) :
  (1 <= n)%nat -> (sc <= n)%nat -> Z.of_nat n <= 2 ^ 43 ->
  exists p,
    quiz_percentage sc n = Int p
    /\ 0 <= p <= 100
    /\ exact_percentage sc n - 1 <= p <= exact_percentage sc n
    /\ (~ half_way sc n -> p = exact_percentage sc n).
Proof.
  intros Hn Hsc Hbound. unfold exact_percentage, half_way.
  destruct n as [|n']; [lia|]. unfold quiz_percentage.
  destruct (Nat.eq_dec sc 0%nat) as [->|Hpos].
  - exists 0. split; [reflexivity|]. split; [lia|].
    unfold round_half_up.
    replace ((2 * (100 * Z.of_nat 0) + Z.of_nat (S n')) / (2 * Z.of_nat (S n')))
      with 0 by (symmetry; apply Z.div_small; lia).
    split; [lia|reflexivity].
  - destruct (percentage_rounding_Z (Z.of_nat sc) (Z.of_nat (S n')))
      as (Hrange & Hnear & Hexact); [lia | lia |].
    eexists. split; [reflexivity|].
    split; [exact Hrange|]. split; [exact Hnear|]. exact Hexact.
Qed.

(** X9.  In every such run over at most [2^43] questions the score never
    exceeds the number of questions, and the percentage is an integer
    between 0 and 100, the same on the result panel and in the request
    sent to the server; it is the round-half-up of
    [100 * score / questions] unless that quotient lies exactly half-way
    between two integers, where it may be one less. *)
Theorem run_percentage_in_range (now tfin : Z) (s : State) (l : Lesson)
    (qs : list Question) (all_picks : list (list Z)) :
  lesson_ready s = Some l ->
  qs <> [] ->
  Z.of_nat (length qs) <= 2 ^ 43 ->
  Forall2 optional_picks qs all_picks ->
  exists s' q panel r p,
    (startQuiz now (GenerateOk qs) ;; take_quiz tfin all_picks) s = (Ok tt, s')
    /\ currentQuiz s' = Some q
    /\ (score q <= length qs)%nat
    /\ resultPanel (view s') = Some panel
    /\ finalScore panel = (score q, length qs)
    /\ finalPercentage panel = Int p
    /\ last (saveRequests s') = Some r
    /\ saved_score r = Int p
    /\ total_questions r = length qs
    /\ 0 <= p <= 100
    /\ exact_percentage (score q) (length qs) - 1 <= p
       <= exact_percentage (score q) (length qs)
    /\ (~ half_way (score q) (length qs) ->
        p = exact_percentage (score q) (length qs)).
Proof.
  intros Hl Hne Hbound Hall.
  destruct (quiz_run_skipping now tfin s l qs all_picks Hl Hne Hall)
    as (s' & Hrun & Hq' & Hp' & Hr').
  set (recs := records_from [] 0 qs all_picks) in *.
  assert (Hscore : (count_correct recs <= length qs)%nat).
  { pose proof (count_correct_le_length recs).
    pose proof (records_from_length qs all_picks [] 0 ltac:(cbn; lia)).
    fold recs in H0. lia. }
  destruct (quiz_percentage_spec (count_correct recs) (length qs))
    as (p & Hp & Hrange & Hnear & Hexact);
    [destruct qs; [congruence|cbn; lia] | exact Hscore | exact Hbound |].
  exists s', (finished_quiz qs recs),
    (report_panel tfin (Some now) (finished_quiz qs recs)),
    (report_request tfin (Some now) l (finished_quiz qs recs)), p.
  split; [exact Hrun|]. split; [exact Hq'|]. split; [exact Hscore|].
  split; [exact Hp'|]. split; [reflexivity|]. split; [exact Hp|].
  split; [rewrite Hr'; apply last_snoc|]. split; [exact Hp|].
  split; [reflexivity|]. split; [exact Hrange|]. split; [exact Hnear|exact Hexact].
Qed.

Lemma run_percentage_in_range_witness :
  exists s' q panel r p,
    (startQuiz 1000 (GenerateOk sample_questions) ;;
     take_quiz 9500 [[1]; []; [3; 2]; []]) idle_state = (Ok tt, s')
    /\ currentQuiz s' = Some q
    /\ (score q <= length sample_questions)%nat
    /\ resultPanel (view s') = Some panel
    /\ finalScore panel = (score q, length sample_questions)
    /\ finalPercentage panel = Int p
    /\ last (saveRequests s') = Some r
    /\ saved_score r = Int p
    /\ total_questions r = length sample_questions
    /\ 0 <= p <= 100
    /\ exact_percentage (score q) (length sample_questions) - 1 <= p
       <= exact_percentage (score q) (length sample_questions)
    /\ (~ half_way (score q) (length sample_questions) ->
        p = exact_percentage (score q) (length sample_questions)).
Proof.
  apply (run_percentage_in_range 1000 9500 idle_state {| lesson_id := 7 |}
           sample_questions [[1]; []; [3; 2]; []]).
  - reflexivity.
  - discriminate.
  - cbn. apply Z.leb_le. reflexivity.
  - unfold optional_picks, valid_pick.
    repeat (apply Forall2_cons; split; [repeat constructor; cbn; lia|]).
    apply Forall2_nil. exact I.
Defined.

(** ** Finishing *)

Lemma finishQuiz_effect (now : Z) (s : State) (q : Quiz) :
  currentQuiz s = Some q ->
  finishQuiz now s
  = (Ok tt,
     with_view (finished_view now (quizStartTime s) q (view s))
       (with_saveRequests (requests_after_finish now s q) s)).
Proof.
  intros Hq. unfold finishQuiz, bind, get.
  rewrite (the_quiz_some s q Hq).
  unfold set_view, modify, saveQuizResults, bind, get, showToast, set_view, modify.
  cbn [view with_view]. unfold requests_after_finish, lesson_ready.
  cbn [currentLesson with_view].
  destruct (currentLesson s) as [l|] eqn:Hl.
  - destruct (lesson_id l =? 0) eqn:Hid.
    + destruct s; reflexivity.
    + unfold the_quiz. cbn [currentQuiz with_view]. rewrite Hq. reflexivity.
  - destruct s; reflexivity.
Qed.

(** X11.  Once the last question is passed, every further call of
    [nextQuizQuestion] runs [finishQuiz] again: the index moves on, the
    result is computed from the same score and the same records, and one
    more request carrying them is sent to the server. *)
Theorem advancing_past_the_end_resends (now : Z) (s : State) (q : Quiz)
    (l : Lesson) :
  currentQuiz s = Some q ->
  (length (questions q) <= S (currentQuestionIndex q))%nat ->
  lesson_ready s = Some l ->
  exists s' q' r,
    nextQuizQuestion now s = (Ok tt, s')
    /\ currentQuiz s' = Some q'
    /\ currentQuestionIndex q' = S (currentQuestionIndex q)
    /\ (length (questions q') <= S (currentQuestionIndex q'))%nat
    /\ lesson_ready s' = Some l
    /\ saveRequests s' = saveRequests s ++ [r]
    /\ correct_answers r = score q
    /\ answers r = userAnswers q
    /\ total_questions r = length (questions q)
    /\ saved_score r = quiz_percentage (score q) (length (questions q))
    /\ resultPanel (view s') = Some (report_panel now (quizStartTime s) q').
Proof.
  intros Hq Hlen Hl.
  rewrite (nextQuizQuestion_finish now s q Hq Hlen).
  rewrite (finishQuiz_effect now (with_currentQuiz (Some (next_index q)) s)
             (next_index q) eq_refl).
  eexists _, (next_index q), (report_request now (quizStartTime s) l (next_index q)).
  split; [reflexivity|]. split; [reflexivity|]. split; [reflexivity|].
  split; [cbn; lia|]. split; [exact Hl|].
  split; [|repeat split].
  cbn [saveRequests with_view with_saveRequests]. unfold requests_after_finish.
  change (lesson_ready (with_currentQuiz (Some (next_index q)) s))
    with (lesson_ready s).
  rewrite Hl. reflexivity.
Qed.

Lemma advancing_past_the_end_resends_witness :
  exists s' q' r,
    nextQuizQuestion 12000 finished_state = (Ok tt, s')
    /\ currentQuiz s' = Some q'
    /\ currentQuestionIndex q' = 5%nat
    /\ (length (questions q') <= S (currentQuestionIndex q'))%nat
    /\ lesson_ready s' = Some {| lesson_id := 7 |}
    /\ saveRequests s' = saveRequests finished_state ++ [r]
    /\ correct_answers r = 3%nat
    /\ answers r
       = [Some {| selected := 1; correct := 1; isCorrect := true |};
          Some {| selected := 0; correct := 0; isCorrect := true |};
          Some {| selected := 0; correct := 2; isCorrect := false |};
          Some {| selected := 3; correct := 3; isCorrect := true |}]
    /\ total_questions r = 4%nat
    /\ saved_score r = quiz_percentage 3 4
    /\ resultPanel (view s') = Some (report_panel 12000 (Some 1000) q').
Proof.
  apply (advancing_past_the_end_resends 12000 finished_state
           (finished_quiz sample_questions
              [Some {| selected := 1; correct := 1; isCorrect := true |};
               Some {| selected := 0; correct := 0; isCorrect := true |};
               Some {| selected := 0; correct := 2; isCorrect := false |};
               Some {| selected := 3; correct := 3; isCorrect := true |}])
           {| lesson_id := 7 |}); [reflexivity | cbn; lia | reflexivity].
Defined.

(** X13.  The two ends of the scale.  Finishing a quiz of at least one
    question with every answer counted correct shows 100 per cent with
    the "excellent" feedback and a success toast; finishing it with a
    score of zero shows 0 per cent with the "keep studying" feedback and
    an info toast.  In both cases the question panel is hidden and the
    result panel shown. *)
Theorem finishQuiz_extremes (now : Z) (s : State) (q : Quiz) :
  currentQuiz s = Some q ->
  (1 <= length (questions q))%nat ->
  score q = length (questions q) \/ score q = 0%nat ->
  exists s' p,
    finishQuiz now s = (Ok tt, s')
    /\ p = (if decide (score q = 0%nat) then 0 else 100)
    /\ resultPanel (view s')
       = Some {| finalScore := (score q, length (questions q));
                 finalPercentage := Int p;
                 quizTime := quiz_duration now (quizStartTime s);
                 quizFeedback := if decide (score q = 0%nat)
                                 then KeepStudying else Excellent |}
    /\ last (toasts (view s'))
       = Some (QuizCompleted (Int p) (if decide (score q = 0%nat) then false else true))
    /\ quizQuestion_hidden (view s') = true
    /\ quizResult_hidden (view s') = false.
Proof.
  intros Hq Hlen Hscore. rewrite (finishQuiz_effect now s q Hq).
  assert (Hp : quiz_percentage (score q) (length (questions q))
               = Int (if decide (score q = 0%nat) then 0 else 100)).
  { destruct Hscore as [Hfull|Hzero].
    - rewrite Hfull. destruct (decide _) as [H0|_]; [lia|].
      apply quiz_percentage_full. lia.
    - rewrite Hzero. destruct (decide _) as [_|H0]; [|congruence].
      destruct (length (questions q)); [lia|reflexivity]. }
  eexists _, _. split; [reflexivity|]. split; [reflexivity|].
  cbn [view with_view finished_view resultPanel with_toasts with_resultPanel
       toasts quizQuestion_hidden quizResult_hidden with_panels].
  unfold report_panel. rewrite Hp.
  split; [destruct (decide _); reflexivity|].
  split; [rewrite last_snoc; destruct (decide _); reflexivity|].
  split; reflexivity.
Qed.

Lemma finishQuiz_extremes_witness :
  exists s' p,
    finishQuiz 9500 (snd (take_quiz 9500 [[0]; [1]; [0]] awaiting_state))
    = (Ok tt, s')
    /\ p = 0
    /\ resultPanel (view s')
       = Some {| finalScore := (0%nat, 4%nat);
                 finalPercentage := Int p;
                 quizTime := 8;
                 quizFeedback := KeepStudying |}
    /\ last (toasts (view s')) = Some (QuizCompleted (Int p) false)
    /\ quizQuestion_hidden (view s') = true
    /\ quizResult_hidden (view s') = false.
Proof.
  apply (finishQuiz_extremes 9500
           (snd (take_quiz 9500 [[0]; [1]; [0]] awaiting_state))
           {| questions := sample_questions; currentQuestionIndex := 3;
              userAnswers :=
                [Some {| selected := 0; correct := 1; isCorrect := false |};
                 Some {| selected := 1; correct := 0; isCorrect := false |};
                 Some {| selected := 0; correct := 2; isCorrect := false |}];
              score := 0; selectedAnswer := None |});
    [reflexivity | cbn; lia | right; reflexivity].
Defined.

(** X14.  A quiz without questions can still be finished: the division
    by its length gives [NaN] (or [Infinity] when the score is not
    zero), so the result panel shows no number; [NaN] fails every
    threshold and gets the "keep studying" feedback with an info toast,
    [Infinity] passes them all. *)
Theorem finishQuiz_without_questions (now : Z) (s : State) (q : Quiz) :
  currentQuiz s = Some q ->
  questions q = [] ->
  exists s' panel,
    finishQuiz now s = (Ok tt, s')
    /\ resultPanel (view s') = Some panel
    /\ finalPercentage panel = (if decide (score q = 0%nat) then NaN else Infinity)
    /\ (forall p, finalPercentage panel <> Int p)
    /\ quizFeedback panel
       = (if decide (score q = 0%nat) then KeepStudying else Excellent)
    /\ last (toasts (view s'))
       = Some (QuizCompleted (finalPercentage panel)
                 (if decide (score q = 0%nat) then false else true)).
Proof.
  intros Hq Hqs. rewrite (finishQuiz_effect now s q Hq).
  eexists _, _. split; [reflexivity|]. split; [reflexivity|].
  cbn [view with_view finished_view resultPanel with_toasts with_resultPanel
       toasts report_panel finalPercentage quizFeedback].
  rewrite Hqs. cbn [length]. rewrite last_snoc.
  destruct (score q) as [|n]; cbn; repeat split; discriminate.
Qed.

Lemma finishQuiz_without_questions_witness :
  exists s' panel,
    finishQuiz 5000 (snd (startQuiz 1000 (GenerateOk []) idle_state)) = (Ok tt, s')
    /\ resultPanel (view s') = Some panel
    /\ finalPercentage panel = NaN
    /\ (forall p, finalPercentage panel <> Int p)
    /\ quizFeedback panel = KeepStudying
    /\ last (toasts (view s')) = Some (QuizCompleted (finalPercentage panel) false).
Proof.
  apply (finishQuiz_without_questions 5000
           (snd (startQuiz 1000 (GenerateOk []) idle_state)) (fresh_quiz []));
    reflexivity.
Defined.

(** ** What the quiz functions leave alone *)

Lemma displayQuestion_frame (s : State) :
  same_globals s (snd (displayQuestion s))
  /\ currentQuiz (snd (displayQuestion s)) = currentQuiz s.
Proof.
  destruct (currentQuiz s) as [q|] eqn:Hq.
  - destruct (questions q !! currentQuestionIndex q) as [qu|] eqn:Hqu.
    + rewrite (displayQuestion_shown s q qu Hq Hqu). repeat split. exact Hq.
    + unfold displayQuestion, bind, get, set_view, modify, throw.
      rewrite Hq. cbn. rewrite Hqu. repeat split. exact Hq.
  - unfold displayQuestion, bind, get. rewrite Hq. repeat split. exact Hq.
Qed.

Lemma selectOption_frame (i : Z) (s : State) :
  same_globals s (snd (selectOption i s)).
Proof.
  unfold selectOption, bind, get, set_view, modify, throw.
  cbn [view with_view].
  destruct (querySelector_option i _) as [pos|]; [|repeat split].
  unfold set_quiz, bind, the_quiz, modify. cbn [currentQuiz with_view].
  destruct (currentQuiz s); repeat split.
Qed.

Lemma submitQuizAnswer_frame (s : State) :
  same_globals s (snd (submitQuizAnswer s)).
Proof.
  destruct (currentQuiz s) as [q|] eqn:Hq.
  - destruct (selectedAnswer q) as [sel|] eqn:Hsel.
    + destruct (questions q !! currentQuestionIndex q) as [qu|] eqn:Hqu.
      * rewrite (submitQuizAnswer_selected s q qu sel Hq Hsel Hqu). repeat split.
      * unfold submitQuizAnswer, bind. rewrite (the_quiz_some s q Hq), Hsel, Hqu.
        repeat split.
    + rewrite (submitQuizAnswer_undefined s q Hq Hsel). repeat split.
  - unfold submitQuizAnswer, bind, the_quiz. rewrite Hq. repeat split.
Qed.

Lemma finishQuiz_frame (now : Z) (s : State) :
  currentLesson (snd (finishQuiz now s)) = currentLesson s
  /\ quizStartTime (snd (finishQuiz now s)) = quizStartTime s
  /\ currentQuiz (snd (finishQuiz now s)) = currentQuiz s.
Proof.
  destruct (currentQuiz s) as [q|] eqn:Hq.
  - rewrite (finishQuiz_effect now s q Hq). cbn. auto.
  - unfold finishQuiz, bind, get, the_quiz. rewrite Hq. cbn. auto.
Qed.

Lemma nextQuizQuestion_frame (now : Z) (s : State) :
  currentLesson (snd (nextQuizQuestion now s)) = currentLesson s
  /\ quizStartTime (snd (nextQuizQuestion now s)) = quizStartTime s.
Proof.
  destruct (currentQuiz s) as [q|] eqn:Hq.
  - destruct (questions q !! S (currentQuestionIndex q)) as [qu|] eqn:Hqu.
    + rewrite (nextQuizQuestion_display now s q qu Hq Hqu). cbn. auto.
    + apply lookup_ge_None in Hqu.
      rewrite (nextQuizQuestion_finish now s q Hq Hqu).
      destruct (finishQuiz_frame now (with_currentQuiz (Some (next_index q)) s))
        as (H1 & H2 & _).
      rewrite H1, H2. cbn. auto.
  - unfold nextQuizQuestion, set_quiz, bind, the_quiz. rewrite Hq. cbn. auto.
Qed.

Lemma startQuiz_frame (now : Z) (data : GenerateResponse) (s : State) :
  currentLesson (snd (startQuiz now data s)) = currentLesson s
  /\ saveRequests (snd (startQuiz now data s)) = saveRequests s.
Proof.
  destruct (lesson_ready s) as [l|] eqn:Hl.
  - destruct data as [[|qu qs]| |].
    + unfold startQuiz, bind, get. rewrite Hl. cbn. auto.
    + rewrite (startQuiz_started now s l (qu :: qs) qu Hl eq_refl). cbn. auto.
    + unfold startQuiz, bind, get. rewrite Hl. cbn. auto.
    + unfold startQuiz, bind, get. rewrite Hl. cbn. auto.
  - unfold startQuiz, bind, get. rewrite Hl. cbn. auto.
Qed.

(** X12.  Only [finishQuiz] sends a result, and no quiz function
    replaces the lesson.  From any state and for any argument, selecting,
    submitting, showing a question and starting a quiz send nothing to
    [/api/quiz/save]; none of the quiz functions changes
    [currentLesson]; and only [startQuiz] writes [quizStartTime]. *)
Theorem quiz_functions_frame (now : Z) (i : Z) (data : GenerateResponse)
    (s : State) :
  (saveRequests (snd (selectOption i s)) = saveRequests s
   /\ saveRequests (snd (submitQuizAnswer s)) = saveRequests s
   /\ saveRequests (snd (displayQuestion s)) = saveRequests s
   /\ saveRequests (snd (startQuiz now data s)) = saveRequests s)
  /\ (currentLesson (snd (selectOption i s)) = currentLesson s
      /\ currentLesson (snd (submitQuizAnswer s)) = currentLesson s
      /\ currentLesson (snd (displayQuestion s)) = currentLesson s
      /\ currentLesson (snd (startQuiz now data s)) = currentLesson s
      /\ currentLesson (snd (nextQuizQuestion now s)) = currentLesson s
      /\ currentLesson (snd (finishQuiz now s)) = currentLesson s)
  /\ (quizStartTime (snd (selectOption i s)) = quizStartTime s
      /\ quizStartTime (snd (submitQuizAnswer s)) = quizStartTime s
      /\ quizStartTime (snd (displayQuestion s)) = quizStartTime s
      /\ quizStartTime (snd (nextQuizQuestion now s)) = quizStartTime s
      /\ quizStartTime (snd (finishQuiz now s)) = quizStartTime s).
Proof.
  destruct (selectOption_frame i s) as (Hs1 & Hs2 & Hs3).
  destruct (submitQuizAnswer_frame s) as (Hb1 & Hb2 & Hb3).
  destruct (displayQuestion_frame s) as ((Hd1 & Hd2 & Hd3) & _).
  destruct (startQuiz_frame now data s) as (Ht1 & Ht2).
  destruct (nextQuizQuestion_frame now s) as (Hn1 & Hn2).
  destruct (finishQuiz_frame now s) as (Hf1 & Hf2 & _).
  repeat split; assumption.
Qed.

(** ** One division, then [Math.round] *)

(** When [b] divides the scaled numerator the quotient is a double and
    the division is exact. *)
Lemma round_ratio_exact (a b c : Z) :
  0 < a -> 0 < b -> F64.ilog2_ratio a b <= 51 ->
  a * 2 ^ (51 - F64.ilog2_ratio a b) = c * b ->
  F64.expo (F64.round_ratio a b) <= 0
  /\ F64.mant (F64.round_ratio a b) * b = a * scale (F64.round_ratio a b).
Proof.
  intros Ha Hb Hk Hdiv. unfold F64.round_ratio, scale.
  set (k := F64.ilog2_ratio a b) in *.
  rewrite Z.max_l, Z.max_r by lia. rewrite Z.pow_0_r, Z.mul_1_r.
  replace (- (k - 52)) with (Z.succ (51 - k)) by lia.
  rewrite Z.pow_succ_r by lia.
  assert (HD : 0 < 2 ^ (51 - k)) by (apply Z.pow_pos_nonneg; lia).
  set (D' := 2 ^ (51 - k)) in *.
  assert (Hm : F64.round_nearest_even (a * (2 * D')) b = 2 * c).
  { unfold F64.round_nearest_even.
    replace (a * (2 * D')) with (2 * c * b) by lia.
    rewrite Z.div_mul, Z.mod_mul by lia.
    destruct (Z.ltb_spec (2 * 0) b); [reflexivity|lia]. }
  rewrite Hm.
  destruct (Z.eqb_spec (2 * c) (2 ^ 53)) as [Hc|Hc]; cbn [F64.mant F64.expo].
  - split; [lia|].
    replace (- (k - 52 + 1)) with (51 - k) by lia. fold D'.
    replace (2 ^ 53) with (2 * 2 ^ 52) in Hc by reflexivity. nia.
  - split; [lia|].
    replace (- (k - 52)) with (Z.succ (51 - k)) by lia.
    rewrite Z.pow_succ_r by lia. fold D'. nia.
Qed.

(** [Math.round (a / b)] is the round-half-up of the exact quotient, for
    integers [0 <= a < 2^52] and [0 < b]: a single division is accurate
    enough, and a quotient that lies half-way is a double. *)
Lemma Math_round_div_int (a b : Z) :
  0 <= a < 2 ^ 52 -> 0 < b ->
  F64.Math_round (F64.div_int a b) = round_half_up a b.
Proof.
  intros Ha Hb. unfold round_half_up, F64.div_int.
  destruct (Z.eqb_spec a 0) as [->|Hnz].
  - cbn. symmetry. apply Z.div_small. lia.
  - assert (Hk : F64.ilog2_ratio a b <= 51).
    { pose proof (ilog2_ratio_le a b). pose proof (Z.log2_nonneg b).
      assert (Z.log2 a < 52) by (apply Z.log2_lt_pow2; lia). lia. }
    destruct (round_ratio_approximates a b ltac:(lia) Hb Hk) as (He & Hm & Herr).
    rewrite (Math_round_scale _ He).
    pose proof (scale_pos _ He) as HD.
    pose proof (Z.div_mod (2 * a + b) (2 * b) ltac:(lia)) as HE.
    pose proof (Z.mod_pos_bound (2 * a + b) (2 * b) ltac:(lia)) as Hr.
    set (e := (2 * a + b) / (2 * b)) in *.
    set (r := (2 * a + b) mod (2 * b)) in *.
    destruct (Z.eq_dec r 0) as [Hr0|Hr0].
    + (* half-way: the division is exact *)
      assert (Hc : a * 2 ^ (51 - F64.ilog2_ratio a b)
                   = ((2 * e - 1) * 2 ^ (50 - F64.ilog2_ratio a b) ) * b
                   \/ F64.ilog2_ratio a b = 51).
      { destruct (Z.eq_dec (F64.ilog2_ratio a b) 51) as [|Hne]; [now right|left].
        replace (51 - F64.ilog2_ratio a b)
          with (Z.succ (50 - F64.ilog2_ratio a b)) by lia.
        rewrite Z.pow_succ_r by lia.
        assert (H2a : 2 * a = (2 * e - 1) * b) by lia.
        replace (a * (2 * 2 ^ (50 - F64.ilog2_ratio a b)))
          with (2 * a * 2 ^ (50 - F64.ilog2_ratio a b)) by ring.
        rewrite H2a. ring. }
      destruct Hc as [Hc|Hk51].
      * destruct (round_ratio_exact a b _ ltac:(lia) Hb Hk Hc) as (_ & Hex).
        set (m := F64.mant (F64.round_ratio a b)) in *.
        set (D := scale (F64.round_ratio a b)) in *.
        assert (H2 : 2 * m + D = e * (2 * D)) by nia.
        rewrite H2. apply Z.div_mul. lia.
      * (* 2^51 <= a / b < 2^52 and b divides 2 * a: then b = 2 ... *)
        exfalso.
        pose proof (scaled_lower a b (F64.ilog2_ratio a b) ltac:(lia) Hb
                      ltac:(lia) (ilog2_ratio_lower a b ltac:(lia) Hb)) as Hlow.
        rewrite Hk51 in Hlow. change (2 ^ (52 - 51)) with 2 in Hlow.
        assert (2 ^ 52 = 2 * 2 ^ 51) by reflexivity.
        assert (b * 2 ^ 51 <= a) by lia.
        assert (Hb1 : b = 1 \/ 2 <= b) by lia.
        destruct Hb1 as [->|Hb2]; [lia|].
        assert (2 * 2 ^ 51 <= a) by nia. lia.
    + set (m := F64.mant (F64.round_ratio a b)) in *.
      set (D := scale (F64.round_ratio a b)) in *.
      set (A := Z.abs (m * b - a * D)) in *.
      assert (HA : 2 * A < D).
      { assert (2 ^ 53 * (2 * A) < 2 ^ 53 * D) by nia.
        apply Z.mul_lt_mono_pos_l in H; lia. }
      assert (Hmb : a * D - A <= m * b <= a * D + A) by lia.
      symmetry. apply Z.div_unique with (r := 2 * m + D - e * (2 * D)); [|lia].
      left. split.
      * assert (b * (e * (2 * D)) <= b * (2 * m + D)) by nia.
        apply Z.mul_le_mono_pos_l in H; lia.
      * assert (b * (2 * m + D) < b * ((e + 1) * (2 * D))) by nia.
        apply Z.mul_lt_mono_pos_l in H; lia.
Qed.

(** ** Tabs *)

Lemma active_buttons_switch (tabName : string) (btns : list TabBtn) :
  NoDup (map data_tab btns) ->
  map data_tab
    (filter (fun btn => btn_active btn = true)
       (map (fun btn =>
               {| data_tab := data_tab btn;
                  btn_active := bool_decide (data_tab btn = tabName) |}) btns))
  = if decide (tabName ∈ map data_tab btns) then [tabName] else [].
Proof.
  induction btns as [|b btns IH]; intros Hnd; [reflexivity|].
  cbn [map] in Hnd |- *. apply NoDup_cons in Hnd as [Hnotin Hnd].
  rewrite filter_cons. cbn [btn_active].
  specialize (IH Hnd).
  destruct (decide (data_tab b = tabName)) as [Heq|Hne].
  - rewrite bool_decide_eq_true_2 by exact Heq.
    destruct (decide (true = true)) as [_|H]; [|congruence].
    cbn [map data_tab]. rewrite IH.
    destruct (decide (tabName ∈ map data_tab btns)) as [Hin|_];
      [subst tabName; contradiction|].
    destruct (decide (tabName ∈ data_tab b :: map data_tab btns)) as [_|Hout];
      [now rewrite Heq|].
    exfalso. apply Hout. apply elem_of_cons. now left.
  - rewrite bool_decide_eq_false_2 by exact Hne.
    destruct (decide (false = true)) as [H|_]; [discriminate|].
    rewrite IH.
    destruct (decide (tabName ∈ map data_tab btns)) as [Hin|Hout].
    + destruct (decide (tabName ∈ data_tab b :: map data_tab btns)) as [_|Hout];
        [reflexivity|].
      exfalso. apply Hout. apply elem_of_cons. now right.
    + destruct (decide (tabName ∈ data_tab b :: map data_tab btns)) as [Hin|_];
        [|reflexivity].
      apply elem_of_cons in Hin as [Heq|Hin]; congruence.
Qed.

(** X15.  When the buttons have pairwise different [data-tab] values,
    [switchTab] leaves exactly one button active, the one of the
    requested tab, whatever was active before; for a name no button has
    it leaves none active.  The buttons and panes themselves, and their
    order, are kept. *)
Theorem switchTab_exclusive (tabName : string) (t : Tabs) :
  NoDup (map data_tab (tabBtns t)) ->
  active_buttons (switchTab tabName t)
  = (if decide (tabName ∈ map data_tab (tabBtns t)) then [tabName] else [])
  /\ map data_tab (tabBtns (switchTab tabName t)) = map data_tab (tabBtns t)
  /\ map content_id (tabContents (switchTab tabName t))
     = map content_id (tabContents t).
Proof.
  intros Hnd. split; [|split].
  - unfold active_buttons, switchTab. cbn [tabBtns].
    now apply active_buttons_switch.
  - unfold switchTab. cbn [tabBtns]. now rewrite map_map.
  - unfold switchTab. cbn [tabContents]. now rewrite map_map.
Qed.

Lemma switchTab_exclusive_witness :
  active_buttons (switchTab "quiz" sample_tabs) = ["quiz"]
  /\ map data_tab (tabBtns (switchTab "quiz" sample_tabs))
     = map data_tab (tabBtns sample_tabs)
  /\ map content_id (tabContents (switchTab "quiz" sample_tabs))
     = map content_id (tabContents sample_tabs).
Proof.
  apply (switchTab_exclusive "quiz" sample_tabs).
  cbn.
  repeat (apply NoDup_cons; split;
            [intros H; repeat (apply elem_of_cons in H as [H|H]; [discriminate H|]);
             inversion H|]).
  apply NoDup_nil. exact I.
Defined.

Lemma append_length (s1 s2 : string) :
  String.length (s1 +:+ s2) = (String.length s1 + String.length s2)%nat.
Proof.
  induction s1 as [|c s1 IH]; [reflexivity|].
  change (S (String.length (s1 +:+ s2)) = S (String.length s1 + String.length s2)).
  now f_equal.
Qed.

Lemma append_inj_l (s1 s2 suffix : string) :
  s1 +:+ suffix = s2 +:+ suffix -> s1 = s2.
Proof.
  revert s2. induction s1 as [|c s1 IH]; intros [|c2 s2] H.
  - reflexivity.
  - apply (f_equal String.length) in H.
    change (String.length suffix = S (String.length (s2 +:+ suffix))) in H.
    rewrite append_length in H. lia.
  - apply (f_equal String.length) in H.
    change (S (String.length (s1 +:+ suffix)) = String.length suffix) in H.
    rewrite append_length in H. lia.
  - change (String c (s1 +:+ suffix) = String c2 (s2 +:+ suffix)) in H.
    injection H as -> H. f_equal. now apply IH.
Qed.

(** X16.  When the panes are named after the buttons ([id] is the
    [data-tab] value followed by "Tab", in the same order), the pane that
    [switchTab] shows is the pane of the button it highlights: pane and
    button are active or inactive together. *)
Theorem switchTab_pane_follows_button (tabName : string) (t : Tabs) :
  panes_follow_buttons t ->
  map content_active (tabContents (switchTab tabName t))
  = map btn_active (tabBtns (switchTab tabName t))
  /\ panes_follow_buttons (switchTab tabName t).
Proof.
  unfold panes_follow_buttons, switchTab. cbn [tabBtns tabContents].
  rewrite !map_map. cbn [content_active btn_active content_id data_tab].
  intros H. split; [|exact H].
  revert H. generalize (tabBtns t) (tabContents t).
  induction l as [|b btns IH]; intros [|c cs] H; try discriminate; [reflexivity|].
  cbn [map] in H |- *. injection H as Hc H. f_equal; [|now apply IH].
  rewrite Hc. apply bool_decide_ext. split; [|now intros ->].
  apply append_inj_l.
Qed.

Lemma switchTab_pane_follows_button_witness :
  map content_active (tabContents (switchTab "progress" sample_tabs))
  = map btn_active (tabBtns (switchTab "progress" sample_tabs))
  /\ panes_follow_buttons (switchTab "progress" sample_tabs).
Proof.
  apply (switchTab_pane_follows_button "progress" sample_tabs). reflexivity.
Defined.

(** X17.  The last switch wins: switching to one tab and then to
    another leaves the tabs as switching to the second alone does; in
    particular switching twice to the same tab changes nothing more. *)
Theorem switchTab_last_wins (a b : string) (t : Tabs) :
  switchTab b (switchTab a t) = switchTab b t.
Proof.
  unfold switchTab. cbn [tabBtns tabContents]. now rewrite !map_map.
Qed.

(** ** The quiz tab *)

Lemma startQuiz_never_throws (now : Z) (data : GenerateResponse) (s : State) :
  fst (startQuiz now data s) = Ok tt.
Proof.
  destruct (lesson_ready s) as [l|] eqn:Hl.
  - destruct data as [[|qu qs]| |].
    + unfold startQuiz, bind, get. rewrite Hl. reflexivity.
    + now rewrite (startQuiz_started now s l (qu :: qs) qu Hl eq_refl).
    + unfold startQuiz, bind, get. rewrite Hl. reflexivity.
    + unfold startQuiz, bind, get. rewrite Hl. reflexivity.
  - unfold startQuiz, bind, get. rewrite Hl. reflexivity.
Qed.

(** X18.  Opening the quiz tab never restarts a quiz: when there is a
    current quiz, [checkQuizAvailability] leaves the quiz, the start
    time, the requests and the quiz page exactly as they are, whatever
    the two servers answer; it only decides which of the two panes of the
    tab is visible, and exactly one of them is. *)
Theorem checkQuizAvailability_keeps_quiz (check : CheckResponse) (now : Z)
    (data : GenerateResponse) (t : QuizTab) (q : Quiz) :
  currentQuiz (app t) = Some q ->
  app (checkQuizAvailability check now data t) = app t
  /\ lesson_header (checkQuizAvailability check now data t) = lesson_header t
  /\ quizNotAvailable_hidden (pane (checkQuizAvailability check now data t))
     = negb (quizAvailable_hidden (pane (checkQuizAvailability check now data t))).
Proof.
  intros Hq. unfold checkQuizAvailability.
  destruct (lesson_ready (app t)) as [l|]; [|repeat split].
  destruct check as [[|] [|]|]; try (repeat split; fail).
  assert (Happ : app (showQuizInterface t) = app t)
    by (unfold showQuizInterface; destruct (currentLesson (app t)); reflexivity).
  rewrite Happ, Hq.
  unfold showQuizInterface. destruct (currentLesson (app t)); repeat split.
Qed.

Lemma checkQuizAvailability_keeps_quiz_witness :
  app (checkQuizAvailability (CheckAnswer true true) 30000
         (GenerateOk sample_questions) (sample_quiz_tab revealed_state))
  = app (sample_quiz_tab revealed_state)
  /\ lesson_header (checkQuizAvailability (CheckAnswer true true) 30000
                      (GenerateOk sample_questions) (sample_quiz_tab revealed_state))
     = lesson_header (sample_quiz_tab revealed_state)
  /\ quizNotAvailable_hidden
       (pane (checkQuizAvailability (CheckAnswer true true) 30000
                (GenerateOk sample_questions) (sample_quiz_tab revealed_state)))
     = negb (quizAvailable_hidden
               (pane (checkQuizAvailability (CheckAnswer true true) 30000
                        (GenerateOk sample_questions)
                        (sample_quiz_tab revealed_state)))).
Proof.
  apply (checkQuizAvailability_keeps_quiz (CheckAnswer true true) 30000
           (GenerateOk sample_questions) (sample_quiz_tab revealed_state)
           {| questions := sample_questions; currentQuestionIndex := 0;
              userAnswers := [Some {| selected := 1; correct := 1; isCorrect := true |}];
              score := 1; selectedAnswer := None |}).
  reflexivity.
Defined.

(** X19.  Opening the quiz tab for the first time: with a lesson loaded,
    no quiz yet, the server confirming that the quiz is available and
    then delivering a non-empty question set whose first question has
    plain option texts, [checkQuizAvailability] shows the quiz pane with
    the topic and the level of the lesson and starts a fresh quiz on
    these questions, the first of which is on the page. *)
Theorem checkQuizAvailability_opens_quiz (now : Z) (qs : list Question)
    (t : QuizTab) (l : Lesson) :
  currentQuiz (app t) = None ->
  lesson_ready (app t) = Some l ->
  qs <> [] ->
  (forall qu, qs !! 0%nat = Some qu -> plain_options qu) ->
  exists t' qu,
    checkQuizAvailability (CheckAnswer true true) now (GenerateOk qs) t = t'
    /\ fresh_session qs (app t')
    /\ quizStartTime (app t') = Some now
    /\ qs !! 0%nat = Some qu
    /\ rendered_for qu (view (app t'))
    /\ questionText (view (app t')) = question qu
    /\ pane t'
       = {| quizNotAvailable_hidden := true; quizAvailable_hidden := false;
            quizTopic := topic (lesson_header t);
            quizDifficulty := difficulty (lesson_header t) |}.
Proof.
  intros Hq Hl Hne _. destruct qs as [|qu qs']; [congruence|].
  assert (Hsome : exists l0, currentLesson (app t) = Some l0).
  { unfold lesson_ready in Hl. destruct (currentLesson (app t)); [eauto|discriminate]. }
  destruct Hsome as [l0 Hl0].
  eexists _, qu. split; [reflexivity|].
  unfold checkQuizAvailability. rewrite Hl.
  unfold showQuizInterface. rewrite Hl0. cbn [app with_pane]. rewrite Hq.
  rewrite (startQuiz_started now (app t) l (qu :: qs') qu Hl eq_refl).
  cbn [app with_app pane lesson_header].
  split; [apply fresh_quiz_session; reflexivity|].
  split; [reflexivity|]. split; [reflexivity|].
  split; [apply (shown_rendered (fresh_quiz (qu :: qs')) qu)|].
  split; reflexivity.
Qed.

Lemma checkQuizAvailability_opens_quiz_witness :
  exists t' qu,
    checkQuizAvailability (CheckAnswer true true) 1000 (GenerateOk sample_questions)
      (sample_quiz_tab idle_state) = t'
    /\ fresh_session sample_questions (app t')
    /\ quizStartTime (app t') = Some 1000
    /\ sample_questions !! 0%nat = Some qu
    /\ rendered_for qu (view (app t'))
    /\ questionText (view (app t')) = question qu
    /\ pane t'
       = {| quizNotAvailable_hidden := true; quizAvailable_hidden := false;
            quizTopic := "Photosynthesis"; quizDifficulty := 2 |}.
Proof.
  apply (checkQuizAvailability_opens_quiz 1000 sample_questions
           (sample_quiz_tab idle_state) {| lesson_id := 7 |});
    [reflexivity | reflexivity | discriminate
    | intros qu Hqu; injection Hqu as <-; repeat constructor].
Defined.

(** X20.  No quiz is started behind the user's back: unless a lesson is
    loaded and the server answers that its quiz is available,
    [checkQuizAvailability] shows the "not available" pane and leaves
    the quiz state untouched, whatever a generation request would have
    returned. *)
Theorem checkQuizAvailability_not_available (check : CheckResponse) (now : Z)
    (data : GenerateResponse) (t : QuizTab) :
  lesson_ready (app t) = None \/ check <> CheckAnswer true true ->
  checkQuizAvailability check now data t = showQuizNotAvailable t
  /\ app (checkQuizAvailability check now data t) = app t
  /\ quizNotAvailable_hidden (pane (checkQuizAvailability check now data t)) = false
  /\ quizAvailable_hidden (pane (checkQuizAvailability check now data t)) = true.
Proof.
  intros H.
  assert (Heq : checkQuizAvailability check now data t = showQuizNotAvailable t).
  { unfold checkQuizAvailability.
    destruct (lesson_ready (app t)) as [l|]; [|reflexivity].
    destruct H as [H|H]; [discriminate|].
    destruct check as [[|] [|]|]; try reflexivity. congruence. }
  rewrite Heq. repeat split.
Qed.

Lemma checkQuizAvailability_not_available_witness :
  checkQuizAvailability (CheckAnswer true false) 1000 (GenerateOk sample_questions)
    (sample_quiz_tab idle_state)
  = showQuizNotAvailable (sample_quiz_tab idle_state)
  /\ app (checkQuizAvailability (CheckAnswer true false) 1000
            (GenerateOk sample_questions) (sample_quiz_tab idle_state))
     = app (sample_quiz_tab idle_state)
  /\ quizNotAvailable_hidden
       (pane (checkQuizAvailability (CheckAnswer true false) 1000
                (GenerateOk sample_questions) (sample_quiz_tab idle_state))) = false
  /\ quizAvailable_hidden
       (pane (checkQuizAvailability (CheckAnswer true false) 1000
                (GenerateOk sample_questions) (sample_quiz_tab idle_state))) = true.
Proof.
  apply (checkQuizAvailability_not_available (CheckAnswer true false) 1000
           (GenerateOk sample_questions) (sample_quiz_tab idle_state)).
  right. discriminate.
Defined.

(** ** The progress tab *)

Lemma foldl_add {A : Type} (f : A -> nat) (l : list A) (a : nat) :
  foldl (fun sum p => (sum + f p)%nat) a l = (a + sum_list (map f l))%nat.
Proof.
  revert a. induction l as [|x l IH]; intros a; cbn [foldl map sum_list].
  - lia.
  - rewrite IH. cbn. lia.
Qed.

Lemma sum_list_bounds {A : Type} (f : A -> nat) (l : list A) (lo hi : nat) :
  Forall (fun x => (lo <= f x <= hi)%nat) l ->
  (lo * length l <= sum_list (map f l) <= hi * length l)%nat.
Proof.
  induction 1 as [|x l Hx _ IH]; cbn [map sum_list length]; [lia|]. cbn. lia.
Qed.

Lemma round_half_up_bounds (a b lo hi : Z) :
  0 < b -> lo * b <= a <= hi * b ->
  lo <= round_half_up a b <= hi.
Proof.
  intros Hb Hab. unfold round_half_up. split.
  - apply Z.div_le_lower_bound; nia.
  - assert ((2 * a + b) / (2 * b) < hi + 1); [|lia].
    apply Z.div_lt_upper_bound; nia.
Qed.

(** X21.  The average shown on the progress tab is the exact one.  For
    every progress list whose completed lessons have scores adding up to
    less than [2^52], [displayProgress] shows "-" exactly when no lesson
    is completed, and otherwise the round-half-up of the exact mean of
    the scores of the completed lessons (one division in binary64 loses
    nothing here); the value shown lies between the smallest and the
    largest of these scores. *)
Theorem displayProgress_average (progress : list Progress.item) :
  Z.of_nat (Progress.score_sum progress) < 2 ^ 52 ->
  (Progress.averageScore (Progress.displayProgress progress) = None
   <-> Progress.lessonsCompleted (Progress.displayProgress progress) = 0%nat)
  /\ ((0 < Progress.lessonsCompleted (Progress.displayProgress progress))%nat ->
      Progress.averageScore (Progress.displayProgress progress)
      = Some (round_half_up
                (Z.of_nat (Progress.score_sum progress))
                (Z.of_nat (Progress.lessonsCompleted
                             (Progress.displayProgress progress)))))
  /\ (forall (lo hi : nat) (a : Z),
        (forall p, p ∈ progress -> Progress.completed p = true ->
                   (lo <= Progress.score p <= hi)%nat) ->
        Progress.averageScore (Progress.displayProgress progress) = Some a ->
        Z.of_nat lo <= a <= Z.of_nat hi).
Proof.
  intros Hsum. unfold Progress.displayProgress.
  cbn [Progress.averageScore Progress.lessonsCompleted].
  set (done := filter (fun p => Progress.completed p = true) progress).
  assert (Havg : (0 < length done)%nat ->
                 F64.Math_round
                   (F64.div_int (Z.of_nat (Progress.score_sum progress))
                                (Z.of_nat (length done)))
                 = round_half_up (Z.of_nat (Progress.score_sum progress))
                                 (Z.of_nat (length done))).
  { intros Hc. apply Math_round_div_int; lia. }
  split; [|split].
  - destruct (decide (0 < length done)%nat); split; intros H;
      try discriminate; try lia; reflexivity.
  - intros Hc. destruct (decide (0 < length done)%nat) as [_|]; [|lia].
    now rewrite Havg.
  - intros lo hi a Hall Ha.
    destruct (decide (0 < length done)%nat) as [Hc|]; [|discriminate].
    injection Ha as <-. rewrite Havg by exact Hc.
    assert (Hb : (lo * length done <= Progress.score_sum progress
                  <= hi * length done)%nat).
    { unfold Progress.score_sum. fold done. rewrite foldl_add. cbn [Nat.add].
      apply sum_list_bounds. apply Forall_forall. intros p Hp.
      apply list_elem_of_filter in Hp as [Hcomp Hin]. now apply Hall. }
    apply round_half_up_bounds; lia.
Qed.

Lemma displayProgress_average_witness :
  (Progress.averageScore (Progress.displayProgress Progress.sample_progress) = None
   <-> Progress.lessonsCompleted (Progress.displayProgress Progress.sample_progress)
       = 0%nat)
  /\ ((0 < Progress.lessonsCompleted
             (Progress.displayProgress Progress.sample_progress))%nat ->
      Progress.averageScore (Progress.displayProgress Progress.sample_progress)
      = Some (round_half_up
                (Z.of_nat (Progress.score_sum Progress.sample_progress))
                (Z.of_nat (Progress.lessonsCompleted
                             (Progress.displayProgress Progress.sample_progress)))))
  /\ (forall (lo hi : nat) (a : Z),
        (forall p, p ∈ Progress.sample_progress -> Progress.completed p = true ->
                   (lo <= Progress.score p <= hi)%nat) ->
        Progress.averageScore (Progress.displayProgress Progress.sample_progress)
        = Some a ->
        Z.of_nat lo <= a <= Z.of_nat hi).
Proof.
  apply (displayProgress_average Progress.sample_progress).
  apply Z.ltb_lt. reflexivity.
Defined.

Lemma completed_entries (progress : list Progress.item) :
  length (filter (fun l => Progress.is_completed_entry l = true)
            (map (fun p => Progress.Entry (Progress.entry_of p)) progress))
  = length (filter (fun p => Progress.completed p = true) progress).
Proof.
  induction progress as [|p progress IH]; [reflexivity|].
  cbn [map]. rewrite !filter_cons.
  cbn [Progress.is_completed_entry Progress.entry_of Progress.entry_status].
  destruct (Progress.completed p).
  - destruct (decide (true = true)) as [_|H]; [|congruence].
    cbn [length]. now rewrite IH.
  - destruct (decide (false = true)) as [H|_]; [discriminate|]. exact IH.
Qed.

(** X22.  The counters of the progress tab agree with its history.  For
    every progress list whose topics are plain text and whose minutes
    add up to less than [2^53], [displayProgress] writes a heading
    followed by one entry per progress record, in order, or by the "no
    lessons yet" line when there is none; the number shown as "lessons
    completed" is the number of entries marked completed, it never
    exceeds the number of records, and the study time is the sum of the
    minutes of all records. *)
Theorem displayProgress_history (progress : list Progress.item) :
  Forall (fun p => plain_text (Progress.topic p)) progress ->
  Z.of_nat (sum_list (map Progress.time_spent progress)) < 2 ^ 53 ->
  Progress.lessonsCompleted (Progress.displayProgress progress)
  = length (filter (fun l => Progress.is_completed_entry l = true)
              (Progress.progressHistory (Progress.displayProgress progress)))
  /\ (Progress.lessonsCompleted (Progress.displayProgress progress)
      <= length progress)%nat
  /\ Progress.totalStudyTime (Progress.displayProgress progress)
     = sum_list (map Progress.time_spent progress)
  /\ length (Progress.progressHistory (Progress.displayProgress progress))
     = S (Nat.max 1 (length progress))
  /\ (forall i p,
        progress !! i = Some p ->
        Progress.progressHistory (Progress.displayProgress progress) !! S i
        = Some (Progress.Entry (Progress.entry_of p))).
Proof.
  intros _ _. unfold Progress.displayProgress.
  cbn [Progress.lessonsCompleted Progress.progressHistory Progress.totalStudyTime].
  split; [|split; [|split; [|split]]].
  - destruct progress as [|p progress]; [reflexivity|].
    rewrite filter_cons. cbn [Progress.is_completed_entry].
    destruct (decide (false = true)) as [H|_]; [discriminate|].
    symmetry. apply completed_entries.
  - apply length_filter.
  - now rewrite foldl_add.
  - destruct progress as [|p progress]; [reflexivity|].
    cbn [length]. rewrite length_map. cbn [length]. lia.
  - intros i p Hp. destruct progress as [|p0 progress]; [discriminate|].
    cbn [lookup list_lookup]. change (map ?f ?l !! i) with ((f <$> l) !! i).
    now rewrite list_lookup_fmap, Hp.
Qed.

Lemma displayProgress_history_witness :
  Progress.lessonsCompleted (Progress.displayProgress Progress.sample_progress)
  = length (filter (fun l => Progress.is_completed_entry l = true)
              (Progress.progressHistory
                 (Progress.displayProgress Progress.sample_progress)))
  /\ (Progress.lessonsCompleted (Progress.displayProgress Progress.sample_progress)
      <= length Progress.sample_progress)%nat
  /\ Progress.totalStudyTime (Progress.displayProgress Progress.sample_progress)
     = sum_list (map Progress.time_spent Progress.sample_progress)
  /\ length (Progress.progressHistory
               (Progress.displayProgress Progress.sample_progress))
     = S (Nat.max 1 (length Progress.sample_progress))
  /\ (forall i p,
        Progress.sample_progress !! i = Some p ->
        Progress.progressHistory
          (Progress.displayProgress Progress.sample_progress) !! S i
        = Some (Progress.Entry (Progress.entry_of p))).
Proof.
  apply (displayProgress_history Progress.sample_progress).
  - repeat constructor.
  - apply Z.ltb_lt. reflexivity.
Defined.

Lemma division_agrees_with_binary64 : division_agrees_upto 300 12 = true.
Proof. vm_compute. reflexivity. Qed.

(** ** More on advancing and finishing *)

Lemma imap_render_texts (l : list string) (k : nat) :
  map option_text (imap (fun i => render_option (k + i)) l) = l.
Proof.
  revert k. induction l as [|x l IH]; intros k; [reflexivity|].
  cbn [imap map]. f_equal.
  rewrite <- (IH (S k)) at 2. f_equal. apply imap_ext. intros i y _.
  unfold compose. f_equal. lia.
Qed.

(** X23.  Going on to a further question starts from a clean page: when
    the option texts of the next question are plain text,
    [nextQuizQuestion] shows the text of that question and one option
    element per option, in order and with its text, none of them
    selected or marked as correct or incorrect; the submit button is
    disabled until an option is chosen and the next button is hidden
    until an answer is submitted. *)
Theorem nextQuizQuestion_resets_page (now : Z) (s : State) (q : Quiz)
    (qu : Question) :
  currentQuiz s = Some q ->
  questions q !! S (currentQuestionIndex q) = Some qu ->
  plain_options qu ->
  exists s',
    nextQuizQuestion now s = (Ok tt, s')
    /\ currentQuiz s' = Some (next_index q)
    /\ currentQuestion (view s') = (currentQuestionIndex q + 2)%nat
    /\ questionText (view s') = question qu
    /\ map option_text (questionOptions (view s')) = options qu
    /\ rendered_for qu (view s')
    /\ clean (view s')
    /\ submitAnswerBtn_disabled (view s') = true
    /\ nextQuestionBtn_hidden (view s') = true.
Proof.
  intros Hq Hqu _. rewrite (nextQuizQuestion_display now s q qu Hq Hqu).
  eexists. split; [reflexivity|]. split; [reflexivity|].
  cbn [view with_view with_currentQuiz shown currentQuestion questionText
       questionOptions submitAnswerBtn_disabled nextQuestionBtn_hidden
       next_index with_currentQuestionIndex currentQuestionIndex].
  split; [lia|]. split; [reflexivity|].
  split; [rewrite map_map; exact (imap_render_texts (options qu) 0)|].
  split; [apply (shown_rendered (next_index q) qu)|].
  split; [|split; reflexivity].
  unfold clean, shown. cbn [questionOptions].
  apply Forall_forall. intros o Ho. apply list_elem_of_fmap in Ho as (o0 & -> & _).
  repeat split.
Qed.

Lemma nextQuizQuestion_resets_page_witness :
  exists s',
    nextQuizQuestion 2000 revealed_state = (Ok tt, s')
    /\ currentQuiz s'
       = Some (next_index
                 {| questions := sample_questions; currentQuestionIndex := 0;
                    userAnswers :=
                      [Some {| selected := 1; correct := 1; isCorrect := true |}];
                    score := 1; selectedAnswer := None |})
    /\ currentQuestion (view s') = 2%nat
    /\ questionText (view s') = question (sample_question 0)
    /\ map option_text (questionOptions (view s')) = options (sample_question 0)
    /\ rendered_for (sample_question 0) (view s')
    /\ clean (view s')
    /\ submitAnswerBtn_disabled (view s') = true
    /\ nextQuestionBtn_hidden (view s') = true.
Proof.
  apply (nextQuizQuestion_resets_page 2000 revealed_state
           {| questions := sample_questions; currentQuestionIndex := 0;
              userAnswers :=
                [Some {| selected := 1; correct := 1; isCorrect := true |}];
              score := 1; selectedAnswer := None |} (sample_question 0));
    [reflexivity | reflexivity | repeat constructor].
Defined.

(** X24.  Without a lesson the result is shown but not sent: when
    [currentLesson] is missing or has a falsy [lesson_id], [finishQuiz]
    still fills and shows the result panel and the completion toast, and
    [saveQuizResults] returns without sending a request. *)
Theorem finishQuiz_without_lesson (now : Z) (s : State) (q : Quiz) :
  currentQuiz s = Some q ->
  lesson_ready s = None ->
  exists s',
    finishQuiz now s = (Ok tt, s')
    /\ saveRequests s' = saveRequests s
    /\ resultPanel (view s') = Some (report_panel now (quizStartTime s) q)
    /\ quizResult_hidden (view s') = false
    /\ quizQuestion_hidden (view s') = true
    /\ length (toasts (view s')) = S (length (toasts (view s))).
Proof.
  intros Hq Hl. rewrite (finishQuiz_effect now s q Hq).
  eexists. split; [reflexivity|].
  cbn [view with_view saveRequests with_saveRequests finished_view resultPanel
       with_toasts with_resultPanel with_panels quizResult_hidden
       quizQuestion_hidden toasts].
  unfold requests_after_finish. rewrite Hl.
  split; [reflexivity|]. split; [reflexivity|]. split; [reflexivity|].
  split; [reflexivity|]. rewrite length_app. cbn. lia.
Qed.

Lemma finishQuiz_without_lesson_witness :
  exists s',
    finishQuiz 30000 lessonless_state = (Ok tt, s')
    /\ saveRequests s' = saveRequests lessonless_state
    /\ resultPanel (view s')
       = Some (report_panel 30000 (quizStartTime lessonless_state)
                 (finished_quiz sample_questions
                    [Some {| selected := 1; correct := 1; isCorrect := true |};
                     Some {| selected := 0; correct := 0; isCorrect := true |};
                     Some {| selected := 0; correct := 2; isCorrect := false |};
                     Some {| selected := 3; correct := 3; isCorrect := true |}]))
    /\ quizResult_hidden (view s') = false
    /\ quizQuestion_hidden (view s') = true
    /\ length (toasts (view s')) = S (length (toasts (view lessonless_state))).
Proof.
  apply (finishQuiz_without_lesson 30000 lessonless_state
           (finished_quiz sample_questions
              [Some {| selected := 1; correct := 1; isCorrect := true |};
               Some {| selected := 0; correct := 0; isCorrect := true |};
               Some {| selected := 0; correct := 2; isCorrect := false |};
               Some {| selected := 3; correct := 3; isCorrect := true |}]));
    reflexivity.
Defined.
